(** * A shallow embedding of the analytics aggregators of github-mcp

    The Python sources under [src/src/] turn GitHub REST responses
    (parsed JSON) into report dictionaries.  This development embeds the
    parts the specification talks about:

    - [pyval]: the Python values the code manipulates (parsed JSON plus
      floats), dictionaries as association lists in insertion order;
    - [M]: Python's exception behaviour, as an error monad;
    - the HTTP layer (httpx [Client.get], [raise_for_status]);
    - the aggregators and the scoring helpers the claims are about. *)

From Stdlib Require Import ZArith List String Ascii Bool Lia Permutation.
From Stdlib Require Import Sorting.Sorted SpecFloat.
Import ListNotations.
Set Warnings "-register-all".
Open Scope string_scope.
Open Scope Z_scope.

(** ** IEEE-754 binary64, as Python's [float] *)

Module F64.
Definition prec : Z := 53.
Definition emax : Z := 1024.
Definition t := spec_float.
Definition of_Z (z : Z) : t := binary_normalize prec emax z 0 false.
Definition add (x y : t) : t := SFadd prec emax x y.
Definition mul (x y : t) : t := SFmul prec emax x y.
Definition div (x y : t) : t := SFdiv prec emax x y.
Definition ltb (x y : t) : bool := SFltb x y.
Definition leb (x y : t) : bool := SFleb x y.
End F64.

(** ** Python values *)

Inductive pyval : Type :=
| PNone
| PBool (b : bool)
| PInt (z : Z)
| PFloat (f : F64.t)
| PStr (s : string)
| PList (l : list pyval)
| PDict (kv : list (string * pyval)).

(** Python exceptions raised by the code paths we model. *)
Inductive exn : Type :=
| HTTPStatusError (status_code : Z) (text : string)
| ValueError (msg : string)
| TypeError (msg : string)
| AttributeError (msg : string)
| OverflowError (msg : string).

Definition M (A : Type) : Type := (exn + A)%type.
Definition ret {A} (a : A) : M A := inr a.
Definition raise {A} (e : exn) : M A := inl e.
Definition bind {A B} (m : M A) (f : A -> M B) : M B :=
  match m with inl e => inl e | inr a => f a end.
Notation "x <- m ;; k" := (bind m (fun x => k))
  (at level 61, m at next level, right associativity).
Notation "' p <- m ;; k" := (bind m (fun x => match x with p => k end))
  (at level 61, p pattern, m at next level, right associativity).

(** Exact value of a finite float as a fraction [num / 2^sh]. *)
Definition f64_frac (x : F64.t) : option (Z * Z) :=
  match x with
  | S754_zero _ => Some (0, 0)
  | S754_finite s m e =>
      let n := if s then Z.neg m else Z.pos m in
      if 0 <=? e then Some (Z.shiftl n e, 0) else Some (n, - e)
  | _ => None
  end.

(** [int(x)] for a float: truncation toward zero. *)
Definition py_int_of_float (x : F64.t) : M Z :=
  match x with
  | S754_infinity _ => raise (OverflowError "cannot convert float infinity to integer")
  | S754_nan => raise (ValueError "cannot convert float NaN to integer")
  | _ => match f64_frac x with
         | Some (n, sh) => ret (Z.quot n (Z.shiftl 1 sh))
         | None => ret 0
         end
  end.

(** [round(x, nd)] for a finite float: the exact value rounded to [nd]
    decimals (ties to even), then read back as the nearest float. *)
Definition py_round (nd : Z) (x : F64.t) : F64.t :=
  match f64_frac x with
  | Some (n, sh) =>
      let num := n * 10 ^ nd in
      let den := Z.shiftl 1 sh in
      let q := num / den in
      let r := num mod den in
      let k := match Z.compare (2 * r) den with
               | Lt => q
               | Gt => q + 1
               | Eq => if Z.even q then q else q + 1
               end in
      F64.div (F64.of_Z k) (F64.of_Z (10 ^ nd))
  | None => x
  end.

(** Python numbers: [int] or [float]. *)
Inductive num := NI (z : Z) | NF (f : F64.t).

Definition num_to_float (a : num) : F64.t :=
  match a with NI z => F64.of_Z z | NF f => f end.

(** [a + b], [a * b]: int with int stays int, otherwise float. *)
Definition num_add (a b : num) : num :=
  match a, b with NI x, NI y => NI (x + y) | _, _ => NF (F64.add (num_to_float a) (num_to_float b)) end.
Definition num_mul (a b : num) : num :=
  match a, b with NI x, NI y => NI (x * y) | _, _ => NF (F64.mul (num_to_float a) (num_to_float b)) end.

(** [a / b] on ints (true division; exact inputs below 2^53). *)
Definition int_truediv (a b : Z) : num := NF (F64.div (F64.of_Z a) (F64.of_Z b)).

(** [a < b], compared exactly as Python compares int and float. *)
Definition num_ltb (a b : num) : bool :=
  match a, b with
  | NI x, NI y => x <? y
  | _, _ => F64.ltb (num_to_float a) (num_to_float b)
  end.

(** [min(a, b)]: the first argument unless the second is smaller. *)
Definition num_min (a b : num) : num := if num_ltb b a then b else a.

(** [int(a)] *)
Definition num_int (a : num) : M Z :=
  match a with NI z => inr z | NF f => py_int_of_float f end.

Definition num_val (a : num) : pyval := match a with NI z => PInt z | NF f => PFloat f end.

(** [dict.get(k)] on an association list: the first binding of [k]. *)
Fixpoint lookup (k : string) (kv : list (string * pyval)) : option pyval :=
  match kv with
  | [] => None
  | (k', v) :: kv' => if String.eqb k k' then Some v else lookup k kv'
  end.

(** [d.get(k, default)]; a non-dict receiver has no [get]. *)
Definition get (d : pyval) (k : string) (default : pyval) : M pyval :=
  match d with
  | PDict kv => match lookup k kv with Some v => ret v | None => ret default end
  | _ => raise (AttributeError "get")
  end.

(** Python truthiness. *)
Definition truthy (v : pyval) : bool :=
  match v with
  | PNone => false
  | PBool b => b
  | PInt z => negb (Z.eqb z 0)
  | PFloat f => negb (SFeqb f (F64.of_Z 0))
  | PStr s => negb (String.eqb s "")
  | PList l => match l with [] => false | _ => true end
  | PDict kv => match kv with [] => false | _ => true end
  end.

(** [len(x)] *)
Definition py_len (v : pyval) : M Z :=
  match v with
  | PStr s => ret (Z.of_nat (String.length s))
  | PList l => ret (Z.of_nat (List.length l))
  | PDict kv => ret (Z.of_nat (List.length kv))
  | _ => raise (TypeError "object has no len()")
  end.

(** ** PR complexity score ([pr_reviews._calculate_complexity_score]) *)

Module PRReviews.

(** An integer field read with [d.get(k, 0)]. *)
Definition get_int (d : pyval) (k : string) : M Z :=
  v <- get d k (PInt 0) ;;
  match v with PInt z => ret z | _ => raise (TypeError "int expected") end.

Definition _calculate_complexity_score (file_analysis commit_analysis : pyval)
  : M pyval :=
  file_count <- get_int file_analysis "total_files" ;;
  let '(s1, f1) :=
    if file_count >? 20 then (30, ["High file count"])
    else if file_count >? 10 then (15, ["Moderate file count"])
    else (0, []) in
  adds <- get_int file_analysis "total_additions" ;;
  dels <- get_int file_analysis "total_deletions" ;;
  let total_changes := adds + dels in
  let '(s2, f2) :=
    if total_changes >? 1000 then (40, ["Large number of changes"])
    else if total_changes >? 500 then (20, ["Moderate number of changes"])
    else (0, []) in
  langs <- get file_analysis "languages" (PDict []) ;;
  lang_count <- py_len langs ;;
  let '(s3, f3) := if lang_count >? 3 then (15, ["Multiple languages"]) else (0, []) in
  lf <- get file_analysis "large_files" (PList []) ;;
  large_files <- py_len lf ;;
  let '(s4, f4) := if large_files >? 0 then (15, ["Large file changes"]) else (0, []) in
  commit_count <- get_int commit_analysis "total_commits" ;;
  let '(s5, f5) := if commit_count >? 10 then (10, ["Many commits"]) else (0, []) in
  let score := s1 + s2 + s3 + s4 + s5 in
  ret (PDict [("score", PInt (Z.min score 100));
              ("level", PStr (if score >? 70 then "High"
                              else if score >? 30 then "Medium" else "Low"));
              ("factors", PList (map PStr (f1 ++ f2 ++ f3 ++ f4 ++ f5)%list))]).

End PRReviews.

(** ** Sorting and traversals *)

Fixpoint mapM {A B} (f : A -> M B) (xs : list A) : M (list B) :=
  match xs with
  | [] => ret []
  | x :: xs' => y <- f x ;; ys <- mapM f xs' ;; ret (y :: ys)
  end.

Section Sorting.
Context {K A : Type} (ltb : K -> K -> bool).

(** [sorted(xs, key=k, reverse=True)] once the keys are computed: a
    stable sort into descending key order (elements with equal keys keep
    their input order). *)
Fixpoint insert_desc (kx : K * A) (acc : list (K * A)) : list (K * A) :=
  match acc with
  | [] => [kx]
  | ky :: acc' => if ltb (fst ky) (fst kx) then kx :: ky :: acc'
                  else ky :: insert_desc kx acc'
  end.

Definition sort_desc (kxs : list (K * A)) : list A :=
  map snd (fold_left (fun acc kx => insert_desc kx acc) kxs []).

End Sorting.

(** [sorted(xs)] on strings, ascending. *)
Fixpoint insert_asc (x : string) (acc : list string) : list string :=
  match acc with
  | [] => [x]
  | y :: acc' => if String.ltb x y then x :: y :: acc' else y :: insert_asc x acc'
  end.
Definition sort_strings (xs : list string) : list string :=
  fold_left (fun acc x => insert_asc x acc) xs [].

(** ** Strings and numbers as the code formats them *)

Fixpoint digits_of (fuel : nat) (n : Z) (acc : string) : string :=
  match fuel with
  | O => acc
  | S f =>
      let acc' := String (ascii_of_nat (48 + Z.to_nat (n mod 10))) acc in
      if n <? 10 then acc' else digits_of f (n / 10) acc'
  end.

(** [str(z)] for a Python int. *)
Definition string_of_Z (z : Z) : string :=
  let fuel := S (Z.to_nat (Z.log2 (Z.abs z))) in
  if z <? 0 then "-" ++ digits_of fuel (- z) "" else digits_of fuel z "".

(** Zero-padded field of [strftime] ([%Y], [%m], [%d], [%H], [%M]). *)
Fixpoint zeros (n : nat) : string :=
  match n with O => "" | S k => String "0" (zeros k) end.
Definition pad (width : nat) (z : Z) : string :=
  let s := string_of_Z z in zeros (width - String.length s) ++ s.

(** [s.replace(old, new)] for a one-character [old]. *)
Fixpoint replace_char (c : ascii) (new s : string) : string :=
  match s with
  | EmptyString => EmptyString
  | String c' s' =>
      if Ascii.eqb c c' then new ++ replace_char c new s'
      else String c' (replace_char c new s')
  end.

(** [s.split(sep)[0]] for a one-character [sep]. *)
Fixpoint split_first (c : ascii) (s : string) : string :=
  match s with
  | EmptyString => EmptyString
  | String c' s' => if Ascii.eqb c c' then EmptyString else String c' (split_first c s')
  end.

(** Python [==] on the values the code compares (names, refs, dates):
    scalars by value ([True == 1]), containers structurally. *)
Fixpoint py_eqb (a b : pyval) {struct a} : bool :=
  match a, b with
  | PNone, PNone => true
  | PBool x, PBool y => Bool.eqb x y
  | PInt x, PInt y => Z.eqb x y
  | PBool x, PInt y | PInt y, PBool x => Z.eqb (if x then 1 else 0) y
  | PFloat x, PFloat y => SFeqb x y
  | PStr x, PStr y => String.eqb x y
  | PList xs, PList ys =>
      (fix go (xs ys : list pyval) : bool :=
         match xs, ys with
         | [], [] => true
         | x :: xs', y :: ys' => py_eqb x y && go xs' ys'
         | _, _ => false
         end) xs ys
  | PDict xs, PDict ys =>
      (fix go (xs ys : list (string * pyval)) : bool :=
         match xs, ys with
         | [], [] => true
         | (k, x) :: xs', (k', y) :: ys' => String.eqb k k' && py_eqb x y && go xs' ys'
         | _, _ => false
         end) xs ys
  | _, _ => false
  end.

(** Iterating a value in a [for] loop or [sorted]: lists yield their
    items, dicts their keys, strings their characters. *)
Definition py_iter (v : pyval) : M (list pyval) :=
  match v with
  | PList l => ret l
  | PDict kv => ret (map (fun '(k, _) => PStr k) kv)
  | PStr s => ret (map (fun c => PStr (String c EmptyString)) (list_ascii_of_string s))
  | _ => raise (TypeError "object is not iterable")
  end.

(** ** Dates

    An aware or naive [datetime] is its wall-clock time (seconds since
    1970-01-01 00:00, read as if it were UTC) and its UTC offset, absent
    for a naive value. *)
Record datetime := mkdt { dt_wall : Z; dt_offset : option Z }.

(** Proleptic Gregorian calendar, day 0 = 1970-01-01. *)
Definition days_from_civil (y m d : Z) : Z :=
  let y' := if m <=? 2 then y - 1 else y in
  let era := y' / 400 in
  let yoe := y' - era * 400 in
  let doy := (153 * (if m >? 2 then m - 3 else m + 9) + 2) / 5 + d - 1 in
  let doe := yoe * 365 + yoe / 4 - yoe / 100 + doy in
  era * 146097 + doe - 719468.

Definition civil_from_days (z0 : Z) : Z * Z * Z :=
  let z := z0 + 719468 in
  let era := z / 146097 in
  let doe := z - era * 146097 in
  let yoe := (doe - doe / 1460 + doe / 36524 - doe / 146096) / 365 in
  let y := yoe + era * 400 in
  let doy := doe - (365 * yoe + yoe / 4 - yoe / 100) in
  let mp := (5 * doy + 2) / 153 in
  let d := doy - (153 * mp + 2) / 5 + 1 in
  let m := if mp <? 10 then mp + 3 else mp - 9 in
  (if m <=? 2 then y + 1 else y, m, d).

(** [dt.strftime("%Y-%m-%d")] and [dt.strftime("%Y-%m-%d %H:%M")]
    ([%Y] is not zero-padded, as with the C library on Linux). *)
Definition date_key (day : Z) : string :=
  let '(y, m, d) := civil_from_days day in
  string_of_Z y ++ "-" ++ pad 2 m ++ "-" ++ pad 2 d.
Definition strftime_date (dt : datetime) : string := date_key (dt_wall dt / 86400).
Definition strftime_minute (dt : datetime) : string :=
  let s := dt_wall dt mod 86400 in
  strftime_date dt ++ " " ++ pad 2 (s / 3600) ++ ":" ++ pad 2 ((s mod 3600) / 60).

(** The environment of a call: the clock and the ISO-8601 reader
    [datetime.fromisoformat] ([None] where it raises [ValueError]). *)
Record Env := mkEnv {
  now_utc : Z;                  (* datetime.now(timezone.utc), epoch seconds *)
  now_local : Z;                (* datetime.now(), local wall clock *)
  fromisoformat : string -> option datetime
}.

(** [(aware_now - dt).days]; subtracting a naive datetime raises. *)
Definition days_since (env : Env) (dt : datetime) : M Z :=
  match dt_offset dt with
  | Some off => ret ((now_utc env - (dt_wall dt - off)) / 86400)
  | None => raise (TypeError "can't subtract offset-naive and offset-aware datetimes")
  end.

(** [datetime.fromisoformat(s.replace('Z', '+00:00'))] on a value read
    from JSON. *)
Definition parse_iso (env : Env) (v : pyval) : M datetime :=
  match v with
  | PStr s =>
      match fromisoformat env (replace_char "Z" "+00:00" s) with
      | Some dt => ret dt
      | None => raise (ValueError ("Invalid isoformat string: " ++ s))
      end
  | _ => raise (AttributeError "replace")
  end.

(** A reader for the ISO-8601 forms the GitHub API emits,
    [YYYY-MM-DDTHH:MM:SS] with an optional [+HH:MM] / [-HH:MM] offset;
    every other string is rejected.  It is used only to evaluate the
    code on concrete inputs; the general statements below hold for any
    [fromisoformat]. *)
Definition digit (c : ascii) : option Z :=
  let n := Z.of_nat (nat_of_ascii c) in
  if (48 <=? n) && (n <=? 57) then Some (n - 48) else None.

Fixpoint digits_val (cs : list ascii) (acc : Z) : option Z :=
  match cs with
  | [] => Some acc
  | c :: cs' => match digit c with
                | Some d => digits_val cs' (acc * 10 + d)
                | None => None
                end
  end.

Definition iso_offset (cs : list ascii) : option (option Z) :=
  match cs with
  | [] => Some None
  | [sg; h1; h2; ":"%char; m1; m2] =>
      match digits_val [h1; h2] 0, digits_val [m1; m2] 0 with
      | Some h, Some m =>
          let off := h * 3600 + m * 60 in
          if Ascii.eqb sg "+"%char then Some (Some off)
          else if Ascii.eqb sg "-"%char then Some (Some (- off)) else None
      | _, _ => None
      end
  | _ => None
  end.

Definition iso_model (s : string) : option datetime :=
  match list_ascii_of_string s with
  | y1 :: y2 :: y3 :: y4 :: "-"%char :: mo1 :: mo2 :: "-"%char :: d1 :: d2 :: "T"%char
       :: h1 :: h2 :: ":"%char :: mi1 :: mi2 :: ":"%char :: s1 :: s2 :: rest =>
      match digits_val [y1; y2; y3; y4] 0, digits_val [mo1; mo2] 0,
            digits_val [d1; d2] 0, digits_val [h1; h2] 0,
            digits_val [mi1; mi2] 0, digits_val [s1; s2] 0, iso_offset rest with
      | Some y, Some mo, Some d, Some h, Some mi, Some sc, Some off =>
          let day := days_from_civil y mo d in
          if (1 <=? mo) && (mo <=? 12) && (1 <=? d)
             && (let '(y', mo', d') := civil_from_days day in
                 (y' =? y) && (mo' =? mo) && (d' =? d))
             && (h <? 24) && (mi <? 60) && (sc <? 60)
          then Some (mkdt (day * 86400 + h * 3600 + mi * 60 + sc) off)
          else None
      | _, _, _, _, _, _, _ => None
      end
  | _ => None
  end.

(** ** The HTTP layer (httpx) *)

Record response := mkResponse {
  status_code : Z;
  text : string;            (* the raw body *)
  json : pyval              (* response.json() *)
}.

(** The GitHub API as seen by one call: the response each URL gets.
    Query parameters ([per_page], [state], ...) are not modelled. *)
Definition server := string -> response.

Definition is_success (r : response) : bool :=
  (200 <=? status_code r) && (status_code r <? 300).

(** [response.raise_for_status()]: any non-2xx status raises. *)
Definition raise_for_status (r : response) : M unit :=
  if is_success r then ret tt else raise (HTTPStatusError (status_code r) (text r)).

(** [r = client.get(url); r.raise_for_status(); r.json()] *)
Definition fetch (srv : server) (url : string) : M pyval :=
  let r := srv url in
  _ <- raise_for_status r ;;
  ret (json r).

Definition exn_str (e : exn) : string :=
  match e with
  | HTTPStatusError c _ => "HTTP status " ++ string_of_Z c
  | ValueError m | TypeError m | AttributeError m | OverflowError m => m
  end.

Definition no_token_report : pyval :=
  PDict [("error", PStr "⚠️ No GITHUB_TOKEN set in environment.")].

Definition http_error_report (code : Z) (body : string) : pyval :=
  PDict [("error", PStr ("HTTP error " ++ string_of_Z code)); ("details", PStr body)].

(** The frame every tool shares: the token guard, then
    [try: ... except httpx.HTTPStatusError ... except Exception ...]. *)
Definition run_tool (token : bool) (msg : string) (body : M pyval) : pyval :=
  if negb token then no_token_report
  else match body with
       | inr v => v
       | inl (HTTPStatusError c t) => http_error_report c t
       | inl e => PDict [("error", PStr msg); ("details", PStr (exn_str e))]
       end.

Definition api : string := "https://api.github.com".

(** ** Branch status overview ([repo_management/branches.py]) *)

Module Branches.

(** [s[:n]] on a value read from JSON. *)
Definition slice_str (n : nat) (v : pyval) : M pyval :=
  match v with
  | PStr s => ret (PStr (substring 0 n s))
  | _ => raise (TypeError "object is not subscriptable")
  end.

(** [s.split('\n')[0]] *)
Definition first_line (v : pyval) : M pyval :=
  match v with
  | PStr s => ret (PStr (split_first "010"%char s))
  | _ => raise (AttributeError "split")
  end.

(** The sort key [(b.get("name") != default_branch,
    b.get("commit", {}).get("commit", {}).get("author", {}).get("date", ""))].
    The dates the API returns are strings; a key whose date is not a
    string is refused, as Python refuses to order it against a string. *)
Definition sort_key (default_branch b : pyval) : M (bool * string) :=
  nm <- get b "name" PNone ;;
  c <- get b "commit" (PDict []) ;;
  cc <- get c "commit" (PDict []) ;;
  a <- get cc "author" (PDict []) ;;
  d <- get a "date" (PStr "") ;;
  match d with
  | PStr ds => ret (negb (py_eqb nm default_branch), ds)
  | _ => raise (TypeError "'<' not supported between instances")
  end.

(** Tuple order on keys: [False < True], then the string order. *)
Definition key_ltb (k1 k2 : bool * string) : bool :=
  let '(b1, s1) := k1 in
  let '(b2, s2) := k2 in
  if Bool.eqb b1 b2 then String.ltb s1 s2 else negb b1.

Definition sorted_branches (default_branch : pyval) (branches : list pyval)
  : M (list pyval) :=
  keys <- mapM (sort_key default_branch) branches ;;
  ret (sort_desc key_ltb (combine keys branches)).

(** [pr_map]: head ref -> PR summary; a later PR on the same ref
    overwrites the earlier one in place. *)
Fixpoint dict_set (k v : pyval) (d : list (pyval * pyval)) : list (pyval * pyval) :=
  match d with
  | [] => [(k, v)]
  | (k', v') :: d' => if py_eqb k k' then (k', v) :: d' else (k', v') :: dict_set k v d'
  end.
Fixpoint dict_get (k : pyval) (d : list (pyval * pyval)) : option pyval :=
  match d with
  | [] => None
  | (k', v) :: d' => if py_eqb k k' then Some v else dict_get k d'
  end.

Definition pr_entry (pr : pyval) : M pyval :=
  n <- get pr "number" PNone ;;
  st <- get pr "state" PNone ;;
  mg <- get pr "merged" (PBool false) ;;
  ti <- get pr "title" (PStr "") ;;
  u <- get pr "html_url" (PStr "") ;;
  ret (PDict [("number", n); ("state", st); ("merged", mg); ("title", ti); ("url", u)]).

Fixpoint build_pr_map (prs : list pyval) (acc : list (pyval * pyval))
  : M (list (pyval * pyval)) :=
  match prs with
  | [] => ret acc
  | pr :: prs' =>
      h <- get pr "head" (PDict []) ;;
      head_ref <- get h "ref" PNone ;;
      if truthy head_ref
      then e <- pr_entry pr ;; build_pr_map prs' (dict_set head_ref e acc)
      else build_pr_map prs' acc
  end.

(** The [try: ... except: date_display = {"raw": commit_date}] block. *)
Definition date_display (env : Env) (commit_date : pyval) : pyval :=
  if py_eqb commit_date (PStr "Unknown") then PDict [("raw", PStr "Unknown")]
  else match (dt <- parse_iso env commit_date ;;
              days_ago <- days_since env dt ;;
              ret (PDict [("raw", commit_date);
                          ("formatted", PStr (strftime_minute dt));
                          ("days_ago", PInt days_ago)])) with
       | inr v => v
       | inl _ => PDict [("raw", commit_date)]
       end.

Definition branch_entry (env : Env) (default_branch : pyval)
  (pr_map : list (pyval * pyval)) (branch : pyval) : M pyval :=
  name <- get branch "name" (PStr "Unknown") ;;
  commit <- get branch "commit" (PDict []) ;;
  commit_data <- get commit "commit" (PDict []) ;;
  sha <- get commit "sha" (PStr "") ;;
  commit_sha <- slice_str 7 sha ;;
  author <- get commit_data "author" (PDict []) ;;
  commit_author <- get author "name" (PStr "Unknown") ;;
  author' <- get commit_data "author" (PDict []) ;;
  commit_date <- get author' "date" (PStr "Unknown") ;;
  msg <- get commit_data "message" (PStr "No message") ;;
  commit_message <- first_line msg ;;
  let is_default := py_eqb name default_branch in
  pr_summary <- match dict_get name pr_map with
                | Some pr_info =>
                    if truthy pr_info then
                      n <- get pr_info "number" PNone ;;
                      st <- get pr_info "state" PNone ;;
                      mg <- get pr_info "merged" PNone ;;
                      ti <- get pr_info "title" PNone ;;
                      u <- get pr_info "url" PNone ;;
                      ret (PDict [("number", n); ("state", st); ("merged", mg);
                                  ("title", ti); ("url", u)])
                    else ret PNone
                | None => ret PNone
                end ;;
  ret (PDict [("name", name);
              ("is_default", PBool is_default);
              ("commit", PDict [("sha", commit_sha); ("author", commit_author);
                                ("date", date_display env commit_date);
                                ("message", commit_message)]);
              ("pull_request", pr_summary)]).

Definition overview_body (env : Env) (srv : server) (owner repo : string) : M pyval :=
  let repo_url := api ++ "/repos/" ++ owner ++ "/" ++ repo in
  branches <- fetch srv (repo_url ++ "/branches") ;;
  repo_data <- fetch srv repo_url ;;
  default_branch <- get repo_data "default_branch" (PStr "main") ;;
  prs <- fetch srv (repo_url ++ "/pulls") ;;
  if negb (truthy branches) then
    ret (PDict [("owner", PStr owner); ("repo", PStr repo); ("branches", PList []);
                ("default_branch", default_branch);
                ("message", PStr ("🌿 No branches found in " ++ owner ++ "/" ++ repo))])
  else
    pr_list <- py_iter prs ;;
    pr_map <- build_pr_map pr_list [] ;;
    bl <- py_iter branches ;;
    sorted <- sorted_branches default_branch bl ;;
    results <- mapM (branch_entry env default_branch pr_map) sorted ;;
    total <- py_len branches ;;
    ret (PDict [("owner", PStr owner); ("repo", PStr repo);
                ("default_branch", default_branch);
                ("total_branches", PInt total);
                ("branches", PList results)]).

(** [get_branch_status_overview(owner, repo, limit)]; [limit] only
    sets the page size of the branch request. *)
Definition get_branch_status_overview (token : bool) (env : Env) (srv : server)
  (owner repo : string) (limit : Z) : pyval :=
  run_tool token "Exception occurred while fetching branch status"
    (overview_body env srv owner repo).

End Branches.

(** ** Repository health ([repo_management/health.py]) *)

Module Health.

(** [s.upper()] / [s.lower()] on ASCII letters. *)
Definition upper_ascii (c : ascii) : ascii :=
  let n := nat_of_ascii c in
  if (97 <=? n)%nat && (n <=? 122)%nat then ascii_of_nat (n - 32) else c.
Definition lower_ascii (c : ascii) : ascii :=
  let n := nat_of_ascii c in
  if (65 <=? n)%nat && (n <=? 90)%nat then ascii_of_nat (n + 32) else c.
Fixpoint map_str (f : ascii -> ascii) (s : string) : string :=
  match s with EmptyString => EmptyString | String c s' => String (f c) (map_str f s') end.
Definition upper := map_str upper_ascii.
Definition lower := map_str lower_ascii.

(** [needle in hay] for strings. *)
Definition contains (needle hay : string) : bool :=
  match String.index 0 needle hay with Some _ => true | None => false end.

(** [v in d] for a dict [d] with string keys: hashable non-strings are
    never equal to a key; lists and dicts are unhashable. *)
Definition in_str_keys (v : pyval) (keys : list string) : M bool :=
  match v with
  | PStr s => ret (existsb (String.eqb s) keys)
  | PList _ | PDict _ => raise (TypeError "unhashable type")
  | _ => ret false
  end.

Definition check_result := (Z * list string * list string)%type.

Definition readme_files : list string :=
  ["README.md"; "readme.md"; "README.txt"; "readme.txt"; "README.rst"; "README"].

Fixpoint check_readme_loop (items : list pyval) : M pyval :=
  match items with
  | [] => ret (PDict [("exists", PBool false)])
  | item :: items' =>
      nm <- get item "name" (PStr "") ;;
      match nm with
      | PStr s =>
          if existsb (String.eqb (upper s)) (map upper readme_files)
          then n <- get item "name" PNone ;; ret (PDict [("exists", PBool true); ("file", n)])
          else check_readme_loop items'
      | _ => raise (AttributeError "upper")
      end
  end.

Definition _check_readme (contents : pyval) : M pyval :=
  items <- py_iter contents ;; check_readme_loop items.

Definition license_files : list string :=
  ["LICENSE"; "LICENSE.md"; "LICENSE.txt"; "license"; "license.md"; "license.txt"].

Fixpoint check_license_loop (items : list pyval) : M pyval :=
  match items with
  | [] => ret (PDict [("exists", PBool false)])
  | item :: items' =>
      nm <- get item "name" (PStr "") ;;
      if existsb (fun f => py_eqb nm (PStr f)) license_files
      then ret (PDict [("exists", PBool true); ("license", PStr "License file found")])
      else check_license_loop items'
  end.

Definition _check_license (contents repo_data : pyval) : M pyval :=
  license_info <- get repo_data "license" PNone ;;
  if truthy license_info then
    n <- get license_info "name" (PStr "Unknown") ;;
    ret (PDict [("exists", PBool true); ("license", n)])
  else items <- py_iter contents ;; check_license_loop items.

(** A table [{file name: label}] as an association list. *)
Definition table := list (string * string).
Definition label (t : table) (s : string) : string :=
  match find (fun '(k, _) => String.eqb k s) t with Some (_, l) => l | None => "" end.
Definition keys (t : table) : list string := map fst t.

Definition security_files : table :=
  [("SECURITY.md", "Security policy"); ("security.md", "Security policy");
   (".github/SECURITY.md", "Security policy"); ("SECURITY.txt", "Security policy");
   ("security.txt", "Security policy")].

(** The loop of [_check_security_files]: score, good, found_security. *)
Fixpoint security_loop (items : list pyval) : M (Z * list string * bool) :=
  match items with
  | [] => ret (0, [], false)
  | item :: items' =>
      nm <- get item "name" (PStr "") ;;
      hit <- in_str_keys nm (keys security_files) ;;
      '(sc, good, found) <- security_loop items' ;;
      match nm with
      | PStr s =>
          if hit then ret (5 + sc, ("✅ " ++ label security_files s ++ " found: " ++ s) :: good, true)
          else ret (sc, good, found)
      | _ => ret (sc, good, found)
      end
  end.

Definition _check_security_files (contents : pyval) : M check_result :=
  items <- py_iter contents ;;
  '(sc, good, found) <- security_loop items ;;
  ret (sc, good, if found then [] else ["❌ Missing security policy (SECURITY.md)"]).

Definition contrib_files : table :=
  [("CONTRIBUTING.md", "Contributing guidelines"); ("contributing.md", "Contributing guidelines");
   (".github/CONTRIBUTING.md", "Contributing guidelines"); ("CONTRIBUTING.txt", "Contributing guidelines");
   ("CODE_OF_CONDUCT.md", "Code of conduct"); ("code_of_conduct.md", "Code of conduct");
   (".github/CODE_OF_CONDUCT.md", "Code of conduct")].

Fixpoint contrib_loop (items : list pyval) : M (Z * list string * bool * bool) :=
  match items with
  | [] => ret (0, [], false, false)
  | item :: items' =>
      nm <- get item "name" (PStr "") ;;
      hit <- in_str_keys nm (keys contrib_files) ;;
      '(sc, good, fc, fk) <- contrib_loop items' ;;
      match nm with
      | PStr s =>
          if hit then
            let good' := ("✅ " ++ label contrib_files s ++ " found: " ++ s) :: good in
            if contains "CONTRIBUTING" (upper s) then ret (3 + sc, good', true, fk)
            else if contains "CODE_OF_CONDUCT" (upper s) then ret (3 + sc, good', fc, true)
            else ret (3 + sc, good', fc, fk)
          else ret (sc, good, fc, fk)
      | _ => ret (sc, good, fc, fk)
      end
  end.

Definition _check_contribution_files (contents : pyval) : M check_result :=
  items <- py_iter contents ;;
  '(sc, good, fc, fk) <- contrib_loop items ;;
  ret (sc, good,
       ((if fc then [] else ["⚠️ Missing contributing guidelines (CONTRIBUTING.md)"])
        ++ (if fk then [] else ["⚠️ Missing code of conduct (CODE_OF_CONDUCT.md)"]))%list).

Definition ci_files : table :=
  [(".github/workflows/", "GitHub Actions workflows"); (".travis.yml", "Travis CI");
   (".circleci/", "CircleCI"); ("Jenkinsfile", "Jenkins"); (".gitlab-ci.yml", "GitLab CI");
   ("azure-pipelines.yml", "Azure Pipelines"); (".github/workflows/ci.yml", "GitHub Actions CI");
   (".github/workflows/test.yml", "GitHub Actions Tests")].

Fixpoint ci_loop (items : list pyval) : M (Z * list string * bool) :=
  match items with
  | [] => ret (0, [], false)
  | item :: items' =>
      nm <- get item "name" (PStr "") ;;
      item_type <- get item "type" (PStr "") ;;
      hit <- in_str_keys nm (keys ci_files) ;;
      '(sc, good, found) <- ci_loop items' ;;
      match nm with
      | PStr s =>
          if hit then ret (8 + sc, ("✅ " ++ label ci_files s ++ " found: " ++ s) :: good, true)
          else if py_eqb item_type (PStr "dir") && String.eqb s ".github"
          then ret (2 + sc, "✅ .github directory found" :: good, found)
          else ret (sc, good, found)
      | _ => ret (sc, good, found)
      end
  end.

Definition _check_ci_cd (contents : pyval) : M check_result :=
  items <- py_iter contents ;;
  '(sc, good, found) <- ci_loop items ;;
  ret (sc, good, if found then [] else ["⚠️ No CI/CD configuration found"]).

Definition dependency_files : table :=
  [("package.json", "Node.js dependencies"); ("requirements.txt", "Python dependencies");
   ("Pipfile", "Python Pipenv dependencies"); ("poetry.lock", "Python Poetry dependencies");
   ("Gemfile", "Ruby dependencies"); ("pom.xml", "Maven dependencies");
   ("build.gradle", "Gradle dependencies"); ("Cargo.toml", "Rust dependencies");
   ("go.mod", "Go dependencies"); ("composer.json", "PHP dependencies")].

Definition lock_file_of (s : string) : option string :=
  if String.eqb s "package.json" then Some "package-lock.json"
  else if String.eqb s "Pipfile" then Some "Pipfile.lock"
  else if String.eqb s "Gemfile" then Some "Gemfile.lock"
  else if String.eqb s "composer.json" then Some "composer.lock"
  else None.

(** [any(item.get("name") == lock_file for item in contents)] *)
Fixpoint any_named (lock : string) (items : list pyval) : M bool :=
  match items with
  | [] => ret false
  | item :: items' =>
      nm <- get item "name" PNone ;;
      if py_eqb nm (PStr lock) then ret true else any_named lock items'
  end.

Fixpoint deps_loop (all items : list pyval) : M (Z * list string * list string * bool) :=
  match items with
  | [] => ret (0, [], [], false)
  | item :: items' =>
      nm <- get item "name" (PStr "") ;;
      hit <- in_str_keys nm (keys dependency_files) ;;
      here <- match nm with
              | PStr s =>
                  if hit then
                    let g := "✅ " ++ label dependency_files s ++ " found: " ++ s in
                    match lock_file_of s with
                    | Some lf =>
                        lock_found <- any_named lf all ;;
                        if lock_found
                        then ret (7, [g; "✅ Lock file found: " ++ lf], @nil string, true)
                        else ret (5, [g], ["⚠️ Missing lock file: " ++ lf], true)
                    | None => ret (5, [g], [], true)
                    end
                  else ret (0, [], [], false)
              | _ => ret (0, [], [], false)
              end ;;
      '(sc, good, iss, found) <- deps_loop all items' ;;
      let '(sc0, good0, iss0, found0) := here in
      ret (sc0 + sc, (good0 ++ good)%list, (iss0 ++ iss)%list, found0 || found)
  end.

Definition _check_dependencies (owner repo : string) (contents : pyval) : M check_result :=
  items <- py_iter contents ;;
  '(sc, good, iss, found) <- deps_loop items items ;;
  ret (sc, good, (iss ++ if found then [] else ["ℹ️ No dependency files detected"])%list).

(** [', '.join(topics[:3])] and the ellipsis when there are more. *)
Definition topics_text (topics : pyval) : M string :=
  match topics with
  | PList l =>
      strs <- mapM (fun v => match v with
                                      | PStr s => ret s
                                      | _ => raise (TypeError "sequence item: expected str")
                                      end) (firstn 3 l) ;;
      ret (String.concat ", " strs ++ if (3 <? List.length l)%nat then "..." else "")
  | PStr s =>
      ret (String.concat ", " (map (fun c => String c EmptyString)
                                  (firstn 3 (list_ascii_of_string s)))
           ++ if (3 <? String.length s)%nat then "..." else "")
  | _ => raise (TypeError "object is not subscriptable")
  end.

Definition _check_repository_settings (repo_data : pyval) : M (check_result * pyval) :=
  hi <- get repo_data "has_issues" PNone ;;
  hw <- get repo_data "has_wiki" PNone ;;
  hp <- get repo_data "has_projects" PNone ;;
  topics <- get repo_data "topics" (PList []) ;;
  topics_str <- (if truthy topics then topics_text topics else ret "") ;;
  ar <- get repo_data "archived" PNone ;;
  fk <- get repo_data "fork" PNone ;;
  let sc := (if truthy hi then 3 else 0) + (if truthy hw then 2 else 0)
            + (if truthy hp then 2 else 0) + (if truthy topics then 5 else 0) in
  let good := ((if truthy hi then ["Issues are enabled"] else [])
               ++ (if truthy hw then ["Wiki is enabled"] else [])
               ++ (if truthy hp then ["Projects are enabled"] else [])
               ++ (if truthy topics then [String.append "Repository has topics: " topics_str] else []))%list in
  let iss := ((if truthy hi then [] else ["Issues are disabled"])
              ++ (if truthy topics then [] else ["No topics set for repository"])
              ++ (if truthy ar then ["Repository is archived"] else [])
              ++ (if truthy fk then ["Repository is a fork"] else []))%list in
  ret ((sc, good, iss), topics).

(** [str(v)] for the scalar values interpolated into messages. *)
Definition py_str (v : pyval) : string :=
  match v with
  | PNone => "None"
  | PBool b => if b then "True" else "False"
  | PInt z => string_of_Z z
  | PStr s => s
  | _ => "<object>"
  end.

Definition any_contains (needle : string) (ps : list string) : bool :=
  existsb (contains needle) ps.

(** [health_percentage = min(100, (health_score / max_score) * 100)]:
    the float, or the int [100] when the float is not below it. *)
Definition health_ratio (health_score : Z) : F64.t :=
  F64.mul (F64.div (F64.of_Z health_score) (F64.of_Z 100)) (F64.of_Z 100).

Definition health_status (p : F64.t) : string :=
  if F64.leb (F64.of_Z 90) p then "Excellent"
  else if F64.leb (F64.of_Z 70) p then "Good"
  else if F64.leb (F64.of_Z 50) p then "Needs Improvement"
  else "Poor".

Definition health_analysis (env : Env) (owner repo : string) (repo_data contents : pyval)
  : M pyval :=
  description <- get repo_data "description" PNone ;;
  let '(s_desc, g_desc, i_desc) :=
    if truthy description then (10, ["Repository has a description"], @nil string)
    else (0, [], ["Missing repository description"]) in
  updated_at <- get repo_data "updated_at" PNone ;;
  '(days_since_update, (s_act, g_act, i_act)) <-
    (if truthy updated_at then
       last_update <- parse_iso env updated_at ;;
       d <- days_since env last_update ;;
       ret (PInt d,
            if d <=? 30 then (10, ["Recently updated (within 30 days)"], @nil string)
            else if d <=? 90 then (5, ["Updated within 90 days"], [])
            else (0, [], ["Not updated in " ++ string_of_Z d ++ " days"]))
     else ret (PNone, (0, [], []))) ;;
  readme_check <- _check_readme contents ;;
  license_check <- _check_license contents repo_data ;;
  '(s_sec, g_sec, i_sec) <- _check_security_files contents ;;
  '(s_con, g_con, i_con) <- _check_contribution_files contents ;;
  '(s_ci, g_ci, i_ci) <- _check_ci_cd contents ;;
  '(s_dep, g_dep, i_dep) <- _check_dependencies owner repo contents ;;
  '((s_set, g_set, i_set), topics) <- _check_repository_settings repo_data ;;
  readme_exists <- get readme_check "exists" PNone ;;
  readme_file <- get readme_check "file" PNone ;;
  license_exists <- get license_check "exists" PNone ;;
  license_name <- get license_check "license" PNone ;;
  let '(s_rd, g_rd, i_rd) :=
    if truthy readme_exists then (15, ["README found: " ++ py_str readme_file], @nil string)
    else (0, [], ["Missing README file"]) in
  let '(s_li, g_li, i_li) :=
    if truthy license_exists then (10, ["License found: " ++ py_str license_name], @nil string)
    else (0, [], ["Missing LICENSE file"]) in
  let health_score := s_desc + s_act + s_rd + s_li + s_sec + s_con + s_ci + s_dep + s_set in
  let good_practices := (g_desc ++ g_act ++ g_rd ++ g_li ++ g_sec ++ g_con ++ g_ci ++ g_dep ++ g_set)%list in
  let issues := (i_desc ++ i_act ++ i_rd ++ i_li ++ i_sec ++ i_con ++ i_ci ++ i_dep ++ i_set)%list in
  let x := health_ratio health_score in
  let pct := if F64.ltb x (F64.of_Z 100) then x else F64.of_Z 100 in
  let shown := if F64.ltb x (F64.of_Z 100) then PFloat (py_round 1 x) else PInt 100 in
  let recommendations :=
    ((if F64.ltb pct (F64.of_Z 90) then ["Address the issues listed to improve health"] else [])
     ++ (if any_contains "README" good_practices then []
         else ["Add a comprehensive README with setup instructions"])
     ++ (if any_contains "License" good_practices then []
         else ["Add a LICENSE file to clarify usage rights"])
     ++ (if any_contains "security" (map lower good_practices) then []
         else ["Add security policies (SECURITY.md)"])
     ++ (if any_contains "CI/CD" good_practices then []
         else ["Set up CI/CD workflows and automated testing"]))%list in
  let result_of (sc : Z) (g i : list string) :=
    PDict [("score", PInt sc); ("good", PList (map PStr g)); ("issues", PList (map PStr i))] in
  ret (PDict [("owner", PStr owner); ("repo", PStr repo);
              ("health_score", shown);
              ("status", PStr (health_status pct));
              ("description", description);
              ("days_since_update", days_since_update);
              ("good_practices", PList (map PStr good_practices));
              ("issues", PList (map PStr issues));
              ("recommendations", PList (map PStr recommendations));
              ("details", PDict [("readme", readme_check); ("license", license_check);
                                 ("ci_cd", result_of s_ci g_ci i_ci);
                                 ("security", result_of s_sec g_sec i_sec);
                                 ("contribution", result_of s_con g_con i_con);
                                 ("dependencies", result_of s_dep g_dep i_dep);
                                 ("settings", PDict [("score", PInt s_set);
                                                     ("good", PList (map PStr g_set));
                                                     ("issues", PList (map PStr i_set));
                                                     ("topics", topics)])])]).

(** [check_repository_health]: three GETs, none followed by
    [raise_for_status]; the community profile is replaced by [{}] when
    its status is not 200 and is not read afterwards. *)
Definition check_repository_health (token : bool) (env : Env) (srv : server)
  (owner repo : string) : pyval :=
  run_tool token "Exception occurred while checking repository health"
    (let repo_url := api ++ "/repos/" ++ owner ++ "/" ++ repo in
     let repo_data := json (srv repo_url) in
     let contents := json (srv (repo_url ++ "/contents")) in
     let community_r := srv (repo_url ++ "/community/profile") in
     let _community_profile :=
       if status_code community_r =? 200 then json community_r else PDict [] in
     health_analysis env owner repo repo_data contents).

End Health.

(** ** Contribution analytics ([contribution/contribution_analytics.py]) *)

Module Contribution.

(** A [defaultdict(int)] counter, in insertion order. *)
Fixpoint count_into (k : pyval) (d : list (pyval * Z)) : list (pyval * Z) :=
  match d with
  | [] => [(k, 1)]
  | (k', n) :: d' => if py_eqb k k' then (k', n + 1) :: d' else (k', n) :: count_into k d'
  end.
Definition counter (ks : list pyval) : list (pyval * Z) :=
  fold_left (fun d k => count_into k d) ks [].

(** Dictionary keys as they appear in the JSON object the tool returns. *)
Definition key_str (k : pyval) : string :=
  match k with
  | PStr s => s
  | PNone => "null"
  | PBool b => if b then "true" else "false"
  | PInt z => string_of_Z z
  | _ => "<key>"
  end.
Definition render_counts (d : list (pyval * Z)) : pyval :=
  PDict (map (fun '(k, n) => (key_str k, PInt n)) d).

Fixpoint filterM {A} (p : A -> M bool) (xs : list A) : M (list A) :=
  match xs with
  | [] => ret []
  | x :: xs' => b <- p x ;; ys <- filterM p xs' ;; ret (if b then x :: ys else ys)
  end.

Definition as_int (v : pyval) : M Z :=
  match v with
  | PInt z => ret z
  | PBool b => ret (if b then 1 else 0)
  | _ => raise (TypeError "unsupported operand type(s)")
  end.

(** [sum(x.get(k, 0) for x in xs)] *)
Definition sum_field (k : string) (xs : list pyval) : M Z :=
  vs <- mapM (fun x => v <- get x k (PInt 0) ;; as_int v) xs ;;
  ret (fold_left Z.add vs 0).

(** [sorted(xs, key=lambda x: x.get(k, 0), reverse=True)] on int keys. *)
Definition sort_by_int_desc (k : string) (xs : list pyval) : M (list pyval) :=
  keys <- mapM (fun x => v <- get x k (PInt 0) ;; as_int v) xs ;;
  ret (sort_desc Z.ltb (combine keys xs)).

(** [sorted(xs, key=lambda x: x.get(k, ""), reverse=True)] on string keys. *)
Definition sort_by_str_desc (k : string) (xs : list pyval) : M (list pyval) :=
  keys <- mapM (fun x => v <- get x k (PStr "") ;;
                         match v with PStr s => ret s
                                    | _ => raise (TypeError "'<' not supported") end) xs ;;
  ret (sort_desc String.ltb (combine keys xs)).

(** [dict(sorted(d.items(), key=lambda x: x[1], reverse=True)[:n])] *)
Definition top_counts (n : nat) (d : list (pyval * Z)) : pyval :=
  render_counts (firstn n (sort_desc Z.ltb (map (fun '(k, c) => (c, (k, c))) d))).

(** [max(d.items(), key=lambda x: x[1])[0]]: the first key of maximal count. *)
Definition argmax (d : list (pyval * Z)) : pyval :=
  match d with
  | [] => PNone
  | (k0, n0) :: d' =>
      fst (fold_left (fun '(k, n) '(k', n') => if n <? n' then (k', n') else (k, n)) d' (k0, n0))
  end.

(** [x.get("description", "")[:100]] *)
Definition description_100 (x : pyval) : M pyval :=
  d <- get x "description" (PStr "") ;; Branches.slice_str 100 d.

Definition _analyze_user_repositories (repos_data : pyval) : M pyval :=
  if negb (truthy repos_data) then ret (PDict [("total_repos", PInt 0)])
  else
    repos <- py_iter repos_data ;;
    total_stars <- sum_field "stargazers_count" repos ;;
    total_forks <- sum_field "forks_count" repos ;;
    total_watchers <- sum_field "watchers_count" repos ;;
    popular <- sort_by_int_desc "stargazers_count" repos ;;
    recent <- sort_by_str_desc "updated_at" repos ;;
    langs <- mapM (fun r => get r "language" PNone) repos ;;
    let languages := counter (filter truthy langs) in
    forks <- mapM (fun r => get r "fork" (PBool false)) repos ;;
    let owned := List.length (filter (fun f => negb (truthy f)) forks) in
    let forked := List.length (filter truthy forks) in
    let n := Z.of_nat (List.length repos) in
    most_popular <- mapM (fun r =>
        nm <- get r "name" PNone ;; st <- get r "stargazers_count" (PInt 0) ;;
        fk <- get r "forks_count" (PInt 0) ;; lg <- get r "language" PNone ;;
        ds <- description_100 r ;;
        ret (PDict [("name", nm); ("stars", st); ("forks", fk); ("language", lg);
                    ("description", ds)])) (firstn 5 (firstn 10 popular)) ;;
    recently <- mapM (fun r =>
        nm <- get r "name" PNone ;; up <- get r "updated_at" PNone ;;
        lg <- get r "language" PNone ;; ds <- description_100 r ;;
        ret (PDict [("name", nm); ("updated_at", up); ("language", lg);
                    ("description", ds)])) (firstn 5 (firstn 10 recent)) ;;
    ret (PDict [("total_repos", PInt n);
                ("owned_repos", PInt (Z.of_nat owned));
                ("forked_repos", PInt (Z.of_nat forked));
                ("total_stars_received", PInt total_stars);
                ("total_forks_received", PInt total_forks);
                ("total_watchers", PInt total_watchers);
                ("average_stars_per_repo",
                   match int_truediv total_stars n with
                   | NF f => PFloat (py_round 2 f) | NI z => PInt z end);
                ("languages", render_counts languages);
                ("most_popular_repos", PList most_popular);
                ("recently_updated", PList recently)]).

(** [datetime.strptime(s, "%Y-%m-%d")] on the day keys the code itself
    produced: a four-digit year, two-digit month and day, a valid date.
    The result is the day number (midnight of that day). *)
Definition strptime_date (s : string) : M Z :=
  match list_ascii_of_string s with
  | [y1; y2; y3; y4; "-"%char; m1; m2; "-"%char; d1; d2] =>
      match digits_val [y1; y2; y3; y4] 0, digits_val [m1; m2] 0, digits_val [d1; d2] 0 with
      | Some y, Some m, Some d =>
          let day := days_from_civil y m d in
          if (1 <=? y) && (1 <=? m) && (m <=? 12) && (1 <=? d)
             && (let '(y', m', d') := civil_from_days day in (y' =? y) && (m' =? m) && (d' =? d))
          then ret day
          else raise (ValueError ("unconverted data / bad date: " ++ s))
      | _, _, _ => raise (ValueError ("time data does not match format: " ++ s))
      end
  | _ => raise (ValueError ("time data does not match format: " ++ s))
  end.

(** The [for i, day in enumerate(sorted_days)] loop: [(temp_streak,
    longest_streak)] after the days, given the previous day. *)
Fixpoint streak_loop (prev : string) (days : list string) (temp longest : Z) : M (Z * Z) :=
  match days with
  | [] => ret (temp, longest)
  | day :: days' =>
      prev_date <- strptime_date prev ;;
      curr_date <- strptime_date day ;;
      let temp' := if curr_date - prev_date =? 1 then temp + 1 else 1 in
      streak_loop day days' temp' (Z.max longest temp')
  end.

(** [_calculate_activity_streak(daily_activity)], given the keys of
    [daily_activity] (distinct, in insertion order). *)
Definition _calculate_activity_streak (env : Env) (daily_keys : list string) : M pyval :=
  match sort_strings daily_keys with
  | [] => ret (PDict [("current_streak", PInt 0); ("longest_streak", PInt 0)])
  | first :: rest =>
      '(temp, longest) <- streak_loop first rest 1 (Z.max 0 1) ;;
      let today := date_key (now_local env / 86400) in
      let last := last (first :: rest) first in
      is_current <-
        (if existsb (String.eqb today) daily_keys then ret true
         else last_day <- strptime_date last ;;
              ret ((now_local env - last_day * 86400) / 86400 <=? 1)) ;;
      let current := if is_current then temp else 0 in
      ret (PDict [("current_streak", PInt current); ("longest_streak", PInt longest)])
  end.

(** [datetime.fromisoformat(event.get("created_at", "").replace(...))] *)
Definition created_at (env : Env) (e : pyval) : M datetime :=
  c <- get e "created_at" (PStr "") ;; parse_iso env c.

(** Distinct values, in first-seen order ([set(...)] / dict keys). *)
Definition dedup (xs : list pyval) : list pyval :=
  fold_left (fun acc x => if existsb (py_eqb x) acc then acc else (acc ++ [x])%list) xs [].

Definition _calculate_activity_score (env : Env) (events : list pyval) (days : Z) : M Z :=
  match events with
  | [] => ret 0
  | _ =>
      if days =? 0 then ret 0
      else
        let events_per_day := int_truediv (Z.of_nat (List.length events)) days in
        let base_score := num_min (num_mul events_per_day (NI 10)) (NI 50) in
        types <- mapM (fun e => get e "type" (PStr "")) events ;;
        let activity_types := dedup types in
        let diversity_bonus := num_min (NI (Z.of_nat (List.length activity_types) * 5)) (NI 30) in
        dts <- mapM (created_at env) events ;;
        let daily_activity := dedup (map (fun dt => PStr (strftime_date dt)) dts) in
        let active_days := Z.of_nat (List.length daily_activity) in
        let consistency_bonus := num_min (num_mul (int_truediv active_days days) (NI 20)) (NI 20) in
        let total_score := num_add (num_add base_score diversity_bonus) consistency_bonus in
        t <- num_int total_score ;;
        ret (Z.min t 100)
  end.

(** [dt > cutoff_date] with an aware cutoff; a naive [dt] cannot be compared. *)
Definition after (dt : datetime) (cutoff : Z) : M bool :=
  match dt_offset dt with
  | Some off => ret (cutoff <? dt_wall dt - off)
  | None => raise (TypeError "can't compare offset-naive and offset-aware datetimes")
  end.

(** [datetime.now(timezone.utc) - timedelta(days=days)], in epoch seconds.
    [timedelta] refuses more than 999999999 days, and the difference must
    stay a [datetime] of the years 1 to 9999; both raise [OverflowError].
    (The clock's microseconds never move the result across a bound.) *)
Definition datetime_min : Z := days_from_civil 1 1 1 * 86400.
Definition datetime_end : Z := days_from_civil 10000 1 1 * 86400.
Definition cutoff_utc (env : Env) (days : Z) : M Z :=
  if 999999999 <? Z.abs days then
    raise (OverflowError ("days=" ++ string_of_Z days ++ "; must have magnitude <= 999999999"))
  else
    let t := now_utc env - days * 86400 in
    if (datetime_min <=? t) && (t <? datetime_end) then ret t
    else raise (OverflowError "date value out of range").

(** The windowed subset [[x for x in xs if parse(x["created_at"]) > now - days]];
    the cutoff is computed first. *)
Definition window (env : Env) (days : Z) (xs : list pyval) : M (list pyval) :=
  cutoff <- cutoff_utc env days ;;
  filterM (fun x => dt <- created_at env x ;; after dt cutoff) xs.

Definition _analyze_user_activity (env : Env) (events_data : pyval) (days : Z) : M pyval :=
  if negb (truthy events_data) then ret (PDict [("total_events", PInt 0)])
  else
    events <- py_iter events_data ;;
    recent_events <- window env days events ;;
    types <- mapM (fun e => get e "type" (PStr "Unknown")) recent_events ;;
    let activity_types := counter types in
    dts <- mapM (created_at env) recent_events ;;
    let daily_activity := counter (map (fun dt => PStr (strftime_date dt)) dts) in
    dts' <- mapM (created_at env) recent_events ;;
    let hourly_activity := counter (map (fun dt => PInt ((dt_wall dt mod 86400) / 3600)) dts') in
    repos <- mapM (fun e => r <- get e "repo" (PDict []) ;; get r "name" (PStr "Unknown")) recent_events ;;
    let repo_activity := counter repos in
    activity_streak <- _calculate_activity_streak env (map (fun '(k, _) => key_str k) daily_activity) ;;
    let n := Z.of_nat (List.length recent_events) in
    score <- _calculate_activity_score env recent_events days ;;
    ret (PDict [("total_events", PInt n);
                ("activity_types", render_counts activity_types);
                ("daily_activity", render_counts daily_activity);
                ("hourly_patterns", render_counts hourly_activity);
                ("most_active_repos", top_counts 10 repo_activity);
                ("activity_streak", activity_streak);
                ("average_daily_activity",
                   if 0 <? days then
                     match int_truediv n days with NF f => PFloat (py_round 2 f) | NI z => PInt z end
                   else PInt 0);
                ("most_active_hour", argmax hourly_activity);
                ("activity_score", PInt score)]).

(** A dict of lists keyed by [pyval], in insertion order. *)
Fixpoint group_into {A} (k : pyval) (a : A) (d : list (pyval * list A)) : list (pyval * list A) :=
  match d with
  | [] => [(k, [a])]
  | (k', l) :: d' => if py_eqb k k' then (k', (l ++ [a])%list) :: d' else (k', l) :: group_into k a d'
  end.

Definition _analyze_user_languages (repos_data : pyval) : M pyval :=
  repos <- py_iter repos_data ;;
  entries <- mapM (fun r =>
      lang <- get r "language" PNone ;;
      if truthy lang then
        nm <- get r "name" PNone ;; st <- get r "stargazers_count" (PInt 0) ;;
        up <- get r "updated_at" PNone ;;
        ret [(lang, (nm, st, up))]
      else ret []) repos ;;
  let entries := List.concat entries in
  let languages := counter (map fst entries) in
  let language_repos := fold_left (fun d '(k, a) => group_into k a d) entries [] in
  langs2 <- mapM (fun r => get r "language" PNone) repos ;;
  let total_repos := Z.of_nat (List.length (filter truthy langs2)) in
  let nlang := Z.of_nat (List.length languages) in
  popularity <- mapM (fun '(lang, rs) =>
      stars <- mapM (fun '(_, st, _) => as_int st) rs ;;
      ret (lang, fold_left Z.add stars 0)) language_repos ;;
  top3 <- mapM (fun '(lang, rs) =>
      keys <- mapM (fun '(_, st, _) => as_int st) rs ;;
      let best := firstn 3 (sort_desc Z.ltb (combine keys rs)) in
      ret (key_str lang,
           PList (map (fun '(nm, st, up) =>
                         PDict [("name", nm); ("stars", st); ("updated_at", up)]) best)))
      language_repos ;;
  ret (PDict [("total_languages", PInt nlang);
              ("language_distribution", render_counts languages);
              ("language_diversity_score",
                 if 0 <? total_repos then
                   match int_truediv nlang total_repos with
                   | NF f => PFloat (py_round 2 f) | NI z => PInt z end
                 else PInt 0);
              ("most_used_language", argmax languages);
              ("most_popular_by_stars", argmax popularity);
              ("language_repos", PDict top3)]).

Definition _calculate_collaboration_score (forks npr nissue : Z) : Z :=
  Z.min (Z.min (forks * 5) 30 + Z.min (npr * 3) 40 + Z.min (nissue * 2) 30) 100.

Definition _analyze_collaboration_metrics (repos_data events_data : pyval) : M pyval :=
  repos <- py_iter repos_data ;;
  forks <- mapM (fun r => get r "fork" (PBool false)) repos ;;
  let fork_count := Z.of_nat (List.length (filter truthy forks)) in
  events <- py_iter events_data ;;
  types <- mapM (fun e => get e "type" PNone) events ;;
  let pr_events := Z.of_nat (List.length (filter (fun t => py_eqb t (PStr "PullRequestEvent")) types)) in
  let issue_events := Z.of_nat (List.length (filter (fun t => py_eqb t (PStr "IssuesEvent")) types)) in
  names <- mapM (fun e => r <- get e "repo" (PDict []) ;; get r "name" PNone) events ;;
  let contributed := Z.of_nat (List.length (dedup (filter truthy names))) in
  let nrepos := Z.of_nat (List.length repos) in
  ret (PDict [("total_forks_created", PInt fork_count);
              ("recent_pr_activity", PInt pr_events);
              ("recent_issue_activity", PInt issue_events);
              ("unique_repos_contributed", PInt contributed);
              ("collaboration_score", PInt (_calculate_collaboration_score fork_count pr_events issue_events));
              ("contribution_diversity",
                 if truthy repos_data then num_val (int_truediv contributed nrepos) else PInt 0)]).

Definition _analyze_starred_repos (starred_data : pyval) : M pyval :=
  if negb (truthy starred_data) then ret (PDict [("total_starred", PInt 0)])
  else
    starred <- py_iter starred_data ;;
    langs <- mapM (fun r => get r "language" PNone) starred ;;
    let starred_languages := counter (filter truthy langs) in
    topic_lists <- mapM (fun r => ts <- get r "topics" (PList []) ;; py_iter ts) starred ;;
    let topics := counter (List.concat topic_lists) in
    popular <- sort_by_int_desc "stargazers_count" starred ;;
    most <- mapM (fun r =>
        nm <- get r "full_name" PNone ;; st <- get r "stargazers_count" (PInt 0) ;;
        lg <- get r "language" PNone ;; ds <- description_100 r ;;
        ret (PDict [("name", nm); ("stars", st); ("language", lg); ("description", ds)]))
        (firstn 5 (firstn 10 popular)) ;;
    ret (PDict [("total_starred", PInt (Z.of_nat (List.length starred)));
                ("language_interests", render_counts starred_languages);
                ("topic_interests", top_counts 10 topics);
                ("most_popular_starred", PList most)]).

Definition _analyze_user_contributions (env : Env) (user_data repos_data events_data starred_data : pyval)
  (days : Z) : M pyval :=
  profile <- mapM (fun '(k, d) => v <- get user_data k d ;; ret (k, v))
    [("login", PNone); ("name", PNone); ("bio", PNone); ("location", PNone);
     ("company", PNone); ("blog", PNone); ("public_repos", PInt 0); ("public_gists", PInt 0);
     ("followers", PInt 0); ("following", PInt 0); ("created_at", PNone); ("updated_at", PNone)] ;;
  let profile := map (fun '(k, v) => (if String.eqb k "login" then "username" else k, v)) profile in
  repo_analytics <- _analyze_user_repositories repos_data ;;
  activity_analytics <- _analyze_user_activity env events_data days ;;
  language_analytics <- _analyze_user_languages repos_data ;;
  collaboration_analytics <- _analyze_collaboration_metrics repos_data events_data ;;
  starred_analytics <- _analyze_starred_repos starred_data ;;
  ret (PDict [("profile", PDict profile);
              ("repositories", repo_analytics);
              ("activity", activity_analytics);
              ("languages", language_analytics);
              ("collaboration", collaboration_analytics);
              ("starred", starred_analytics);
              ("analysis_period_days", PInt days)]).

(** [get_user_contribution_analytics]: four checked GETs, then the analysis. *)
Definition user_contribution_body (env : Env) (srv : server) (username : string) (days : Z)
  : M pyval :=
  let user_url := api ++ "/users/" ++ username in
  user_data <- fetch srv user_url ;;
  repos_data <- fetch srv (user_url ++ "/repos") ;;
  events_data <- fetch srv (user_url ++ "/events") ;;
  starred_data <- fetch srv (user_url ++ "/starred") ;;
  _analyze_user_contributions env user_data repos_data events_data starred_data days.

Definition get_user_contribution_analytics (token : bool) (env : Env) (srv : server)
  (username : string) (days : Z) (include_private : bool) : pyval :=
  run_tool token "Exception occurred while fetching contribution data"
    (user_contribution_body env srv username days).

Definition _analyze_contributors (contributors_data : pyval) : M pyval :=
  if negb (truthy contributors_data) then ret (PDict [("total_contributors", PInt 0)])
  else
    cs <- py_iter contributors_data ;;
    total <- sum_field "contributions" cs ;;
    top <- mapM (fun c =>
        lg <- get c "login" PNone ;; n <- get c "contributions" (PInt 0) ;;
        av <- get c "avatar_url" PNone ;;
        ret (PDict [("username", lg); ("contributions", n); ("avatar_url", av)])) (firstn 10 cs) ;;
    ret (PDict [("total_contributors", PInt (Z.of_nat (List.length cs)));
                ("total_contributions", PInt total);
                ("top_contributors", PList top)]).

Definition per_day (n days : Z) : pyval :=
  if 0 <? days then
    match int_truediv n days with NF f => PFloat (py_round 2 f) | NI z => PInt z end
  else PInt 0.

Definition _analyze_recent_commits (commits_data : pyval) (days : Z) : M pyval :=
  if negb (truthy commits_data) then ret (PDict [("total_commits", PInt 0)])
  else
    cs <- py_iter commits_data ;;
    authors <- mapM (fun c => c1 <- get c "commit" (PDict []) ;; a <- get c1 "author" (PDict []) ;;
                              get a "name" (PStr "Unknown")) cs ;;
    let authors := counter authors in
    let n := Z.of_nat (List.length cs) in
    ret (PDict [("total_commits", PInt n);
                ("unique_authors", PInt (Z.of_nat (List.length authors)));
                ("commits_per_day", per_day n days);
                ("top_committers", top_counts 10 authors)]).

Definition _analyze_prs (env : Env) (prs_data : pyval) (days : Z) : M pyval :=
  if negb (truthy prs_data) then ret (PDict [("total_prs", PInt 0)])
  else
    prs <- py_iter prs_data ;;
    recent_prs <- window env days prs ;;
    states <- mapM (fun p => get p "state" (PStr "unknown")) prs ;;
    let nrecent := Z.of_nat (List.length recent_prs) in
    ret (PDict [("total_prs", PInt (Z.of_nat (List.length prs)));
                ("recent_prs", PInt nrecent);
                ("pr_states", render_counts (counter states));
                ("prs_per_day", per_day nrecent days)]).

Definition _analyze_issues (env : Env) (issues_data : pyval) (days : Z) : M pyval :=
  if negb (truthy issues_data) then ret (PDict [("total_issues", PInt 0)])
  else
    issues <- py_iter issues_data ;;
    flags <- mapM (fun i => get i "pull_request" PNone) issues ;;
    let actual_issues := map snd (filter (fun '(f, _) => negb (truthy f)) (combine flags issues)) in
    recent_issues <- window env days actual_issues ;;
    states <- mapM (fun i => get i "state" (PStr "unknown")) actual_issues ;;
    let nrecent := Z.of_nat (List.length recent_issues) in
    ret (PDict [("total_issues", PInt (Z.of_nat (List.length actual_issues)));
                ("recent_issues", PInt nrecent);
                ("issue_states", render_counts (counter states));
                ("issues_per_day", per_day nrecent days)]).

Definition _analyze_repository_contributions (env : Env)
  (repo_data contributors_data commits_data prs_data issues_data : pyval) (days : Z) : M pyval :=
  repo_info <- mapM (fun '(k, k', d) => v <- get repo_data k d ;; ret (k', v))
    [("full_name", "name", PNone); ("description", "description", PNone);
     ("language", "language", PNone); ("stargazers_count", "stars", PInt 0);
     ("forks_count", "forks", PInt 0); ("watchers_count", "watchers", PInt 0);
     ("open_issues_count", "open_issues", PInt 0); ("created_at", "created_at", PNone);
     ("updated_at", "updated_at", PNone)] ;;
  contributors_analysis <- _analyze_contributors contributors_data ;;
  commits_analysis <- _analyze_recent_commits commits_data days ;;
  prs_analysis <- _analyze_prs env prs_data days ;;
  issues_analysis <- _analyze_issues env issues_data days ;;
  ret (PDict [("repository", PDict repo_info);
              ("contributors", contributors_analysis);
              ("commits", commits_analysis);
              ("pull_requests", prs_analysis);
              ("issues", issues_analysis);
              ("analysis_period_days", PInt days)]).

(** [get_repository_contribution_analytics]: five checked GETs. Between
    the second and the third, [since_date = (now - timedelta(days=days)).isoformat()]
    is computed (it can raise [OverflowError]); the commit request carries
    it and the server applies it. *)
Definition repository_contribution_body (env : Env) (srv : server) (owner repo : string) (days : Z)
  : M pyval :=
  let repo_url := api ++ "/repos/" ++ owner ++ "/" ++ repo in
  repo_data <- fetch srv repo_url ;;
  contributors_data <- fetch srv (repo_url ++ "/contributors") ;;
  _since_date <- cutoff_utc env days ;;
  commits_data <- fetch srv (repo_url ++ "/commits") ;;
  prs_data <- fetch srv (repo_url ++ "/pulls") ;;
  issues_data <- fetch srv (repo_url ++ "/issues") ;;
  _analyze_repository_contributions env repo_data contributors_data commits_data prs_data issues_data days.

Definition get_repository_contribution_analytics (token : bool) (env : Env) (srv : server)
  (owner repo : string) (days : Z) : pyval :=
  run_tool token "Exception occurred while fetching repository data"
    (repository_contribution_body env srv owner repo days).

End Contribution.

(** ** PR review summary: the fetch stage ([pr_reviews.get_pr_review_summary]) *)

Module PRSummary.

(** Five checked GETs, then [_analyze_pr_data].  The analysis stage is a
    parameter here: what is said below about the fetch stage holds
    whatever it computes. *)
Definition pr_summary_body
  (analyze : pyval -> pyval -> pyval -> pyval -> pyval -> M pyval)
  (srv : server) (owner repo : string) (pr_number : Z) : M pyval :=
  let pr_url := api ++ "/repos/" ++ owner ++ "/" ++ repo ++ "/pulls/" ++ string_of_Z pr_number in
  pr_data <- fetch srv pr_url ;;
  files_data <- fetch srv (pr_url ++ "/files") ;;
  commits_data <- fetch srv (pr_url ++ "/commits") ;;
  reviews_data <- fetch srv (pr_url ++ "/reviews") ;;
  comments_data <- fetch srv (pr_url ++ "/comments") ;;
  analyze pr_data files_data commits_data reviews_data comments_data.

Definition get_pr_review_summary
  (analyze : pyval -> pyval -> pyval -> pyval -> pyval -> M pyval)
  (token : bool) (srv : server) (owner repo : string) (pr_number : Z) : pyval :=
  run_tool token "Exception occurred while fetching PR data"
    (pr_summary_body analyze srv owner repo pr_number).

End PRSummary.

(** ** Dependency manifests ([health._analyze_package_json_json]) *)

Module Manifest.

Section PackageJson.

(** [json.loads]: the parsed value of a syntactically valid JSON text,
    [None] where it raises [JSONDecodeError].  Objects become dicts
    (one entry per distinct key). *)
Variable loads : string -> option pyval.

Definition security_packages : list string :=
  ["helmet"; "cors"; "express-rate-limit"; "bcrypt"; "jsonwebtoken"].
Definition test_packages : list string :=
  ["jest"; "mocha"; "chai"; "cypress"; "testing-library"].

(** [pkg in d] for a container read from the manifest. *)
Definition py_in (pkg : string) (d : pyval) : M bool :=
  match d with
  | PDict kv => ret (existsb (fun '(k, _) => String.eqb k pkg) kv)
  | PList l => ret (existsb (py_eqb (PStr pkg)) l)
  | PStr s => ret (Health.contains pkg s)
  | _ => raise (TypeError "argument of type is not iterable")
  end.

Definition _analyze_package_json_json (content : string) : M pyval :=
  match loads content with
  | None => ret (PDict [("error", PStr "Invalid JSON in package.json")])
  | Some data =>
      dependencies <- get data "dependencies" (PDict []) ;;
      dev_dependencies <- get data "devDependencies" (PDict []) ;;
      found_security <- Contribution.filterM (fun pkg => py_in pkg dependencies) security_packages ;;
      found_testing <- Contribution.filterM (fun pkg =>
          b <- py_in pkg dev_dependencies ;;
          ret (b || existsb (fun t => Health.contains t pkg) test_packages)) test_packages ;;
      n <- py_len dependencies ;;
      m <- py_len dev_dependencies ;;
      ret (PDict [("type", PStr "node");
                  ("dependencies_count", PInt n);
                  ("dev_dependencies_count", PInt m);
                  ("security_packages", PList (map PStr found_security));
                  ("testing_frameworks", PList (map PStr found_testing))])
  end.

End PackageJson.

End Manifest.

(** ** Python strings as UTF-8 text *)

Module PyStr.

(** A [str] is held as its UTF-8 bytes; [uchars] cuts the bytes into
    code points, one UTF-8 sequence each, whose length the lead byte gives. *)
Fixpoint uchars (cs : list ascii) : list (list ascii) :=
  match cs with
  | [] => []
  | c :: r =>
      let n := nat_of_ascii c in
      if Nat.ltb n 192 then [c] :: uchars r
      else match r with
           | [] => [[c]]
           | c2 :: r2 =>
               if Nat.ltb n 224 then [c; c2] :: uchars r2
               else match r2 with
                    | [] => [[c; c2]]
                    | c3 :: r3 =>
                        if Nat.ltb n 240 then [c; c2; c3] :: uchars r3
                        else match r3 with
                             | [] => [[c; c2; c3]]
                             | c4 :: r4 => [c; c2; c3; c4] :: uchars r4
                             end
                    end
           end
  end.

Definition of_uchars (us : list (list ascii)) : string :=
  string_of_list_ascii (List.concat us).

Definition codes (u : list ascii) : list nat := map nat_of_ascii u.

(** [ch.isspace()] for one code point: U+0009-000D, U+001C-0020, U+0085,
    U+00A0, U+1680, U+2000-200A, U+2028, U+2029, U+202F, U+205F, U+3000. *)
Definition is_space (u : list ascii) : bool :=
  match codes u with
  | [n] => (Nat.leb 9 n && Nat.leb n 13) || (Nat.leb 28 n && Nat.leb n 32)
  | [a; b] => Nat.eqb a 194 && (Nat.eqb b 133 || Nat.eqb b 160)
  | [a; b; c] =>
      (Nat.eqb a 225 && Nat.eqb b 154 && Nat.eqb c 128)
      || (Nat.eqb a 226 && Nat.eqb b 128
          && ((Nat.leb 128 c && Nat.leb c 138) || Nat.eqb c 168 || Nat.eqb c 169
              || Nat.eqb c 175))
      || (Nat.eqb a 226 && Nat.eqb b 129 && Nat.eqb c 159)
      || (Nat.eqb a 227 && Nat.eqb b 128 && Nat.eqb c 128)
  | _ => false
  end.

(** The line boundaries of [str.splitlines()]: [\n], [\r], [\v], [\f],
    U+001C-001E, U+0085, U+2028, U+2029 ([\r\n] is one boundary). *)
Definition is_break (u : list ascii) : bool :=
  match codes u with
  | [n] => Nat.eqb n 10 || Nat.eqb n 11 || Nat.eqb n 12 || Nat.eqb n 13
           || Nat.eqb n 28 || Nat.eqb n 29 || Nat.eqb n 30
  | [a; b] => Nat.eqb a 194 && Nat.eqb b 133
  | [a; b; c] => Nat.eqb a 226 && Nat.eqb b 128 && (Nat.eqb c 168 || Nat.eqb c 169)
  | _ => false
  end.

Definition is_code (u : list ascii) (ns : list nat) : bool :=
  if list_eq_dec Nat.eq_dec (codes u) ns then true else false.

Definition is_cr (u : list ascii) : bool := is_code u [13%nat].
Definition is_lf (u : list ascii) : bool := is_code u [10%nat].

Fixpoint drop_space (us : list (list ascii)) : list (list ascii) :=
  match us with
  | [] => []
  | u :: r => if is_space u then drop_space r else us
  end.

(** [s.strip()] *)
Definition strip (s : string) : string :=
  of_uchars (rev (drop_space (rev (drop_space (uchars (list_ascii_of_string s)))))).

Fixpoint lines_go (us : list (list ascii)) (cur : list ascii) : list string :=
  match us with
  | [] => match cur with [] => [] | _ => [string_of_list_ascii cur] end
  | u :: r =>
      if is_break u then
        string_of_list_ascii cur
          :: lines_go (if is_cr u
                       then match r with
                            | v :: r' => if is_lf v then r' else r
                            | [] => r
                            end
                       else r) []
      else lines_go r (cur ++ u)%list
  end.

(** [s.splitlines()] *)
Definition splitlines (s : string) : list string :=
  lines_go (uchars (list_ascii_of_string s)) [].

(** [s.lower()] on one code point: ASCII capitals, and the two
    characters that lower to ASCII text, KELVIN SIGN (U+212A, to [k]) and
    U+0130 (to [i] followed by U+0307).  Other non-ASCII letters are kept
    as they are. *)
Definition lower_u (u : list ascii) : list ascii :=
  match u with
  | [c] => [Health.lower_ascii c]
  | _ => if is_code u [226; 132; 170]%nat then ["k"%char]
         else if is_code u [196; 176]%nat
         then ["i"%char; ascii_of_nat 204; ascii_of_nat 135]
         else u
  end.

Definition py_lower (s : string) : string :=
  of_uchars (map lower_u (uchars (list_ascii_of_string s))).

End PyStr.

(** ** PR review summary: the analysis stage ([pr_reviews._analyze_pr_data]) *)

Module PRAnalysis.

(** A [for] loop threading a state through the items. *)
Fixpoint foldM {A B} (f : A -> B -> M A) (a : A) (xs : list B) : M A :=
  match xs with
  | [] => ret a
  | x :: xs' => a' <- f a x ;; foldM f a' xs'
  end.

(** A value read from JSON as an operand of [+], [-] or [>]. *)
Definition py_num (v : pyval) : M num :=
  match v with
  | PInt z => ret (NI z)
  | PBool b => ret (NI (if b then 1 else 0))
  | PFloat f => ret (NF f)
  | _ => raise (TypeError "unsupported operand type(s)")
  end.

(** [a - b] *)
Definition num_sub (a b : num) : num :=
  match a, b with
  | NI x, NI y => NI (x - y)
  | _, _ => NF (SFsub F64.prec F64.emax (num_to_float a) (num_to_float b))
  end.

(** [v > z] for an int literal [z]. *)
Definition py_gt (v : pyval) (z : Z) : M bool :=
  n <- py_num v ;; ret (num_ltb (NI z) n).

(** [d[k] = d.get(k, 0) + 1]: the key must be hashable. *)
Definition count_key (k : pyval) (d : list (pyval * Z)) : M (list (pyval * Z)) :=
  match k with
  | PList _ | PDict _ => raise (TypeError "unhashable type")
  | _ => ret (Contribution.count_into k d)
  end.

(** [s.split(sep)] for a one-character [sep]. *)
Fixpoint split_on (c : ascii) (s : string) : list string :=
  match s with
  | EmptyString => [EmptyString]
  | String c' s' =>
      let parts := split_on c s' in
      if Ascii.eqb c c' then EmptyString :: parts
      else match parts with
           | p :: ps => String c' p :: ps
           | [] => [String c' EmptyString]
           end
  end.

(** [s.split(".")[-1]] *)
Definition last_piece (s : string) : string := last (split_on "." s) EmptyString.

Definition ext_map : list (string * string) :=
  [("py", "Python"); ("js", "JavaScript"); ("ts", "TypeScript"); ("java", "Java");
   ("cpp", "C++"); ("c", "C"); ("cs", "C#"); ("php", "PHP"); ("rb", "Ruby");
   ("go", "Go"); ("rs", "Rust"); ("swift", "Swift"); ("kt", "Kotlin");
   ("html", "HTML"); ("css", "CSS"); ("scss", "SCSS"); ("sass", "Sass");
   ("json", "JSON"); ("xml", "XML"); ("yaml", "YAML"); ("yml", "YAML");
   ("md", "Markdown"); ("sh", "Shell"); ("sql", "SQL")].

(** [ext_map.get(ext, "Unknown")] *)
Definition ext_get (ext : string) : string :=
  match find (fun '(k, _) => String.eqb k ext) ext_map with
  | Some (_, l) => l
  | None => "Unknown"
  end.

Definition _detect_language (filename : pyval) : M pyval :=
  has_dot <- Manifest.py_in "." filename ;;
  if has_dot then
    match filename with
    | PStr s => ret (PStr (ext_get (PyStr.py_lower (last_piece s))))
    | _ => raise (AttributeError "split")
    end
  else ret (PStr "Unknown").

(** The loop state of [_analyze_file_changes]. *)
Record fc_state := mkfc {
  total_additions : num;
  total_deletions : num;
  file_types : list (pyval * Z);
  languages : list (pyval * Z);
  large_files : list pyval;
  changes : list pyval
}.

Definition fc_init : fc_state := mkfc (NI 0) (NI 0) [] [] [] [].

Definition file_step (st : fc_state) (file : pyval) : M fc_state :=
  filename <- get file "filename" (PStr "") ;;
  additions <- get file "additions" (PInt 0) ;;
  deletions <- get file "deletions" (PInt 0) ;;
  changes_count <- get file "changes" (PInt 0) ;;
  status <- get file "status" (PStr "") ;;
  a <- py_num additions ;;
  d <- py_num deletions ;;
  has_dot <- Manifest.py_in "." filename ;;
  ft <- (if has_dot then
           match filename with
           | PStr s => count_key (PStr (PyStr.py_lower (last_piece s))) (file_types st)
           | _ => raise (AttributeError "split")
           end
         else ret (file_types st)) ;;
  language <- _detect_language filename ;;
  lg <- (if truthy language then count_key language (languages st) else ret (languages st)) ;;
  big <- py_gt changes_count 100 ;;
  ret (mkfc (num_add (total_additions st) a) (num_add (total_deletions st) d) ft lg
         (if big then (large_files st ++ [PDict [("filename", filename); ("changes", changes_count);
                                                 ("status", status)]])%list
          else large_files st)
         (changes st ++ [PDict [("filename", filename); ("status", status);
                                ("additions", additions); ("deletions", deletions);
                                ("changes", changes_count); ("language", language)]])%list).

Definition _analyze_file_changes (files_data : pyval) : M pyval :=
  if negb (truthy files_data) then ret (PDict [("total_files", PInt 0); ("changes", PList [])])
  else
    files <- py_iter files_data ;;
    st <- foldM file_step fc_init files ;;
    n <- py_len files_data ;;
    ret (PDict [("total_files", PInt n);
                ("total_additions", num_val (total_additions st));
                ("total_deletions", num_val (total_deletions st));
                ("net_changes", num_val (num_sub (total_additions st) (total_deletions st)));
                ("file_types", Contribution.render_counts (file_types st));
                ("languages", Contribution.render_counts (languages st));
                ("large_files", PList (large_files st));
                ("changes", PList (changes st))]).

Definition commit_step (st : list (pyval * Z) * list pyval) (commit : pyval)
  : M (list (pyval * Z) * list pyval) :=
  let '(authors, commits) := st in
  commit_info <- get commit "commit" (PDict []) ;;
  author <- get commit_info "author" (PDict []) ;;
  author_name <- get author "name" (PStr "Unknown") ;;
  authors' <- count_key author_name authors ;;
  sha <- get commit "sha" (PStr "") ;;
  sha7 <- Branches.slice_str 7 sha ;;
  msg <- get commit_info "message" (PStr "") ;;
  msg1 <- Branches.first_line msg ;;
  date <- get author "date" PNone ;;
  url <- get commit "html_url" PNone ;;
  ret (authors', (commits ++ [PDict [("sha", sha7); ("message", msg1); ("author", author_name);
                                     ("date", date); ("url", url)]])%list).

Definition _analyze_commits (commits_data : pyval) : M pyval :=
  if negb (truthy commits_data) then ret (PDict [("total_commits", PInt 0); ("commits", PList [])])
  else
    cs <- py_iter commits_data ;;
    ' (authors, commits) <- foldM commit_step ([], []) cs ;;
    n <- py_len commits_data ;;
    ret (PDict [("total_commits", PInt n);
                ("unique_authors", PInt (Z.of_nat (List.length authors)));
                ("authors", Contribution.render_counts authors);
                ("commits", PList commits)]).

Definition review_step (st : list (pyval * Z) * list (pyval * Z) * list pyval) (review : pyval)
  : M (list (pyval * Z) * list (pyval * Z) * list pyval) :=
  let '(review_states, reviewers, reviews) := st in
  state <- get review "state" (PStr "") ;;
  user <- get review "user" (PDict []) ;;
  reviewer <- get user "login" (PStr "Unknown") ;;
  review_states' <- count_key state review_states ;;
  reviewers' <- count_key reviewer reviewers ;;
  id <- get review "id" PNone ;;
  body <- get review "body" (PStr "") ;;
  submitted_at <- get review "submitted_at" PNone ;;
  url <- get review "html_url" PNone ;;
  ret (review_states', reviewers',
       (reviews ++ [PDict [("id", id); ("state", state); ("reviewer", reviewer); ("body", body);
                           ("submitted_at", submitted_at); ("url", url)]])%list).

Definition _analyze_reviews (reviews_data : pyval) : M pyval :=
  if negb (truthy reviews_data) then ret (PDict [("total_reviews", PInt 0); ("reviews", PList [])])
  else
    rs <- py_iter reviews_data ;;
    ' (review_states, reviewers, reviews) <- foldM review_step ([], [], []) rs ;;
    n <- py_len reviews_data ;;
    ret (PDict [("total_reviews", PInt n);
                ("review_states", Contribution.render_counts review_states);
                ("reviewers", Contribution.render_counts reviewers);
                ("reviews", PList reviews)]).

Definition comment_step (st : list (pyval * Z) * list pyval) (comment : pyval)
  : M (list (pyval * Z) * list pyval) :=
  let '(commenters, comments) := st in
  user <- get comment "user" (PDict []) ;;
  commenter <- get user "login" (PStr "Unknown") ;;
  commenters' <- count_key commenter commenters ;;
  id <- get comment "id" PNone ;;
  body <- get comment "body" (PStr "") ;;
  created_at <- get comment "created_at" PNone ;;
  path <- get comment "path" PNone ;;
  line <- get comment "line" PNone ;;
  url <- get comment "html_url" PNone ;;
  ret (commenters',
       (comments ++ [PDict [("id", id); ("body", body); ("author", commenter);
                            ("created_at", created_at); ("path", path); ("line", line);
                            ("url", url)]])%list).

Definition _analyze_comments (comments_data : pyval) : M pyval :=
  if negb (truthy comments_data) then ret (PDict [("total_comments", PInt 0); ("comments", PList [])])
  else
    cs <- py_iter comments_data ;;
    ' (commenters, comments) <- foldM comment_step ([], []) cs ;;
    n <- py_len comments_data ;;
    ret (PDict [("total_comments", PInt n);
                ("commenters", Contribution.render_counts commenters);
                ("comments", PList comments)]).

Definition _assess_review_status (review_analysis : pyval) : M pyval :=
  states <- get review_analysis "review_states" (PDict []) ;;
  total_reviews <- get review_analysis "total_reviews" (PInt 0) ;;
  approved <- get states "APPROVED" (PInt 0) ;;
  changes_requested <- get states "CHANGES_REQUESTED" (PInt 0) ;;
  commented <- get states "COMMENTED" (PInt 0) ;;
  approved_pos <- py_gt approved 0 ;;
  status <- (if approved_pos && py_eqb changes_requested (PInt 0) then ret "Ready to merge"
             else
               requested_pos <- py_gt changes_requested 0 ;;
               if requested_pos then ret "Changes requested"
               else
                 reviewed <- py_gt total_reviews 0 ;;
                 ret (if reviewed then "Under review" else "Awaiting review")) ;;
  ret (PDict [("status", PStr status);
              ("approved_count", approved);
              ("changes_requested_count", changes_requested);
              ("comment_count", commented);
              ("total_reviews", total_reviews)]).

(** [not v.strip()] *)
Definition blank (v : pyval) : M bool :=
  match v with
  | PStr s => ret (String.eqb (PyStr.strip s) "")
  | _ => raise (AttributeError "strip")
  end.

(** [v is False] *)
Definition is_False (v : pyval) : bool :=
  match v with PBool false => true | _ => false end.

Definition _identify_risk_factors (pr_info file_analysis commit_analysis : pyval)
  : M (list string) :=
  total_files <- get file_analysis "total_files" (PInt 0) ;;
  large_pr <- py_gt total_files 20 ;;
  languages <- get file_analysis "languages" (PDict []) ;;
  nlang <- py_len languages ;;
  large_files <- get file_analysis "large_files" PNone ;;
  description <- get pr_info "description" (PStr "") ;;
  no_description <- blank description ;;
  total_commits <- get commit_analysis "total_commits" (PInt 0) ;;
  many_commits <- py_gt total_commits 15 ;;
  mergeable <- get pr_info "mergeable" PNone ;;
  ret ((if large_pr then ["Large PR - consider breaking into smaller PRs"] else [])
       ++ (if nlang >? 3 then ["Multiple languages modified - ensure consistent changes"] else [])
       ++ (if truthy large_files
           then ["Large files modified - review carefully for maintainability"] else [])
       ++ (if no_description then ["No PR description - add context for reviewers"] else [])
       ++ (if many_commits then ["Many commits - consider squashing"] else [])
       ++ (if is_False mergeable then ["PR has merge conflicts - resolve before merging"] else []))%list.

(** [[f for f in changes if "test" in f.get("filename", "").lower()]] *)
Definition is_test_file (f : pyval) : M bool :=
  filename <- get f "filename" (PStr "") ;;
  match filename with
  | PStr s => ret (Health.contains "test" (PyStr.py_lower s))
  | _ => raise (AttributeError "lower")
  end.

Definition _generate_recommendations (pr_info file_analysis commit_analysis review_analysis : pyval)
  : M (list string) :=
  total_reviews <- get review_analysis "total_reviews" (PInt 0) ;;
  description <- get pr_info "description" (PStr "") ;;
  no_description <- blank description ;;
  chg <- get file_analysis "changes" (PList []) ;;
  items <- py_iter chg ;;
  test_files <- Contribution.filterM is_test_file items ;;
  no_tests <- (match test_files with
               | [] => total_files <- get file_analysis "total_files" (PInt 0) ;;
                       py_gt total_files 0
               | _ => ret false
               end) ;;
  total_files <- get file_analysis "total_files" (PInt 0) ;;
  large_pr <- py_gt total_files 20 ;;
  total_commits <- get commit_analysis "total_commits" (PInt 0) ;;
  many_commits <- py_gt total_commits 10 ;;
  ret ((if py_eqb total_reviews (PInt 0) then ["Request reviews from relevant team members"] else [])
       ++ (if no_description then ["Add detailed PR description explaining changes"] else [])
       ++ (if no_tests then ["Consider adding tests for new functionality"] else [])
       ++ (if large_pr then ["Consider breaking large PR into smaller, focused PRs"] else [])
       ++ (if many_commits then ["Consider squashing commits for cleaner history"] else []))%list.

Definition _generate_insights (pr_info file_analysis commit_analysis review_analysis : pyval)
  : M pyval :=
  complexity <- PRReviews._calculate_complexity_score file_analysis commit_analysis ;;
  review_status <- _assess_review_status review_analysis ;;
  risks <- _identify_risk_factors pr_info file_analysis commit_analysis ;;
  recommendations <- _generate_recommendations pr_info file_analysis commit_analysis review_analysis ;;
  ret (PDict [("complexity_score", complexity);
              ("review_status", review_status);
              ("risk_factors", PList (map PStr risks));
              ("recommendations", PList (map PStr recommendations))]).

Definition _analyze_pr_data (pr_data files_data commits_data reviews_data comments_data : pyval)
  : M pyval :=
  number <- get pr_data "number" PNone ;;
  title <- get pr_data "title" PNone ;;
  state <- get pr_data "state" PNone ;;
  merged <- get pr_data "merged" (PBool false) ;;
  mergeable <- get pr_data "mergeable" PNone ;;
  user <- get pr_data "user" (PDict []) ;;
  author <- get user "login" PNone ;;
  created_at <- get pr_data "created_at" PNone ;;
  updated_at <- get pr_data "updated_at" PNone ;;
  base <- get pr_data "base" (PDict []) ;;
  base_branch <- get base "ref" PNone ;;
  head <- get pr_data "head" (PDict []) ;;
  head_branch <- get head "ref" PNone ;;
  url <- get pr_data "html_url" PNone ;;
  description <- get pr_data "body" (PStr "") ;;
  let pr_info := PDict [("number", number); ("title", title); ("state", state);
                        ("merged", merged); ("mergeable", mergeable); ("author", author);
                        ("created_at", created_at); ("updated_at", updated_at);
                        ("base_branch", base_branch); ("head_branch", head_branch);
                        ("url", url); ("description", description)] in
  file_analysis <- _analyze_file_changes files_data ;;
  commit_analysis <- _analyze_commits commits_data ;;
  review_analysis <- _analyze_reviews reviews_data ;;
  comment_analysis <- _analyze_comments comments_data ;;
  insights <- _generate_insights pr_info file_analysis commit_analysis review_analysis ;;
  ret (PDict [("pr_info", pr_info); ("file_changes", file_analysis);
              ("commits", commit_analysis); ("reviews", review_analysis);
              ("comments", comment_analysis); ("insights", insights)]).

(** [get_pr_review_summary] with its analysis stage. *)
Definition get_pr_review_summary (token : bool) (srv : server) (owner repo : string)
  (pr_number : Z) : pyval :=
  PRSummary.get_pr_review_summary _analyze_pr_data token srv owner repo pr_number.

Definition pr_list_entry (pr : pyval) : M pyval :=
  number <- get pr "number" PNone ;;
  title <- get pr "title" PNone ;;
  user <- get pr "user" (PDict []) ;;
  author <- get user "login" PNone ;;
  created_at <- get pr "created_at" PNone ;;
  updated_at <- get pr "updated_at" PNone ;;
  url <- get pr "html_url" PNone ;;
  draft <- get pr "draft" (PBool false) ;;
  mergeable <- get pr "mergeable" PNone ;;
  ret (PDict [("number", number); ("title", title); ("author", author);
              ("created_at", created_at); ("updated_at", updated_at); ("url", url);
              ("draft", draft); ("mergeable", mergeable)]).

(** [list_open_prs_for_review(owner, repo, limit)]: [limit] only sets
    the page size of the request.  Its one handler catches every
    exception, HTTP errors included. *)
Definition list_open_prs_for_review (token : bool) (srv : server) (owner repo : string)
  (limit : Z) : pyval :=
  if negb token then no_token_report
  else
    match (prs_data <- fetch srv (api ++ "/repos/" ++ owner ++ "/" ++ repo ++ "/pulls") ;;
           prs <- py_iter prs_data ;;
           prs_summary <- mapM pr_list_entry prs ;;
           n <- py_len prs_data ;;
           ret (PDict [("total_prs", PInt n); ("prs", PList prs_summary)])) with
    | inr v => v
    | inl e => PDict [("error", PStr ("Failed to list PRs: " ++ exn_str e))]
    end.

End PRAnalysis.

(** ** Active branches and branch comparison ([repo_management/branches.py]) *)

Module BranchTools.

(** One commit as both tools report it. *)
Definition commit_fields (commit : pyval) : M (pyval * pyval * pyval * pyval) :=
  commit_data <- get commit "commit" (PDict []) ;;
  sha <- get commit "sha" (PStr "") ;;
  sha7 <- Branches.slice_str 7 sha ;;
  msg <- get commit_data "message" (PStr "No message") ;;
  message <- Branches.first_line msg ;;
  author <- get commit_data "author" (PDict []) ;;
  author_name <- get author "name" (PStr "Unknown") ;;
  author' <- get commit_data "author" (PDict []) ;;
  date <- get author' "date" (PStr "Unknown") ;;
  ret (sha7, message, author_name, date).

Section Active.

(** [dt.timestamp()] of a naive datetime reads its wall clock in the
    local time zone. *)
Variable local_timestamp : Z -> Z.

Definition dt_timestamp (dt : datetime) : Z :=
  match dt_offset dt with
  | Some off => dt_wall dt - off
  | None => local_timestamp (dt_wall dt)
  end.

(** The filter of [get_active_branches]: a truthy date that parses and
    whose instant is after the cutoff; [except: continue] skips a date
    that does not parse.  [now.timestamp()] is read at whole seconds,
    which decides the strict comparison with whole-second dates alike. *)
Definition is_active (env : Env) (cutoff : Z) (branch : pyval) : M bool :=
  c <- get branch "commit" (PDict []) ;;
  cc <- get c "commit" (PDict []) ;;
  a <- get cc "author" (PDict []) ;;
  commit_date <- get a "date" PNone ;;
  if truthy commit_date then
    match parse_iso env commit_date with
    | inr dt => ret (cutoff <? dt_timestamp dt)
    | inl _ => ret false
    end
  else ret false.

(** The sort key [b.get("commit", {}).get("commit", {}).get("author", {}).get("date", "")]. *)
Definition date_sort_key (b : pyval) : M string :=
  c <- get b "commit" (PDict []) ;;
  cc <- get c "commit" (PDict []) ;;
  a <- get cc "author" (PDict []) ;;
  d <- get a "date" (PStr "") ;;
  match d with
  | PStr s => ret s
  | _ => raise (TypeError "'<' not supported between instances")
  end.

Definition active_entry (env : Env) (branch : pyval) : M pyval :=
  name <- get branch "name" (PStr "Unknown") ;;
  commit <- get branch "commit" (PDict []) ;;
  commit_data <- get commit "commit" (PDict []) ;;
  sha <- get commit "sha" (PStr "") ;;
  commit_sha <- Branches.slice_str 7 sha ;;
  author <- get commit_data "author" (PDict []) ;;
  commit_author <- get author "name" (PStr "Unknown") ;;
  author' <- get commit_data "author" (PDict []) ;;
  commit_date <- get author' "date" (PStr "Unknown") ;;
  msg <- get commit_data "message" (PStr "No message") ;;
  commit_message <- Branches.first_line msg ;;
  ret (PDict [("name", name);
              ("commit", PDict [("sha", commit_sha); ("author", commit_author);
                                ("date", Branches.date_display env commit_date);
                                ("message", commit_message)])]).

Definition active_body (env : Env) (srv : server) (owner repo : string) (days : Z) : M pyval :=
  branches <- fetch srv (api ++ "/repos/" ++ owner ++ "/" ++ repo ++ "/branches") ;;
  if negb (truthy branches) then
    ret (PDict [("owner", PStr owner); ("repo", PStr repo); ("days", PInt days);
                ("branches", PList []);
                ("message", PStr ("🌿 No branches found in " ++ owner ++ "/" ++ repo))])
  else
    let cutoff := now_utc env - days * 24 * 60 * 60 in
    bl <- py_iter branches ;;
    active_branches <- Contribution.filterM (is_active env cutoff) bl ;;
    match active_branches with
    | [] =>
        ret (PDict [("owner", PStr owner); ("repo", PStr repo); ("days", PInt days);
                    ("branches", PList []);
                    ("message", PStr ("🌿 No active branches found in the last "
                                      ++ string_of_Z days ++ " days for " ++ owner ++ "/" ++ repo))])
    | _ =>
        keys <- mapM date_sort_key active_branches ;;
        let sorted := sort_desc String.ltb (combine keys active_branches) in
        results <- mapM (active_entry env) sorted ;;
        ret (PDict [("owner", PStr owner); ("repo", PStr repo); ("days", PInt days);
                    ("count", PInt (Z.of_nat (List.length results)));
                    ("branches", PList results)])
    end.

Definition get_active_branches (token : bool) (env : Env) (srv : server)
  (owner repo : string) (days : Z) : pyval :=
  run_tool token "Exception occurred while fetching active branches"
    (active_body env srv owner repo days).

End Active.

(** [comparison.get("commits", [])[:5]], iterated. *)
Definition first5 (v : pyval) : M (list pyval) :=
  match v with
  | PList l => ret (firstn 5 l)
  | PStr s => py_iter (PStr (substring 0 5 s))
  | _ => raise (TypeError "object is not subscriptable")
  end.

Definition compare_entry (env : Env) (commit : pyval) : M pyval :=
  ' (sha, message, author, date) <- commit_fields commit ;;
  ret (PDict [("sha", sha); ("message", message); ("author", author);
              ("date", Branches.date_display env date)]).

Definition compare_url (owner repo base_branch compare_branch : string) : string :=
  api ++ "/repos/" ++ owner ++ "/" ++ repo ++ "/compare/" ++ base_branch ++ "..." ++ compare_branch.

Definition comparison_body (env : Env) (srv : server)
  (owner repo base_branch compare_branch : string) : M pyval :=
  comparison <- fetch srv (compare_url owner repo base_branch compare_branch) ;;
  status <- get comparison "status" (PStr "unknown") ;;
  ahead_by <- get comparison "ahead_by" (PInt 0) ;;
  behind_by <- get comparison "behind_by" (PInt 0) ;;
  total_commits <- get comparison "total_commits" (PInt 0) ;;
  cl <- get comparison "commits" (PList []) ;;
  items <- first5 cl ;;
  commit_items <- mapM (compare_entry env) items ;;
  ret (PDict [("owner", PStr owner); ("repo", PStr repo);
              ("base_branch", PStr base_branch); ("compare_branch", PStr compare_branch);
              ("status", status); ("ahead_by", ahead_by); ("behind_by", behind_by);
              ("total_commits", total_commits); ("recent_commits", PList commit_items)]).

Definition comparison_not_found : pyval :=
  PDict [("error", PStr "❌ Branch comparison not found - check if branches exist");
         ("status_code", PInt 404)].

Definition get_branch_comparison (token : bool) (env : Env) (srv : server)
  (owner repo base_branch compare_branch : string) : pyval :=
  if negb token then no_token_report
  else
    match comparison_body env srv owner repo base_branch compare_branch with
    | inl (HTTPStatusError c t) =>
        if c =? 404 then comparison_not_found else http_error_report c t
    | r => run_tool true "Exception occurred while comparing branches" r
    end.

End BranchTools.

(** ** Dependency files ([health.check_repository_dependencies]) *)

Module Dependencies.

(** [[line.strip() for line in content.splitlines()
       if line.strip() and not line.startswith('#')]] *)
Definition dep_lines (content : string) : list string :=
  map PyStr.strip
    (filter (fun line => negb (String.eqb (PyStr.strip line) "")
                         && negb (String.prefix "#" line))
       (PyStr.splitlines content)).

(** [any(pkg in line.lower() for pkg in pkgs)] *)
Definition mentions (pkgs : list string) (line : string) : bool :=
  existsb (fun pkg => Health.contains pkg (PyStr.py_lower line)) pkgs.

Definition req_security : list string := ["cryptography"; "pycryptodome"; "bcrypt"; "passlib"].
Definition req_testing : list string := ["pytest"; "unittest"; "nose"; "tox"].

Definition _analyze_requirements_txt_json (content : string) : pyval :=
  let lines := dep_lines content in
  let pinned := filter (Health.contains "==") lines in
  PDict [("type", PStr "python");
         ("total_dependencies", PInt (Z.of_nat (List.length lines)));
         ("pinned_versions", PInt (Z.of_nat (List.length pinned)));
         ("security_packages", PList (map PStr (filter (mentions req_security) lines)));
         ("testing_frameworks", PList (map PStr (filter (mentions req_testing) lines)))].

Definition _analyze_pipfile_json (content : string) : pyval :=
  PDict [("type", PStr "pipfile");
         ("contains_packages_section", PBool (Health.contains "[packages]" content));
         ("contains_dev_packages_section", PBool (Health.contains "[dev-packages]" content))].

Definition rails_gems : list string := ["rails"; "devise"; "sidekiq"; "puma"].

Definition _analyze_gemfile_json (content : string) : pyval :=
  let lines := dep_lines content in
  let gem_lines := filter (String.prefix "gem ") lines in
  PDict [("type", PStr "ruby");
         ("total_gems", PInt (Z.of_nat (List.length gem_lines)));
         ("rails_related", PList (map PStr (filter (mentions rails_gems) gem_lines)))].

Definition known_files : list string :=
  ["package.json"; "requirements.txt"; "Pipfile"; "Gemfile"; "pom.xml"; "build.gradle";
   "Cargo.toml"; "go.mod"; "composer.json"].

Section WithJson.

Variable loads : string -> option pyval.

Definition _analyze_dependency_file_json (filename : pyval) (content : string) : M pyval :=
  if py_eqb filename (PStr "package.json") then Manifest._analyze_package_json_json loads content
  else if py_eqb filename (PStr "requirements.txt") then ret (_analyze_requirements_txt_json content)
  else if py_eqb filename (PStr "Pipfile") then ret (_analyze_pipfile_json content)
  else if py_eqb filename (PStr "Gemfile") then ret (_analyze_gemfile_json content)
  else ret (PDict [("note", PStr ("No analysis implemented for " ++ Health.py_str filename))]).

(** [item.get("name") in known_files] *)
Definition is_dependency_file (item : pyval) : M bool :=
  name <- get item "name" PNone ;;
  ret (existsb (fun k => py_eqb name (PStr k)) known_files).

(** [client.get(download_url)], not checked for its status. *)
Definition download (srv : server) (url : pyval) : M response :=
  match url with
  | PStr u => ret (srv u)
  | _ => raise (TypeError "Invalid type for url")
  end.

Definition analyze_step (srv : server) (acc : list pyval) (dep_file : pyval) : M (list pyval) :=
  file_name <- get dep_file "name" PNone ;;
  download_url <- get dep_file "download_url" PNone ;;
  if negb (truthy download_url) then ret acc
  else
    file_r <- download srv download_url ;;
    if status_code file_r =? 200 then
      analysis <- _analyze_dependency_file_json file_name (text file_r) ;;
      ret (acc ++ [PDict [("file", file_name); ("analysis", analysis)]])%list
    else ret acc.

Definition dependencies_body (srv : server) (owner repo : string) : M pyval :=
  contents <- fetch srv (api ++ "/repos/" ++ owner ++ "/" ++ repo ++ "/contents") ;;
  items <- py_iter contents ;;
  dependency_files <- Contribution.filterM is_dependency_file items ;;
  match dependency_files with
  | [] => ret (PDict [("owner", PStr owner); ("repo", PStr repo);
                      ("dependency_files_found", PList []);
                      ("message", PStr "No dependency files found")])
  | _ =>
      analysis_results <- PRAnalysis.foldM (analyze_step srv) [] dependency_files ;;
      names <- mapM (fun f => get f "name" PNone) dependency_files ;;
      ret (PDict [("owner", PStr owner); ("repo", PStr repo);
                  ("dependency_files_found", PList names);
                  ("results", PList analysis_results)])
  end.

Definition check_repository_dependencies (token : bool) (srv : server) (owner repo : string)
  : pyval :=
  run_tool token "Error analyzing dependencies" (dependencies_body srv owner repo).

End WithJson.

End Dependencies.

(** * Inputs used to evaluate the code *)

Module Inputs.

(** A dict field of a value, [None] when absent or not a dict. *)
Definition dict_lookup (v : pyval) (k : string) : option pyval :=
  match v with PDict kv => lookup k kv | _ => None end.

(** [d.get(k, default)] on an association list. *)
Definition dget (kv : list (string * pyval)) (k : string) (default : pyval) : pyval :=
  match lookup k kv with Some v => v | None => default end.

(** A server answering from a routing table, [dflt] elsewhere. *)
Definition route (rs : list (string * response)) (dflt : response) : server :=
  fun url => match find (fun p => String.eqb (fst p) url) rs with
             | Some (_, r) => r
             | None => dflt
             end.
Definition ok (j : pyval) : response := mkResponse 200 "{...}" j.
Definition not_found : response :=
  mkResponse 404 "{ message: Not Found }" (PDict [("message", PStr "Not Found")]).

(** 2024-03-01 01:00 UTC, read with the GitHub timestamp reader. *)
Definition env1 : Env :=
  mkEnv (days_from_civil 2024 3 1 * 86400 + 3600) (days_from_civil 2024 3 1 * 86400 + 3600)
        iso_model.

Definition repo_url : string := api ++ "/repos/octo/demo".

(** A branch as [GET /repos/o/r/branches] returns it. *)
Definition mk_branch (name date : string) : pyval :=
  PDict [("name", PStr name);
         ("commit", PDict [("sha", PStr "0123456789abcdef");
                           ("commit", PDict [("author", PDict [("name", PStr "dev");
                                                               ("date", PStr date)]);
                                             ("message", PStr "work")])])].

(** The names in the [branches] list of a report. *)
Definition report_branch_names (r : pyval) : list string :=
  match dict_lookup r "branches" with
  | Some (PList bs) =>
      map (fun b => match dict_lookup b "name" with Some (PStr s) => s | _ => "?" end) bs
  | _ => []
  end.

(** Default branch [main] (committed today, T) and two feature branches
    committed at T-1 and T-5. *)
Definition srv_branches : server :=
  route [(repo_url ++ "/branches",
            ok (PList [mk_branch "feature-b" "2024-02-25T10:00:00Z";
                       mk_branch "main" "2024-03-01T00:30:00Z";
                       mk_branch "feature-a" "2024-02-29T10:00:00Z"]));
         (repo_url, ok (PDict [("default_branch", PStr "main")]));
         (repo_url ++ "/pulls", ok (PList []))] not_found.

(** An empty repository whose repository request fails. *)
Definition srv_empty_repo_404 : server :=
  route [(repo_url ++ "/branches", ok (PList []))] not_found.

(** An empty repository whose three requests succeed. *)
Definition srv_empty_repo : server :=
  route [(repo_url ++ "/branches", ok (PList []));
         (repo_url, ok (PDict [("default_branch", PStr "trunk")]));
         (repo_url ++ "/pulls", ok (PList []))] not_found.

(** The PR of the complexity scenario. *)
Definition file_analysis_25 : pyval :=
  PDict [("total_files", PInt 25); ("total_additions", PInt 800);
         ("total_deletions", PInt 300);
         ("languages", PDict [("Python", PInt 1); ("JavaScript", PInt 1);
                              ("Go", PInt 1); ("Rust", PInt 1)]);
         ("large_files", PList [PStr "x"])].
Definition commit_analysis_12 : pyval := PDict [("total_commits", PInt 12)].

(** A [package.json] text and the reader of it. *)
Definition package_text : string := "{ dependencies: {...}, devDependencies: {...} }".
Definition package_deps : list (string * pyval) :=
  [("express", PStr "^4.18.0"); ("helmet", PStr "^7.0.0"); ("cors", PStr "^2.8.5")].
Definition package_dev : list (string * pyval) :=
  [("jest", PStr "^29.0.0"); ("eslint", PStr "^8.0.0")].
Definition package_loads (s : string) : option pyval :=
  if String.eqb s package_text
  then Some (PDict [("name", PStr "demo"); ("dependencies", PDict package_deps);
                    ("devDependencies", PDict package_dev)])
  else None.

(** The response the first failing URL of a sequence of checked GETs
    gets, [None] when they all succeed. *)
Definition first_failure (srv : server) (urls : list string) : option response :=
  option_map srv (find (fun u => negb (is_success (srv u))) urls).

(** A server where every request fails. *)
Definition srv_down : server := route [] not_found.

(** An entry of a [GET /repos/o/r/contents] listing. *)
Definition file_entry (name : string) : pyval :=
  PDict [("name", PStr name); ("type", PStr "file")].

(** An entry of a contents listing for the file [name]: a JSON object whose
    [name] is [name] and whose [type] is ["file"], its other fields free. *)
Definition file_item (name : string) (e : pyval) : Prop :=
  exists kv, e = PDict kv /\ lookup "name" kv = Some (PStr name)
             /\ lookup "type" kv = Some (PStr "file").

(** The lock file [_check_dependencies] looks for next to a manifest. *)
Definition lock_of (manifest : string) : string :=
  match Health.lock_file_of manifest with Some l => l | None => "" end.

(** A repository with a README, a license, a security policy, contributing
    guidelines, a code of conduct, a Travis CI file, a Node manifest and its
    lock file, issues, wiki and projects enabled, topics, a description and
    a push nine days before [env1]'s clock. *)
Definition repo_full : pyval :=
  PDict [("full_name", PStr "octo/demo"); ("description", PStr "A demo repository");
         ("updated_at", PStr "2024-02-20T10:00:00Z");
         ("license", PDict [("name", PStr "MIT License")]);
         ("has_issues", PBool true); ("has_wiki", PBool true); ("has_projects", PBool true);
         ("topics", PList [PStr "mcp"; PStr "github"]);
         ("archived", PBool false); ("fork", PBool false)].
Definition contents_full : pyval :=
  PList (map file_entry ["README.md"; "LICENSE"; "SECURITY.md"; "CONTRIBUTING.md";
                         "CODE_OF_CONDUCT.md"; ".travis.yml"; "package.json"; "package-lock.json"]).

(** Its API, with no community profile (404). *)
Definition srv_health : server :=
  route [(repo_url, ok repo_full); (repo_url ++ "/contents", ok contents_full)] not_found.

(** The instant an item's [created_at] denotes, in epoch seconds, when it
    parses to an aware datetime; [None] when reading it raises or gives a
    naive datetime. *)
Definition timestamp (env : Env) (x : pyval) : option Z :=
  match Contribution.created_at env x with
  | inr dt => match dt_offset dt with Some off => Some (dt_wall dt - off) | None => None end
  | inl _ => None
  end.

(** An event as [GET /users/u/events] returns it. *)
Definition event (type date : string) : pyval :=
  PDict [("type", PStr type); ("created_at", PStr date); ("repo", PDict [("name", PStr "octo/demo")])].

(** A user whose second event carries a timestamp that does not parse. *)
Definition user_url : string := api ++ "/users/octo".
Definition srv_bad_event : server :=
  route [(user_url, ok (PDict [("login", PStr "octo")]));
         (user_url ++ "/repos", ok (PList []));
         (user_url ++ "/events", ok (PList [event "PushEvent" "2024-02-29T10:00:00Z";
                                           event "PushEvent" "yesterday"]));
         (user_url ++ "/starred", ok (PList []))] not_found.

(** The test [Contribution.window] applies to one item. *)
Definition keep (env : Env) (cutoff : Z) (x : pyval) : M bool :=
  dt <- Contribution.created_at env x ;; Contribution.after dt cutoff.

(** Points the health checks give a contents entry named [n]: the
    security, contribution and CI tables, and the dependency table (7 with
    the manifest's lock file among the names [all], 5 without). *)
Definition sum_pts (f : string -> Z) (ns : list string) : Z :=
  fold_right (fun n acc => f n + acc) 0 ns.
Definition sec_pts (n : string) : Z :=
  if existsb (String.eqb n) (Health.keys Health.security_files) then 5 else 0.
Definition con_pts (n : string) : Z :=
  if existsb (String.eqb n) (Health.keys Health.contrib_files) then 3 else 0.
Definition ci_pts (n : string) : Z :=
  if existsb (String.eqb n) (Health.keys Health.ci_files) then 8 else 0.
Definition deps_pts (all : list string) (n : string) : Z :=
  if existsb (String.eqb n) (Health.keys Health.dependency_files) then
    match Health.lock_file_of n with
    | Some lf => if existsb (fun m => String.eqb m lf) all then 7 else 5
    | None => 5
    end
  else 0.
Definition readme_hit (n : string) : bool :=
  existsb (String.eqb (Health.upper n)) (map Health.upper Health.readme_files).
Definition license_hit (n : string) : bool :=
  existsb (fun f => String.eqb n f) Health.license_files.

(** The contributing, code-of-conduct and lock-file-bearing names of the tables. *)
Definition contributing_names : list string :=
  filter (fun k => Health.contains "CONTRIBUTING" (Health.upper k)) (Health.keys Health.contrib_files).
Definition conduct_names : list string :=
  filter (fun k => Health.contains "CODE_OF_CONDUCT" (Health.upper k)) (Health.keys Health.contrib_files).
Definition manifests_with_lock : list string :=
  filter (fun m => match Health.lock_file_of m with Some _ => true | None => false end)
    (Health.keys Health.dependency_files).

(** A file name outside the security, contributing, CI and dependency
    tables: the checks give it no points. *)
Definition neutral_name (n : string) : Prop :=
  ~ In n (Health.keys Health.security_files) /\ ~ In n (Health.keys Health.contrib_files)
  /\ ~ In n (Health.keys Health.ci_files) /\ ~ In n (Health.keys Health.dependency_files).

End Inputs.

Import Inputs.

(** ** Auxiliary notions for the proofs *)

Module FloatSign.

(** A float whose sign bit is clear (NaN included: [int()] rejects it). *)
Definition sign_clear (f : F64.t) : bool :=
  match f with
  | S754_zero s | S754_infinity s | S754_finite s _ _ => negb s
  | S754_nan => true
  end.

Definition num_nonneg (a : num) : Prop :=
  match a with NI z => 0 <= z | NF f => sign_clear f = true end.

End FloatSign.

(** The pieces of [civil_from_days] and [days_from_civil]: a day number
    splits into a 400-year era, a March-based year of the era [k] and a
    day of that year [doy]. *)
Module Calendar.

Definition year_start (k : Z) : Z := 365 * k + k / 4 - k / 100.
Definition year_of_era (doe : Z) : Z := (doe - doe / 1460 + doe / 36524 - doe / 146096) / 365.
Definition year_len (k : Z) : Z := if k =? 399 then 366 else year_start (k + 1) - year_start k.
Definition month_of (doy : Z) : Z := (5 * doy + 2) / 153.
Definition mday_of (doy : Z) : Z := doy - (153 * month_of doy + 2) / 5 + 1.
Definition month_num (mp : Z) : Z := if mp <? 10 then mp + 3 else mp - 9.
Definition doy_of (m d : Z) : Z := (153 * (if m >? 2 then m - 3 else m + 9) + 2) / 5 + d - 1.

Definition civil_of_parts (era k doy : Z) : Z * Z * Z :=
  let m := month_num (month_of doy) in
  (if m <=? 2 then k + era * 400 + 1 else k + era * 400, m, mday_of doy).

(** Table checks over the 400 years of an era and the 366 days of a year. *)
Definition year_check (k : Z) : bool :=
  (year_of_era (year_start k) =? k)
  && (year_of_era (year_start k + year_len k - 1) =? k)
  && ((year_len k =? 365) || (year_len k =? 366))
  && (0 <=? year_start k) && (year_start k + year_len k <=? 146097).

Fixpoint years_of_era_ok (fuel : nat) (k : Z) : bool :=
  match fuel with O => true | S f => year_check k && years_of_era_ok f (k + 1) end.

Definition md_step (m dd m2 dd2 : Z) : bool :=
  ((m2 =? m) && (dd2 =? dd + 1))
  || ((m2 =? m + 1) && (dd2 =? 1) && negb (m =? 2))
  || ((m =? 12) && (m2 =? 1) && (dd2 =? 1)).

Definition doy_check (doy : Z) : bool :=
  let m := month_num (month_of doy) in
  let dd := mday_of doy in
  (1 <=? m) && (m <=? 12) && (1 <=? dd) && (dd <=? 31) && (doy_of m dd =? doy)
  && (if doy =? 365 then true
      else md_step m dd (month_num (month_of (doy + 1))) (mday_of (doy + 1))).

Fixpoint doys_ok (fuel : nat) (doy : Z) : bool :=
  match fuel with O => true | S f => doy_check doy && doys_ok f (doy + 1) end.

(** How the civil date of day [d + 1] follows the one of day [d]. *)
Definition step_rel (y m dd y2 m2 dd2 : Z) : Prop :=
  (y2 = y /\ m2 = m /\ dd2 = dd + 1)
  \/ (y2 = y /\ m2 = m + 1 /\ dd2 = 1)
  \/ (y2 = y + 1 /\ m = 12 /\ m2 = 1 /\ dd2 = 1).

(** Four-digit years: 1000-01-01 up to 9999-12-31. *)
Definition first_day : Z := days_from_civil 1000 1 1.
Definition end_day : Z := days_from_civil 10000 1 1.

(** Table checks of the [%Y], [%m] and [%d] fields. *)
Definition four_digits (s : string) (v : Z) : bool :=
  match list_ascii_of_string s with
  | [c1; c2; c3; c4] => match digits_val [c1; c2; c3; c4] 0 with Some x => x =? v | None => false end
  | _ => false
  end.
Definition two_digits (s : string) (v : Z) : bool :=
  match list_ascii_of_string s with
  | [c1; c2] => match digits_val [c1; c2] 0 with Some x => x =? v | None => false end
  | _ => false
  end.
Definition str_lt (a b : string) : bool :=
  match String.compare a b with Lt => true | _ => false end.

Fixpoint years_ok (fuel : nat) (y : Z) : bool :=
  match fuel with
  | O => true
  | S f => four_digits (string_of_Z y) y
           && (if y =? 9999 then true else str_lt (string_of_Z y) (string_of_Z (y + 1)))
           && years_ok f (y + 1)
  end.
Fixpoint pads_ok (fuel : nat) (v top : Z) : bool :=
  match fuel with
  | O => true
  | S f => two_digits (pad 2 v) v
           && (if v =? top then true else str_lt (pad 2 v) (pad 2 (v + 1)))
           && pads_ok f (v + 1) top
  end.

(** The order [sorted()] uses on strings. *)
Definition str_le (a b : string) : Prop := String.compare a b <> Gt.
Definition str_lt_prop (a b : string) : Prop := String.compare a b = Lt.

(** The consecutive days [d], [d + 1], ..., [d + n - 1]. *)
Fixpoint day_range (d : Z) (n : nat) : list Z :=
  match n with O => [] | S k => d :: day_range (d + 1) k end.

End Calendar.

Import FloatSign Calendar.

(** ** Statements about the code above *)

Module ExtraSpecs.

(** The review status the PR summary should report for reviews in the
    given states: a requested change wins, then an approval, then any
    review at all. *)
Definition review_verdict (states : list pyval) : string :=
  if existsb (py_eqb (PStr "CHANGES_REQUESTED")) states then "Changes requested"
  else if existsb (py_eqb (PStr "APPROVED")) states then "Ready to merge"
  else match states with [] => "Awaiting review" | _ => "Under review" end.

(** The count stored under the string key [K] of a counter. *)
Fixpoint first_count (K : string) (d : list (pyval * Z)) : option Z :=
  match d with
  | [] => None
  | (k, n) :: d' => if py_eqb (PStr K) k then Some n else first_count K d'
  end.

Definition occ (K : string) (xs : list pyval) : Z :=
  Z.of_nat (List.length (filter (py_eqb (PStr K)) xs)).

(** The sum of the integer values of a JSON object. *)
Fixpoint sum_ints (kv : list (string * pyval)) : Z :=
  match kv with
  | [] => 0
  | (_, PInt n) :: kv' => n + sum_ints kv'
  | _ :: kv' => sum_ints kv'
  end.

(** The sum of the counts of a counter. *)
Fixpoint sum_counts (d : list (pyval * Z)) : Z :=
  match d with [] => 0 | (_, n) :: d' => n + sum_counts d' end.

(** A file's [additions] / [deletions] field, when it is an integer. *)
Definition additions_of (f : pyval) : M Z :=
  v <- get f "additions" (PInt 0) ;; Contribution.as_int v.
Definition deletions_of (f : pyval) : M Z :=
  v <- get f "deletions" (PInt 0) ;; Contribution.as_int v.

(** Whether a file's change count is above 100, with the record the
    large-file list holds for it. *)
Definition large_entry (f : pyval) : M (bool * pyval) :=
  filename <- get f "filename" (PStr "") ;;
  changes_count <- get f "changes" (PInt 0) ;;
  status <- get f "status" (PStr "") ;;
  big <- PRAnalysis.py_gt changes_count 100 ;;
  ret (big, PDict [("filename", filename); ("changes", changes_count); ("status", status)]).

(** The author name a commit is counted under. *)
Definition commit_author_name (c : pyval) : M pyval :=
  commit_info <- get c "commit" (PDict []) ;;
  author <- get commit_info "author" (PDict []) ;;
  get author "name" (PStr "Unknown").

(** An item of the issues list that is an issue, not a PR: its
    [pull_request] field is missing or falsy. *)
Definition is_plain_issue (i : pyval) : bool :=
  match get i "pull_request" PNone with inr f => negb (truthy f) | inl _ => false end.

(** The name a PR comment is counted under. *)
Definition comment_author (c : pyval) : M pyval :=
  user <- get c "user" (PDict []) ;;
  get user "login" (PStr "Unknown").

(** A contributor's [contributions] field, when it is an integer. *)
Definition contributions_of (c : pyval) : M Z :=
  v <- get c "contributions" (PInt 0) ;; Contribution.as_int v.



(** The analysis results of the listed dependency files [names]: for each
    file in order, either none or one [{"file": name, "analysis": a}]. *)
Definition file_results (names : list pyval) (opts : list (option pyval)) : list pyval :=
  flat_map (fun '(nm, o) => match o with
                            | Some a => [PDict [("file", nm); ("analysis", a)]]
                            | None => []
                            end) (combine names opts).

End ExtraSpecs.

Import ExtraSpecs.

(** ** Inputs for the properties of the PR, branch, dependency and
    contribution tools *)

Module ExtraInputs.

(** The value a computation returns, [d] if it raises. *)
Definition result_of {A} (d : A) (m : M A) : A :=
  match m with inr v => v | inl _ => d end.

(** A changed file as [GET /repos/o/r/pulls/n/files] returns it. *)
Definition pr_file (name status : string) (adds dels : Z) : pyval :=
  PDict [("filename", PStr name); ("status", PStr status); ("additions", PInt adds);
         ("deletions", PInt dels); ("changes", PInt (adds + dels))].
Definition ex_files : list pyval :=
  [pr_file "src/app.py" "modified" 120 5; pr_file "README.md" "modified" 3 0;
   pr_file "Makefile" "added" 10 0].

(** A commit as [GET /repos/o/r/pulls/n/commits] returns it. *)
Definition pr_commit (sha name msg : string) : pyval :=
  PDict [("sha", PStr sha);
         ("commit", PDict [("author", PDict [("name", PStr name);
                                             ("date", PStr "2024-02-29T10:00:00Z")]);
                           ("message", PStr msg)]);
         ("html_url", PStr "https://github.com/octo/demo/commit/1")].
Definition ex_commits : list pyval :=
  [pr_commit "aaaaaaaaaa" "ana" "Fix parser"; pr_commit "bbbbbbbbbb" "bo" "Add tests";
   pr_commit "cccccccccc" "ana" "Tidy"].

(** A review as [GET /repos/o/r/pulls/n/reviews] returns it. *)
Definition pr_review (state login : string) : pyval :=
  PDict [("id", PInt 1); ("state", PStr state); ("user", PDict [("login", PStr login)]);
         ("body", PStr "ok"); ("submitted_at", PStr "2024-02-29T12:00:00Z");
         ("html_url", PStr "https://github.com/octo/demo/pull/7")].
Definition ex_reviews : list pyval := [pr_review "COMMENTED" "rev1"; pr_review "APPROVED" "rev2"].

Definition ex_file_analysis : pyval :=
  result_of PNone (PRAnalysis._analyze_file_changes (PList ex_files)).
Definition ex_commit_analysis : pyval :=
  result_of PNone (PRAnalysis._analyze_commits (PList ex_commits)).
Definition ex_review_analysis : pyval :=
  result_of PNone (PRAnalysis._analyze_reviews (PList ex_reviews)).
Definition ex_file_kv : list (string * pyval) :=
  match ex_file_analysis with PDict kv => kv | _ => [] end.
Definition ex_changes : list pyval :=
  match lookup "changes" ex_file_kv with Some (PList l) => l | _ => [] end.

(** A line break. *)
Definition nl : string := String "010"%char EmptyString.

(** A PR whose description is only whitespace. *)
Definition ex_blank_info : list (string * pyval) :=
  [("number", PInt 7); ("mergeable", PBool true); ("description", PStr ("  " ++ nl ++ " "))].

(** PR 7 of octo/demo, opened without a body. *)
Definition ex_pr_kv : list (string * pyval) :=
  [("number", PInt 7); ("title", PStr "Fix parser"); ("state", PStr "open");
   ("body", PNone); ("user", PDict [("login", PStr "ana")])].
Definition pr7_url : string := repo_url ++ "/pulls/7".
Definition srv_pr7 : server :=
  route [(pr7_url, ok (PDict ex_pr_kv)); (pr7_url ++ "/files", ok (PList ex_files));
         (pr7_url ++ "/commits", ok (PList ex_commits));
         (pr7_url ++ "/reviews", ok (PList ex_reviews));
         (pr7_url ++ "/comments", ok (PList []))] not_found.

(** The comparison of [feature] with [main]: seven commits ahead. *)
Definition ex_compare_commits : list pyval :=
  map (fun s => pr_commit s "ana" "work")
      ["1111111111"; "2222222222"; "3333333333"; "4444444444"; "5555555555";
       "6666666666"; "7777777777"].
Definition ex_compare_kv : list (string * pyval) :=
  [("status", PStr "ahead"); ("ahead_by", PInt 7); ("behind_by", PInt 0);
   ("total_commits", PInt 7); ("commits", PList ex_compare_commits)].
Definition srv_compare : server :=
  route [(BranchTools.compare_url "octo" "demo" "main" "feature", ok (PDict ex_compare_kv))]
        not_found.

(** A server where the comparison request fails with status 500. *)
Definition srv_error : server := route [] (mkResponse 500 "Server Error" PNone).

(** The branches of [srv_branches]. *)
Definition ex_branches : list pyval :=
  [mk_branch "feature-b" "2024-02-25T10:00:00Z"; mk_branch "main" "2024-03-01T00:30:00Z";
   mk_branch "feature-a" "2024-02-29T10:00:00Z"].

(** A repository listing with two manifests and a README. *)
Definition content_file (name url : string) : pyval :=
  PDict [("name", PStr name); ("type", PStr "file"); ("download_url", PStr url)].
Definition srv_deps : server :=
  route [(repo_url ++ "/contents",
            ok (PList [content_file "README.md" "https://raw/README.md";
                       content_file "requirements.txt" "https://raw/requirements.txt";
                       content_file "Gemfile" "https://raw/Gemfile"]));
         ("https://raw/requirements.txt", mkResponse 200 ("flask==2.0" ++ nl ++ "pytest" ++ nl) PNone)]
        not_found.

(** Repositories, PRs and issues of the contribution analytics. *)
Definition ex_repo (name : string) (fork : bool) (stars : Z) : pyval :=
  PDict [("name", PStr name); ("fork", PBool fork); ("stargazers_count", PInt stars);
         ("forks_count", PInt 1); ("watchers_count", PInt stars);
         ("language", PStr "Python"); ("updated_at", PStr "2024-02-20T10:00:00Z");
         ("description", PStr "demo")].
Definition ex_repos : list pyval :=
  [ex_repo "a" false 5; ex_repo "b" true 2; ex_repo "c" false 9].
Definition ex_item (state date : string) (is_pr : bool) : pyval :=
  PDict ([("state", PStr state); ("created_at", PStr date)]
         ++ (if is_pr then [("pull_request", PDict [("url", PStr "u")])] else [])).
Definition ex_prs : list pyval :=
  [ex_item "open" "2024-02-29T10:00:00Z" false; ex_item "closed" "2023-12-01T10:00:00Z" false;
   ex_item "open" "2024-01-15T10:00:00Z" false].
Definition ex_issues : list pyval :=
  [ex_item "open" "2024-02-29T10:00:00Z" false; ex_item "open" "2024-02-28T10:00:00Z" true;
   ex_item "closed" "2023-12-01T10:00:00Z" false].

(** A review comment as [GET /repos/o/r/pulls/n/comments] returns it,
    from a user with the given login or without a [user] field. *)
Definition pr_comment (login : option string) (body : string) : pyval :=
  PDict ((match login with Some l => [("user", PDict [("login", PStr l)])] | None => [] end)
         ++ [("id", PInt 3); ("body", PStr body); ("created_at", PStr "2024-02-29T12:00:00Z");
             ("path", PStr "src/app.py"); ("line", PInt 4);
             ("html_url", PStr "https://github.com/octo/demo/pull/7")])%list.
Definition ex_comments : list pyval :=
  [pr_comment (Some "rev1") "nit"; pr_comment None "why?"; pr_comment (Some "rev1") "ok"].

(** Twelve contributors, with 1 to 12 contributions. *)
Definition ex_contributors : list pyval :=
  map (fun n => PDict [("login", PStr "dev"); ("contributions", PInt (Z.of_nat n));
                       ("avatar_url", PStr "https://avatars.example/dev")]) (seq 1 12).

(** A starred repository, with or without a language. *)
Definition ex_star (name : string) (lang : pyval) (stars : Z) : pyval :=
  PDict [("full_name", PStr name); ("language", lang); ("stargazers_count", PInt stars);
         ("topics", PList [PStr "cli"]); ("description", PStr "demo")].
Definition ex_starred : list pyval :=
  [ex_star "a/a" (PStr "Go") 4; ex_star "b/b" PNone 40; ex_star "c/c" (PStr "Rust") 7;
   ex_star "d/d" (PStr "Go") 1; ex_star "e/e" (PStr "C") 12; ex_star "f/f" (PStr "Go") 3].

(** Events of the last days, one of each kind, and one of two months ago. *)
Definition ex_events : list pyval :=
  [event "PullRequestEvent" "2024-02-29T10:00:00Z"; event "IssuesEvent" "2024-02-28T10:00:00Z";
   event "PushEvent" "2024-02-28T11:00:00Z"; event "PushEvent" "2023-12-28T11:00:00Z"].

(** The repositories above, a fourth Python one and one without a language. *)
Definition ex_lang_repos : list pyval :=
  (ex_repos ++ [ex_repo "d" false 1; PDict [("name", PStr "e"); ("language", PNone)]])%list.

End ExtraInputs.
Import ExtraInputs.

(** * Properties *)

(** ** PR complexity score *)

Module PRComplexityFacts.

(** C2 (counterexample): on 25 files, 800 + 300 changed lines, four
    languages, one large file and 12 commits, the score is not 90. *)
Lemma complexity_scenario_not_90 :
  ~ (exists kv, PRReviews._calculate_complexity_score file_analysis_25 commit_analysis_12
                = inr (PDict kv) /\ lookup "score" kv = Some (PInt 90)).
Proof.
  intros [kv [Hr Hs]]. vm_compute in Hr. injection Hr as <-. vm_compute in Hs. discriminate.
Qed.

(** C2 (amended): on that input the changes (1100) exceed 1000 and score
    40, the raw total 30 + 40 + 15 + 15 + 10 = 110 is clamped: the score is
    100 and the level "High". *)
Lemma complexity_scenario_100_high :
  PRReviews._calculate_complexity_score file_analysis_25 commit_analysis_12
  = inr (PDict [("score", PInt 100); ("level", PStr "High");
                ("factors", PList [PStr "High file count"; PStr "Large number of changes";
                                   PStr "Multiple languages"; PStr "Large file changes";
                                   PStr "Many commits"])]).
Proof. vm_compute. reflexivity. Qed.

End PRComplexityFacts.

(** ** Reasoning about the error monad *)

Module MonadFacts.

Lemma bind_inr {A B} (m : M A) (f : A -> M B) (b : B) :
  bind m f = inr b -> exists a, m = inr a /\ f a = inr b.
Proof. destruct m as [e|a]; cbn; [discriminate | eauto]. Qed.

Lemma bind_ret {A B} (a : A) (f : A -> M B) : bind (ret a) f = f a.
Proof. reflexivity. Qed.

Lemma get_dict (kv : list (string * pyval)) (k : string) (d : pyval) :
  get (PDict kv) k d = ret (dget kv k d).
Proof. unfold get, dget. destruct (lookup k kv); reflexivity. Qed.

End MonadFacts.

(** Peel one successful [bind] off a hypothesis [bind m f = inr r]. *)
Ltac inv_bind H :=
  lazymatch type of H with
  | bind ?m _ = inr _ =>
      let E := fresh "E" in destruct m eqn:E; cbn [bind] in H; [discriminate H |]
  end.

(** ** Branch status overview *)

Module BranchFacts.

(** C1: with default branch [main] (committed today) and feature branches
    committed one and five days ago, the report lists the branches as
    [feature-a] (T-1), [feature-b] (T-5), [main]: the key
    [(name != default, date)] sorted in reverse puts the default branch
    last, not first. *)
Lemma branch_overview_default_last :
  report_branch_names (Branches.get_branch_status_overview true env1 srv_branches "octo" "demo" 10)
  = ["feature-a"; "feature-b"; "main"].
Proof. vm_compute. reflexivity. Qed.

(** C10 (counterexample): an empty branch list whose repository request
    answers 404 gives the HTTP error report, not the empty-repository
    report. *)
Lemma empty_branches_repo_404 :
  Branches.get_branch_status_overview true env1 srv_empty_repo_404 "octo" "demo" 10
  = http_error_report 404 (text not_found).
Proof. vm_compute. reflexivity. Qed.

(** C10 (amended): with a token, when the branch request succeeds with an
    empty list, the repository request succeeds with a JSON object and the
    pull-request request succeeds, the report is exactly the success dict
    with the owner, the repo, an empty [branches] list, the default branch
    (from the repository, ["main"] when absent) and the message; when the
    branch request succeeds with an empty list but the repository request
    fails, or the repository request succeeds with a JSON object and the
    pull-request request fails, the report is the HTTP error report of the
    failing response. *)
Theorem empty_branches_report (env : Env) (srv : server) (owner repo : string) (limit : Z)
  (kv : list (string * pyval)) :
  let u := api ++ "/repos/" ++ owner ++ "/" ++ repo in
  is_success (srv (u ++ "/branches")) = true ->
  json (srv (u ++ "/branches")) = PList [] ->
  (is_success (srv u) = false ->
   Branches.get_branch_status_overview true env srv owner repo limit
   = http_error_report (status_code (srv u)) (text (srv u))) /\
  (is_success (srv u) = true ->
   json (srv u) = PDict kv ->
   is_success (srv (u ++ "/pulls")) = false ->
   Branches.get_branch_status_overview true env srv owner repo limit
   = http_error_report (status_code (srv (u ++ "/pulls"))) (text (srv (u ++ "/pulls")))) /\
  (is_success (srv u) = true ->
   json (srv u) = PDict kv ->
   is_success (srv (u ++ "/pulls")) = true ->
   Branches.get_branch_status_overview true env srv owner repo limit
   = PDict [("owner", PStr owner); ("repo", PStr repo); ("branches", PList []);
            ("default_branch", dget kv "default_branch" (PStr "main"));
            ("message", PStr ("🌿 No branches found in " ++ owner ++ "/" ++ repo))]).
Proof.
  intros u Hb Hbj.
  unfold Branches.get_branch_status_overview, run_tool, Branches.overview_body, fetch,
    raise_for_status.
  cbv zeta. fold u. rewrite Hb. cbn [bind ret].
  split; [| split].
  - intros Hr. rewrite Hr. reflexivity.
  - intros Hr Hrj Hp. rewrite Hr. cbn [bind ret].
    rewrite Hrj, MonadFacts.get_dict. cbn [bind ret]. rewrite Hp. reflexivity.
  - intros Hr Hrj Hp. rewrite Hr. cbn [bind ret].
    rewrite Hrj, MonadFacts.get_dict. cbn [bind ret]. rewrite Hp. cbn [bind ret negb].
    rewrite Hbj. reflexivity.
Qed.

Lemma empty_branches_report_witness :
  Branches.get_branch_status_overview true env1 srv_empty_repo_404 "octo" "demo" 10
  = http_error_report 404 (text not_found) /\
  Branches.get_branch_status_overview true env1
    (fun v => if String.eqb v (api ++ "/repos/octo/demo/pulls") then not_found
              else srv_empty_repo v) "octo" "demo" 10
  = http_error_report 404 (text not_found) /\
  Branches.get_branch_status_overview true env1 srv_empty_repo "octo" "demo" 10
  = PDict [("owner", PStr "octo"); ("repo", PStr "demo"); ("branches", PList []);
           ("default_branch", dget [("default_branch", PStr "trunk")] "default_branch" (PStr "main"));
           ("message", PStr ("🌿 No branches found in " ++ "octo" ++ "/" ++ "demo"))].
Proof.
  split; [| split].
  - apply (proj1 (empty_branches_report env1 srv_empty_repo_404 "octo" "demo" 10 []
                    ltac:(vm_compute; reflexivity) ltac:(vm_compute; reflexivity))).
    vm_compute; reflexivity.
  - apply (proj1 (proj2 (empty_branches_report env1
             (fun v => if String.eqb v (api ++ "/repos/octo/demo/pulls") then not_found
                       else srv_empty_repo v) "octo" "demo" 10 [("default_branch", PStr "trunk")]
             ltac:(vm_compute; reflexivity) ltac:(vm_compute; reflexivity))));
      vm_compute; reflexivity.
  - apply (proj2 (proj2 (empty_branches_report env1 srv_empty_repo "octo" "demo" 10
             [("default_branch", PStr "trunk")]
             ltac:(vm_compute; reflexivity) ltac:(vm_compute; reflexivity))));
      vm_compute; reflexivity.
Defined.

End BranchFacts.

(** ** Package manifests *)

Module ManifestFacts.

(** C8: for a [package.json] that parses to an object whose
    [dependencies] has N entries and [devDependencies] M entries (either
    mapping may be absent, counting as [{}]), the analyzer reports
    [dependencies_count = N] and [dev_dependencies_count = M]. *)
Theorem package_json_counts (loads : string -> option pyval) (content : string)
  (top deps dev : list (string * pyval)) :
  loads content = Some (PDict top) ->
  dget top "dependencies" (PDict []) = PDict deps ->
  dget top "devDependencies" (PDict []) = PDict dev ->
  exists r, Manifest._analyze_package_json_json loads content = inr (PDict r)
            /\ lookup "dependencies_count" r = Some (PInt (Z.of_nat (List.length deps)))
            /\ lookup "dev_dependencies_count" r = Some (PInt (Z.of_nat (List.length dev))).
Proof.
  intros Hl Hd Hv.
  unfold Manifest._analyze_package_json_json. rewrite Hl, !MonadFacts.get_dict, Hd, Hv.
  cbn. eexists. split; [reflexivity | split; reflexivity].
Qed.

Lemma package_json_counts_witness :
  exists r, Manifest._analyze_package_json_json package_loads package_text = inr (PDict r)
            /\ lookup "dependencies_count" r = Some (PInt (Z.of_nat (List.length package_deps)))
            /\ lookup "dev_dependencies_count" r = Some (PInt (Z.of_nat (List.length package_dev))).
Proof.
  apply (package_json_counts package_loads package_text
           [("name", PStr "demo"); ("dependencies", PDict package_deps);
            ("devDependencies", PDict package_dev)]);
    vm_compute; reflexivity.
Defined.

End ManifestFacts.

(** ** Contribution analytics on empty inputs *)

Module EmptySectionFacts.

Ltac empty_section analyzer call aggregator Hf H :=
  let Hs := fresh "Hs" in
  match goal with
  | |- dict_lookup _ _ = Some ?v =>
      assert (Hs : call = inr v) by (unfold analyzer; rewrite Hf; reflexivity)
  end;
  unfold aggregator in H; rewrite Hs in H;
  repeat inv_bind H; injection H as <-; reflexivity.

(** C9 (counterexample): the languages and collaboration sections have no
    empty-input guard. On an empty repository list and an empty event list
    the user report's [languages] and [collaboration] sections still carry
    several keys, not a single zero total. *)
Lemma languages_collaboration_not_single_key :
  exists r kl kc,
    Contribution._analyze_user_contributions env1 (PDict [("login", PStr "octo")])
      (PList []) (PList []) (PList []) 30 = inr r
    /\ dict_lookup r "languages" = Some (PDict kl) /\ (2 <= List.length kl)%nat
    /\ dict_lookup r "collaboration" = Some (PDict kc) /\ (2 <= List.length kc)%nat.
Proof.
  do 3 eexists. split; [vm_compute; reflexivity |].
  split; [vm_compute; reflexivity |]. split; [vm_compute; lia |].
  split; [vm_compute; reflexivity |]. vm_compute; lia.
Qed.

(** C9 (amended): in the user report, an empty (falsy) repository list
    makes the [repositories] section exactly [{"total_repos": 0}], an
    empty event list makes the [activity] section exactly
    [{"total_events": 0}] and an empty starred list makes the [starred]
    section exactly [{"total_starred": 0}]; in the repository report an
    empty contributor, commit, pull-request or issue list makes the
    [contributors], [commits], [pull_requests] or [issues] section exactly
    [{"total_contributors": 0}], [{"total_commits": 0}],
    [{"total_prs": 0}] or [{"total_issues": 0}]. *)
Theorem empty_sections_single_key (env : Env) (days : Z)
  (user repos events starred repo contributors commits prs issues : pyval) :
  (forall r, truthy repos = false ->
   Contribution._analyze_user_contributions env user repos events starred days = inr r ->
   dict_lookup r "repositories" = Some (PDict [("total_repos", PInt 0)])) /\
  (forall r, truthy events = false ->
   Contribution._analyze_user_contributions env user repos events starred days = inr r ->
   dict_lookup r "activity" = Some (PDict [("total_events", PInt 0)])) /\
  (forall r, truthy starred = false ->
   Contribution._analyze_user_contributions env user repos events starred days = inr r ->
   dict_lookup r "starred" = Some (PDict [("total_starred", PInt 0)])) /\
  (forall r, truthy contributors = false ->
   Contribution._analyze_repository_contributions env repo contributors commits prs issues days
   = inr r ->
   dict_lookup r "contributors" = Some (PDict [("total_contributors", PInt 0)])) /\
  (forall r, truthy commits = false ->
   Contribution._analyze_repository_contributions env repo contributors commits prs issues days
   = inr r ->
   dict_lookup r "commits" = Some (PDict [("total_commits", PInt 0)])) /\
  (forall r, truthy prs = false ->
   Contribution._analyze_repository_contributions env repo contributors commits prs issues days
   = inr r ->
   dict_lookup r "pull_requests" = Some (PDict [("total_prs", PInt 0)])) /\
  (forall r, truthy issues = false ->
   Contribution._analyze_repository_contributions env repo contributors commits prs issues days
   = inr r ->
   dict_lookup r "issues" = Some (PDict [("total_issues", PInt 0)])).
Proof.
  split; [| split; [| split; [| split; [| split; [| split]]]]]; intros r Hf H.
  - empty_section Contribution._analyze_user_repositories
      (Contribution._analyze_user_repositories repos)
      Contribution._analyze_user_contributions Hf H.
  - empty_section Contribution._analyze_user_activity
      (Contribution._analyze_user_activity env events days)
      Contribution._analyze_user_contributions Hf H.
  - empty_section Contribution._analyze_starred_repos
      (Contribution._analyze_starred_repos starred)
      Contribution._analyze_user_contributions Hf H.
  - empty_section Contribution._analyze_contributors
      (Contribution._analyze_contributors contributors)
      Contribution._analyze_repository_contributions Hf H.
  - empty_section Contribution._analyze_recent_commits
      (Contribution._analyze_recent_commits commits days)
      Contribution._analyze_repository_contributions Hf H.
  - empty_section Contribution._analyze_prs
      (Contribution._analyze_prs env prs days)
      Contribution._analyze_repository_contributions Hf H.
  - empty_section Contribution._analyze_issues
      (Contribution._analyze_issues env issues days)
      Contribution._analyze_repository_contributions Hf H.
Qed.

Lemma empty_sections_single_key_witness :
  (exists r1, Contribution._analyze_user_contributions env1 (PDict [("login", PStr "octo")])
                (PList []) (PList []) (PList []) 30 = inr r1
              /\ dict_lookup r1 "repositories" = Some (PDict [("total_repos", PInt 0)])
              /\ dict_lookup r1 "activity" = Some (PDict [("total_events", PInt 0)])
              /\ dict_lookup r1 "starred" = Some (PDict [("total_starred", PInt 0)])) /\
  (exists r3, Contribution._analyze_repository_contributions env1 (PDict [])
                (PList []) (PList []) (PList []) (PList []) 30 = inr r3
              /\ dict_lookup r3 "contributors" = Some (PDict [("total_contributors", PInt 0)])
              /\ dict_lookup r3 "commits" = Some (PDict [("total_commits", PInt 0)])
              /\ dict_lookup r3 "pull_requests" = Some (PDict [("total_prs", PInt 0)])
              /\ dict_lookup r3 "issues" = Some (PDict [("total_issues", PInt 0)])).
Proof.
  destruct (empty_sections_single_key env1 30 (PDict [("login", PStr "octo")])
              (PList []) (PList []) (PList []) (PDict []) (PList []) (PList [])
              (PList []) (PList [])) as [A [B [C [D [E [F G]]]]]].
  split.
  - eexists. split; [vm_compute; reflexivity |].
    match goal with
    | |- dict_lookup ?r _ = _ /\ _ =>
        split; [apply (A r) | split; [apply (B r) | apply (C r)]];
          first [reflexivity | vm_compute; reflexivity]
    end.
  - eexists. split; [vm_compute; reflexivity |].
    match goal with
    | |- dict_lookup ?r _ = _ /\ _ =>
        split; [apply (D r) | split; [apply (E r) | split; [apply (F r) | apply (G r)]]];
          first [reflexivity | vm_compute; reflexivity]
    end.
Defined.

End EmptySectionFacts.

(** ** Upstream HTTP errors *)

Module HttpErrorFacts.

Lemma fetch_eq (srv : server) (u : string) :
  fetch srv u = if is_success (srv u) then inr (json (srv u))
                else inl (HTTPStatusError (status_code (srv u)) (text (srv u))).
Proof. unfold fetch, raise_for_status. destruct (is_success (srv u)); reflexivity. Qed.

(** One checked GET: either it fails and the report is its error report,
    or the proof goes on with its body. *)
Ltac step_fetch H :=
  match goal with
  | |- context [is_success (?srv ?u)] =>
      let E := fresh "E" in
      destruct (is_success (srv u)) eqn:E; cbn [negb find option_map] in H;
      [ cbn [bind] | injection H as <-; reflexivity ]
  end.

Lemma user_contribution_first_failure (env : Env) (srv : server) (username : string)
  (days : Z) (include_private : bool) (r : response) :
  let u := api ++ "/users/" ++ username in
  first_failure srv [u; u ++ "/repos"; u ++ "/events"; u ++ "/starred"] = Some r ->
  Contribution.get_user_contribution_analytics true env srv username days include_private
  = http_error_report (status_code r) (text r).
Proof.
  intros u H. unfold first_failure in H. cbn [find] in H.
  unfold Contribution.get_user_contribution_analytics, run_tool,
    Contribution.user_contribution_body.
  cbv zeta. fold u. rewrite !fetch_eq. cbn [negb].
  do 4 step_fetch H. discriminate H.
Qed.

Lemma repository_contribution_first_failure (env : Env) (srv : server) (owner repo : string)
  (days : Z) (r : response) :
  let u := api ++ "/repos/" ++ owner ++ "/" ++ repo in
  first_failure srv [u; u ++ "/contributors"] = Some r \/
  ((exists c, Contribution.cutoff_utc env days = inr c) /\
   first_failure srv [u; u ++ "/contributors"; u ++ "/commits"; u ++ "/pulls"; u ++ "/issues"]
   = Some r) ->
  Contribution.get_repository_contribution_analytics true env srv owner repo days
  = http_error_report (status_code r) (text r).
Proof.
  intros u [H | [[c Hc] H]]; unfold first_failure in H; cbn [find] in H;
    unfold Contribution.get_repository_contribution_analytics, run_tool,
      Contribution.repository_contribution_body;
    cbv zeta; fold u; rewrite !fetch_eq; cbn [negb].
  - do 2 step_fetch H. discriminate H.
  - do 2 step_fetch H. rewrite Hc. cbn [bind]. do 3 step_fetch H. discriminate H.
Qed.

Lemma repository_contribution_overflow (env : Env) (srv : server) (owner repo : string)
  (days : Z) (e : exn) :
  let u := api ++ "/repos/" ++ owner ++ "/" ++ repo in
  first_failure srv [u; u ++ "/contributors"] = None ->
  Contribution.cutoff_utc env days = inl e ->
  Contribution.get_repository_contribution_analytics true env srv owner repo days
  = PDict [("error", PStr "Exception occurred while fetching repository data");
           ("details", PStr (exn_str e))].
Proof.
  intros u H Hc. unfold first_failure in H. cbn [find] in H.
  unfold Contribution.get_repository_contribution_analytics, run_tool,
    Contribution.repository_contribution_body.
  cbv zeta. fold u. rewrite !fetch_eq. cbn [negb].
  destruct (is_success (srv u)); cbn [negb option_map] in H; [| discriminate H].
  destruct (is_success (srv (u ++ "/contributors"))); cbn [negb option_map] in H; [| discriminate H].
  cbn [bind]. rewrite Hc. cbn [bind].
  unfold Contribution.cutoff_utc in Hc.
  destruct (999999999 <? Z.abs days); [injection Hc as <-; reflexivity |].
  destruct (_ && _); [discriminate Hc | injection Hc as <-; reflexivity].
Qed.

Lemma pr_summary_first_failure
  (analyze : pyval -> pyval -> pyval -> pyval -> pyval -> M pyval)
  (srv : server) (owner repo : string) (pr_number : Z) (r : response) :
  let u := api ++ "/repos/" ++ owner ++ "/" ++ repo ++ "/pulls/" ++ string_of_Z pr_number in
  first_failure srv [u; u ++ "/files"; u ++ "/commits"; u ++ "/reviews"; u ++ "/comments"]
  = Some r ->
  PRSummary.get_pr_review_summary analyze true srv owner repo pr_number
  = http_error_report (status_code r) (text r).
Proof.
  intros u H. unfold first_failure in H. cbn [find] in H.
  unfold PRSummary.get_pr_review_summary, run_tool, PRSummary.pr_summary_body.
  cbv zeta. fold u. rewrite !fetch_eq. cbn [negb].
  do 5 step_fetch H. discriminate H.
Qed.

Lemma branch_overview_first_failure (env : Env) (srv : server) (owner repo : string)
  (limit : Z) (r : response) :
  let u := api ++ "/repos/" ++ owner ++ "/" ++ repo in
  (is_success (srv u) = true -> exists kv, json (srv u) = PDict kv) ->
  first_failure srv [u ++ "/branches"; u; u ++ "/pulls"] = Some r ->
  Branches.get_branch_status_overview true env srv owner repo limit
  = http_error_report (status_code r) (text r).
Proof.
  intros u Hd H. unfold first_failure in H. cbn [find] in H.
  unfold Branches.get_branch_status_overview, run_tool, Branches.overview_body.
  cbv zeta. fold u. rewrite !fetch_eq. cbn [negb].
  step_fetch H. step_fetch H.
  destruct (Hd eq_refl) as [kv Hkv]. rewrite Hkv, MonadFacts.get_dict. cbn [bind ret].
  step_fetch H. discriminate H.
Qed.

Lemma health_ignores_community (env : Env) (srv1 srv2 : server) (owner repo : string) :
  let u := api ++ "/repos/" ++ owner ++ "/" ++ repo in
  srv1 u = srv2 u ->
  srv1 (u ++ "/contents") = srv2 (u ++ "/contents") ->
  Health.check_repository_health true env srv1 owner repo
  = Health.check_repository_health true env srv2 owner repo.
Proof.
  intros u H1 H2. unfold Health.check_repository_health. cbv zeta. fold u.
  rewrite H1, H2. reflexivity.
Qed.

(** C5 (counterexample): the health check of a repository whose
    community-profile request answers 404 still returns a health report
    (status "Good"), not an error report. *)
Lemma health_community_404_not_error :
  status_code (srv_health (repo_url ++ "/community/profile")) = 404 /\
  dict_lookup (Health.check_repository_health true env1 srv_health "octo" "demo") "error" = None /\
  dict_lookup (Health.check_repository_health true env1 srv_health "octo" "demo") "status"
  = Some (PStr "Good").
Proof. vm_compute. repeat split; reflexivity. Qed.

(** C5 (amended): for the user contribution, repository contribution, PR
    review summary and branch overview aggregators, when a checked GET
    fails (the GETs run in order and stop at the first non-2xx), the result
    is exactly [{"error": "HTTP error <code>", "details": <body>}] of that
    response, with nothing else merged in (for the branch overview, given
    that the repository request, when it succeeds, returns a JSON object).
    The health check tolerates its community-profile request: its result
    does not depend on that response at all. *)
Theorem aggregators_http_failure :
  (forall env srv username days include_private r,
     let u := api ++ "/users/" ++ username in
     first_failure srv [u; u ++ "/repos"; u ++ "/events"; u ++ "/starred"] = Some r ->
     Contribution.get_user_contribution_analytics true env srv username days include_private
     = http_error_report (status_code r) (text r)) /\
  (forall env srv owner repo days r,
     let u := api ++ "/repos/" ++ owner ++ "/" ++ repo in
     first_failure srv [u; u ++ "/contributors"] = Some r \/
     ((exists c, Contribution.cutoff_utc env days = inr c) /\
      first_failure srv [u; u ++ "/contributors"; u ++ "/commits"; u ++ "/pulls"; u ++ "/issues"]
      = Some r) ->
     Contribution.get_repository_contribution_analytics true env srv owner repo days
     = http_error_report (status_code r) (text r)) /\
  (forall env srv owner repo days e,
     let u := api ++ "/repos/" ++ owner ++ "/" ++ repo in
     first_failure srv [u; u ++ "/contributors"] = None ->
     Contribution.cutoff_utc env days = inl e ->
     Contribution.get_repository_contribution_analytics true env srv owner repo days
     = PDict [("error", PStr "Exception occurred while fetching repository data");
              ("details", PStr (exn_str e))]) /\
  (forall analyze srv owner repo pr_number r,
     let u := api ++ "/repos/" ++ owner ++ "/" ++ repo ++ "/pulls/" ++ string_of_Z pr_number in
     first_failure srv [u; u ++ "/files"; u ++ "/commits"; u ++ "/reviews"; u ++ "/comments"]
     = Some r ->
     PRSummary.get_pr_review_summary analyze true srv owner repo pr_number
     = http_error_report (status_code r) (text r)) /\
  (forall env srv owner repo limit r,
     let u := api ++ "/repos/" ++ owner ++ "/" ++ repo in
     (is_success (srv u) = true -> exists kv, json (srv u) = PDict kv) ->
     first_failure srv [u ++ "/branches"; u; u ++ "/pulls"] = Some r ->
     Branches.get_branch_status_overview true env srv owner repo limit
     = http_error_report (status_code r) (text r)) /\
  (forall env srv1 srv2 owner repo,
     let u := api ++ "/repos/" ++ owner ++ "/" ++ repo in
     srv1 u = srv2 u ->
     srv1 (u ++ "/contents") = srv2 (u ++ "/contents") ->
     Health.check_repository_health true env srv1 owner repo
     = Health.check_repository_health true env srv2 owner repo).
Proof.
  split; [exact user_contribution_first_failure |].
  split; [exact repository_contribution_first_failure |].
  split; [exact repository_contribution_overflow |].
  split; [exact pr_summary_first_failure |].
  split; [exact branch_overview_first_failure | exact health_ignores_community].
Qed.

(** A server where every request fails, and a health API with and without
    a community profile. *)
Lemma aggregators_http_failure_witness :
  Contribution.get_user_contribution_analytics true env1 srv_down "octo" 30 false
  = http_error_report 404 (text not_found) /\
  Contribution.get_repository_contribution_analytics true env1 srv_down "octo" "demo" 30
  = http_error_report 404 (text not_found) /\
  Contribution.get_repository_contribution_analytics true env1 (fun _ => ok (PDict []))
    "octo" "demo" 1000000
  = PDict [("error", PStr "Exception occurred while fetching repository data");
           ("details", PStr (exn_str (OverflowError "date value out of range")))] /\
  PRSummary.get_pr_review_summary (fun _ _ _ _ _ => ret PNone) true srv_down "octo" "demo" 7
  = http_error_report 404 (text not_found) /\
  Branches.get_branch_status_overview true env1 srv_down "octo" "demo" 10
  = http_error_report 404 (text not_found) /\
  Health.check_repository_health true env1 srv_health "octo" "demo"
  = Health.check_repository_health true env1
      (fun u => if String.eqb u (repo_url ++ "/community/profile")
                then ok (PDict [("health_percentage", PInt 100)]) else srv_health u)
      "octo" "demo".
Proof.
  destruct aggregators_http_failure as [A [B [B' [C [D E]]]]].
  split; [apply (A env1 srv_down "octo" 30 false not_found); reflexivity |].
  split; [apply (B env1 srv_down "octo" "demo" 30 not_found); left; reflexivity |].
  split; [apply (B' env1 (fun _ => ok (PDict [])) "octo" "demo" 1000000);
          vm_compute; reflexivity |].
  split; [apply (C (fun _ _ _ _ _ => ret PNone) srv_down "octo" "demo" 7 not_found);
          reflexivity |].
  split; [apply (D env1 srv_down "octo" "demo" 10 not_found);
          [intros Hs; vm_compute in Hs; discriminate Hs | reflexivity] |].
  apply (E env1 srv_health); vm_compute; reflexivity.
Defined.

End HttpErrorFacts.

(** ** Time windows *)

Module WindowFacts.

Lemma keep_some (env : Env) (c : Z) (x : pyval) (t : Z) :
  timestamp env x = Some t -> keep env c x = inr (c <? t).
Proof.
  unfold timestamp, keep. destruct (Contribution.created_at env x) as [e|dt]; [discriminate|].
  cbn [bind]. unfold Contribution.after. destruct (dt_offset dt); [|discriminate].
  intros [= <-]. reflexivity.
Qed.

Lemma keep_none (env : Env) (c : Z) (x : pyval) :
  timestamp env x = None -> exists e, keep env c x = inl e.
Proof.
  unfold timestamp, keep. destruct (Contribution.created_at env x) as [e|dt]; cbn [bind].
  - eauto.
  - unfold Contribution.after. destruct (dt_offset dt); [discriminate | eauto].
Qed.

Lemma filterM_keep_all (env : Env) (c : Z) (xs : list pyval) :
  Forall (fun x => timestamp env x <> None) xs ->
  Contribution.filterM (keep env c) xs
  = inr (filter (fun x => match timestamp env x with Some t => c <? t | None => false end) xs).
Proof.
  induction 1 as [| x xs Hx _ IH]; [reflexivity|].
  cbn [Contribution.filterM filter]. destruct (timestamp env x) as [t|] eqn:Ht; [|congruence].
  rewrite (keep_some env c x t Ht). cbn [bind]. rewrite IH. reflexivity.
Qed.

Lemma filterM_keep_fails (env : Env) (c : Z) (xs : list pyval) :
  Exists (fun x => timestamp env x = None) xs ->
  exists e, Contribution.filterM (keep env c) xs = inl e.
Proof.
  induction 1 as [x xs Hx | x xs _ [e IH]]; cbn [Contribution.filterM].
  - destruct (keep_none env c x Hx) as [e He]. rewrite He. cbn [bind]. eauto.
  - destruct (keep env c x) as [e'|b]; cbn [bind]; [eauto|]. rewrite IH. cbn [bind]. eauto.
Qed.

(** C4 (counterexample): a user whose second recent event has the
    timestamp ["yesterday"] gets the generic exception report, not a
    report whose activity window leaves that event out. *)
Lemma bad_timestamp_fails_report :
  dict_lookup (Contribution.get_user_contribution_analytics true env1 srv_bad_event "octo" 30 false)
    "error"
  = Some (PStr "Exception occurred while fetching contribution data").
Proof. vm_compute. reflexivity. Qed.

Lemma cutoff_utc_inr (env : Env) (days : Z) :
  Z.abs days <= 999999999 ->
  Contribution.datetime_min <= now_utc env - days * 86400 < Contribution.datetime_end ->
  Contribution.cutoff_utc env days = inr (now_utc env - days * 86400).
Proof.
  intros Hd [Hlo Hhi]. unfold Contribution.cutoff_utc.
  replace (999999999 <? Z.abs days) with false by (symmetry; apply Z.ltb_ge; lia).
  replace (Contribution.datetime_min <=? _) with true by (symmetry; apply Z.leb_le; lia).
  replace (_ <? Contribution.datetime_end) with true by (symmetry; apply Z.ltb_lt; lia).
  reflexivity.
Qed.

Lemma cutoff_utc_inl (env : Env) (days : Z) :
  ~ (Z.abs days <= 999999999 /\
     Contribution.datetime_min <= now_utc env - days * 86400 < Contribution.datetime_end) ->
  exists m, Contribution.cutoff_utc env days = inl (OverflowError m).
Proof.
  intros H. unfold Contribution.cutoff_utc.
  destruct (999999999 <? Z.abs days) eqn:E1; [eauto|].
  apply Z.ltb_ge in E1.
  destruct (Contribution.datetime_min <=? _) eqn:E2; cbn [andb]; [|eauto].
  destruct (_ <? Contribution.datetime_end) eqn:E3; [|eauto].
  apply Z.leb_le in E2. apply Z.ltb_lt in E3. exfalso. apply H. lia.
Qed.

(** C4 (amended): the cutoff now - N days is computed first, and it raises
    [OverflowError] when N exceeds 999999999 in magnitude or the cutoff
    leaves the years 1 to 9999; the activity (or pull-request) analysis
    of a non-empty list then raises it too. With the cutoff in range and
    every item's timestamp parsing to an aware datetime, the window is
    exactly the items, in order, whose instant is strictly after now - N
    days; as soon as one item's timestamp does not parse, the window
    raises, and so does the analysis that computes it, so the aggregator
    returns its generic exception report instead of a windowed result. *)
Theorem window_exact (env : Env) (days : Z) (xs : list pyval) :
  (Z.abs days <= 999999999 ->
   Contribution.datetime_min <= now_utc env - days * 86400 < Contribution.datetime_end ->
   Forall (fun x => timestamp env x <> None) xs ->
   Contribution.window env days xs
   = inr (filter (fun x => match timestamp env x with
                           | Some t => now_utc env - days * 86400 <? t
                           | None => false
                           end) xs)) /\
  (Exists (fun x => timestamp env x = None) xs ->
   exists e, Contribution.window env days xs = inl e
             /\ Contribution._analyze_user_activity env (PList xs) days = inl e
             /\ Contribution._analyze_prs env (PList xs) days = inl e) /\
  (~ (Z.abs days <= 999999999 /\
      Contribution.datetime_min <= now_utc env - days * 86400 < Contribution.datetime_end) ->
   exists m, Contribution.window env days xs = inl (OverflowError m)
             /\ (xs <> [] ->
                 Contribution._analyze_user_activity env (PList xs) days = inl (OverflowError m)
                 /\ Contribution._analyze_prs env (PList xs) days = inl (OverflowError m))).
Proof.
  assert (Hne : forall ys : list pyval, ys <> [] -> truthy (PList ys) = true)
    by (intros [|y ys] Hy; [congruence | reflexivity]).
  split; [|split].
  - intros Hd Hr H. unfold Contribution.window. rewrite (cutoff_utc_inr env days Hd Hr).
    cbn [bind]. apply (filterM_keep_all env _ xs H).
  - intros H.
    assert (Hw : exists e, Contribution.window env days xs = inl e).
    { unfold Contribution.window. destruct (Contribution.cutoff_utc env days) as [e|c];
        cbn [bind]; [eauto|]. apply (filterM_keep_fails env c xs H). }
    destruct Hw as [e Hw]. exists e.
    assert (Hx : truthy (PList xs) = true)
      by (apply Hne; destruct H; discriminate).
    split; [exact Hw | split].
    + unfold Contribution._analyze_user_activity. rewrite Hx. cbn [negb py_iter ret bind].
      rewrite Hw. reflexivity.
    + unfold Contribution._analyze_prs. rewrite Hx. cbn [negb py_iter ret bind].
      rewrite Hw. reflexivity.
  - intros H. destruct (cutoff_utc_inl env days H) as [m Hc].
    assert (Hw : Contribution.window env days xs = inl (OverflowError m))
      by (unfold Contribution.window; rewrite Hc; reflexivity).
    exists m. split; [exact Hw|]. intros Hxs. split.
    + unfold Contribution._analyze_user_activity. rewrite (Hne xs Hxs).
      cbn [negb py_iter ret bind]. rewrite Hw. reflexivity.
    + unfold Contribution._analyze_prs. rewrite (Hne xs Hxs).
      cbn [negb py_iter ret bind]. rewrite Hw. reflexivity.
Qed.

Lemma window_exact_witness :
  Contribution.window env1 30 [event "PushEvent" "2024-02-29T10:00:00Z";
                               event "PushEvent" "2023-01-01T10:00:00Z"]
  = inr [event "PushEvent" "2024-02-29T10:00:00Z"] /\
  (exists e, Contribution.window env1 30 [event "PushEvent" "2024-02-29T10:00:00Z";
                                          event "PushEvent" "yesterday"] = inl e
             /\ Contribution._analyze_user_activity env1
                  (PList [event "PushEvent" "2024-02-29T10:00:00Z"; event "PushEvent" "yesterday"])
                  30 = inl e
             /\ Contribution._analyze_prs env1
                  (PList [event "PushEvent" "2024-02-29T10:00:00Z"; event "PushEvent" "yesterday"])
                  30 = inl e) /\
  (exists m, Contribution.window env1 1000000 [event "PushEvent" "2024-02-29T10:00:00Z"]
             = inl (OverflowError m)
             /\ ([event "PushEvent" "2024-02-29T10:00:00Z"] <> [] ->
                 Contribution._analyze_user_activity env1
                   (PList [event "PushEvent" "2024-02-29T10:00:00Z"]) 1000000
                 = inl (OverflowError m)
                 /\ Contribution._analyze_prs env1
                   (PList [event "PushEvent" "2024-02-29T10:00:00Z"]) 1000000
                 = inl (OverflowError m))).
Proof.
  split; [|split].
  - rewrite (proj1 (window_exact env1 30 _)).
    + vm_compute. reflexivity.
    + lia.
    + vm_compute. split; [intro Hc; discriminate Hc | reflexivity].
    + repeat constructor; vm_compute; discriminate.
  - apply (proj1 (proj2 (window_exact env1 30 _))).
    apply Exists_cons_tl, Exists_cons_hd. vm_compute. reflexivity.
  - apply (proj2 (proj2 (window_exact env1 1000000 _))).
    vm_compute. intros [_ [H _]]. apply H. reflexivity.
Defined.

End WindowFacts.

(** ** Repository health score *)

Module HealthFacts.

Lemma sum_pts_cons f n ns : sum_pts f (n :: ns) = f n + sum_pts f ns.
Proof. reflexivity. Qed.

Lemma sum_pts_perm f ns ns' : Permutation ns ns' -> sum_pts f ns = sum_pts f ns'.
Proof.
  induction 1 as [| x l l' _ IH | x y l | l l' l'' _ IH1 _ IH2].
  - reflexivity.
  - rewrite !sum_pts_cons, IH. reflexivity.
  - rewrite !sum_pts_cons. lia.
  - congruence.
Qed.

Lemma get_file_name n d : get (file_entry n) "name" d = ret (PStr n).
Proof. reflexivity. Qed.
Lemma get_file_type n d : get (file_entry n) "type" d = ret (PStr "file").
Proof. reflexivity. Qed.

Lemma security_loop_files ns :
  exists g f, Health.security_loop (map file_entry ns) = inr (sum_pts sec_pts ns, g, f).
Proof.
  induction ns as [|n ns [g [f IH]]]; [eexists; eexists; reflexivity|].
  cbn [map Health.security_loop]. rewrite get_file_name.
  cbn [bind ret Health.in_str_keys]. rewrite IH. cbn [bind].
  rewrite sum_pts_cons. set (rest := sum_pts _ ns). unfold sec_pts.
  destruct (existsb _ _); do 2 eexists; reflexivity.
Qed.

Lemma contrib_loop_files ns :
  exists g fc fk, Health.contrib_loop (map file_entry ns) = inr (sum_pts con_pts ns, g, fc, fk).
Proof.
  induction ns as [|n ns [g [fc [fk IH]]]]; [do 3 eexists; reflexivity|].
  cbn [map Health.contrib_loop]. rewrite get_file_name.
  cbn [bind ret Health.in_str_keys]. rewrite IH. cbn [bind].
  rewrite sum_pts_cons. set (rest := sum_pts _ ns). unfold con_pts.
  destruct (existsb _ _);
    [destruct (Health.contains "CONTRIBUTING" _); [| destruct (Health.contains "CODE_OF_CONDUCT" _)] |];
    do 3 eexists; reflexivity.
Qed.

Lemma ci_loop_files ns :
  exists g f, Health.ci_loop (map file_entry ns) = inr (sum_pts ci_pts ns, g, f).
Proof.
  induction ns as [|n ns [g [f IH]]]; [eexists; eexists; reflexivity|].
  cbn [map Health.ci_loop]. rewrite get_file_name, get_file_type.
  cbn [bind ret Health.in_str_keys]. rewrite IH. cbn [bind].
  rewrite sum_pts_cons. set (rest := sum_pts _ ns). unfold ci_pts.
  destruct (existsb _ _); do 2 eexists; reflexivity.
Qed.

Lemma any_named_files lf ns :
  Health.any_named lf (map file_entry ns) = ret (existsb (fun m => String.eqb m lf) ns).
Proof.
  induction ns as [|n ns IH]; [reflexivity|].
  cbn [map Health.any_named existsb]. rewrite get_file_name. cbn [bind ret py_eqb].
  destruct (String.eqb n lf); [reflexivity | exact IH].
Qed.

Lemma deps_loop_files all ns :
  exists g i f, Health.deps_loop (map file_entry all) (map file_entry ns)
                = inr (sum_pts (deps_pts all) ns, g, i, f).
Proof.
  induction ns as [|n ns [g [i [f IH]]]]; [do 3 eexists; reflexivity|].
  cbn [map Health.deps_loop]. rewrite get_file_name.
  cbn [bind ret Health.in_str_keys].
  rewrite sum_pts_cons. set (rest := sum_pts _ ns). unfold deps_pts.
  destruct (existsb _ _).
  - destruct (Health.lock_file_of n) as [lf|].
    + rewrite any_named_files. cbn [bind ret].
      destruct (existsb _ all); cbn [bind ret]; rewrite IH; cbn [bind]; do 3 eexists; reflexivity.
    + cbn [bind ret]. rewrite IH; cbn [bind]; do 3 eexists; reflexivity.
  - cbn [bind ret]. rewrite IH; cbn [bind]; do 3 eexists; reflexivity.
Qed.

Lemma readme_loop_files ns :
  exists r, Health.check_readme_loop (map file_entry ns) = inr r
            /\ get r "exists" PNone = ret (PBool (existsb readme_hit ns)).
Proof.
  induction ns as [|n ns [r [IH Hr]]]; [eexists; split; reflexivity|].
  cbn [map Health.check_readme_loop existsb]. rewrite get_file_name. cbn [bind ret].
  change (readme_hit n) with (existsb (String.eqb (Health.upper n)) (map Health.upper Health.readme_files)).
  destruct (existsb (String.eqb (Health.upper n)) (map Health.upper Health.readme_files)); cbn [orb].
  - eexists; split; reflexivity.
  - eauto.
Qed.

Lemma license_loop_files ns :
  Health.check_license_loop (map file_entry ns)
  = ret (if existsb license_hit ns
         then PDict [("exists", PBool true); ("license", PStr "License file found")]
         else PDict [("exists", PBool false)]).
Proof.
  induction ns as [|n ns IH]; [reflexivity|].
  cbn [map Health.check_license_loop existsb]. rewrite get_file_name. cbn [bind ret].
  change (license_hit n) with (existsb (fun f => String.eqb n f) Health.license_files).
  replace (existsb (fun f => py_eqb (PStr n) (PStr f)) Health.license_files)
    with (existsb (fun f => String.eqb n f) Health.license_files) by reflexivity.
  destruct (existsb (fun f => String.eqb n f) Health.license_files); cbn [orb]; [reflexivity | exact IH].
Qed.

Ltac in_cases H := cbv in H; repeat (destruct H as [<- | H]); try contradiction.

Lemma readme_name_pts rd all : In rd Health.readme_files ->
  sec_pts rd = 0 /\ con_pts rd = 0 /\ ci_pts rd = 0 /\ deps_pts all rd = 0 /\ readme_hit rd = true.
Proof. intros H. in_cases H; repeat split. Qed.

Lemma license_name_pts li all : In li Health.license_files ->
  sec_pts li = 0 /\ con_pts li = 0 /\ ci_pts li = 0 /\ deps_pts all li = 0 /\ license_hit li = true.
Proof. intros H. in_cases H; repeat split. Qed.

Lemma security_name_pts n all : In n (Health.keys Health.security_files) ->
  sec_pts n = 5 /\ con_pts n = 0 /\ ci_pts n = 0 /\ deps_pts all n = 0.
Proof. intros H. in_cases H; repeat split. Qed.

Lemma contrib_name_pts n all : In n (Health.keys Health.contrib_files) ->
  sec_pts n = 0 /\ con_pts n = 3 /\ ci_pts n = 0 /\ deps_pts all n = 0.
Proof. intros H. in_cases H; repeat split. Qed.

Lemma ci_name_pts n all : In n (Health.keys Health.ci_files) ->
  sec_pts n = 0 /\ con_pts n = 0 /\ ci_pts n = 8 /\ deps_pts all n = 0.
Proof. intros H. in_cases H; repeat split. Qed.

Lemma manifest_name_pts n all : In n manifests_with_lock ->
  sec_pts n = 0 /\ con_pts n = 0 /\ ci_pts n = 0
  /\ deps_pts all n = (if existsb (fun m => String.eqb m (lock_of n)) all then 7 else 5)
  /\ sec_pts (lock_of n) = 0 /\ con_pts (lock_of n) = 0 /\ ci_pts (lock_of n) = 0
  /\ deps_pts all (lock_of n) = 0.
Proof. intros H. in_cases H; repeat split. Qed.

Lemma check_security_files ns :
  exists g i, Health._check_security_files (PList (map file_entry ns)) = inr (sum_pts sec_pts ns, g, i).
Proof.
  unfold Health._check_security_files. cbn [py_iter ret bind].
  destruct (security_loop_files ns) as [g [f ->]]. cbn [bind]. eauto.
Qed.

Lemma check_contribution_files ns :
  exists g i, Health._check_contribution_files (PList (map file_entry ns)) = inr (sum_pts con_pts ns, g, i).
Proof.
  unfold Health._check_contribution_files. cbn [py_iter ret bind].
  destruct (contrib_loop_files ns) as [g [fc [fk ->]]]. cbn [bind]. eauto.
Qed.

Lemma check_ci_cd ns :
  exists g i, Health._check_ci_cd (PList (map file_entry ns)) = inr (sum_pts ci_pts ns, g, i).
Proof.
  unfold Health._check_ci_cd. cbn [py_iter ret bind].
  destruct (ci_loop_files ns) as [g [f ->]]. cbn [bind]. eauto.
Qed.

Lemma check_dependencies owner repo ns :
  exists g i, Health._check_dependencies owner repo (PList (map file_entry ns))
              = inr (sum_pts (deps_pts ns) ns, g, i).
Proof.
  unfold Health._check_dependencies. cbn [py_iter ret bind].
  destruct (deps_loop_files ns ns) as [g [i [f ->]]]. cbn [bind]. eauto.
Qed.

Lemma check_readme ns :
  exists r, Health._check_readme (PList (map file_entry ns)) = inr r
            /\ get r "exists" PNone = ret (PBool (existsb readme_hit ns)).
Proof.
  unfold Health._check_readme. cbn [py_iter ret bind]. apply readme_loop_files.
Qed.

Lemma file_item_get n e k d :
  file_item n e -> k = "name" \/ k = "type" -> get e k d = get (file_entry n) k d.
Proof.
  intros [kv [-> [Hn Ht]]] [-> | ->]; rewrite MonadFacts.get_dict; unfold dget;
    [rewrite Hn | rewrite Ht]; reflexivity.
Qed.

Ltac items_step Hi IH :=
  repeat rewrite (file_item_get _ _ "name" _ Hi (or_introl eq_refl));
  repeat rewrite (file_item_get _ _ "type" _ Hi (or_intror eq_refl));
  rewrite ?IH; reflexivity.

Lemma security_loop_items ns es : Forall2 file_item ns es ->
  Health.security_loop es = Health.security_loop (map file_entry ns).
Proof. induction 1 as [| n e ns es Hi _ IH]; [reflexivity |]. cbn [map Health.security_loop]. items_step Hi IH. Qed.

Lemma contrib_loop_items ns es : Forall2 file_item ns es ->
  Health.contrib_loop es = Health.contrib_loop (map file_entry ns).
Proof. induction 1 as [| n e ns es Hi _ IH]; [reflexivity |]. cbn [map Health.contrib_loop]. items_step Hi IH. Qed.

Lemma ci_loop_items ns es : Forall2 file_item ns es ->
  Health.ci_loop es = Health.ci_loop (map file_entry ns).
Proof. induction 1 as [| n e ns es Hi _ IH]; [reflexivity |]. cbn [map Health.ci_loop]. items_step Hi IH. Qed.

Lemma readme_loop_items ns es : Forall2 file_item ns es ->
  Health.check_readme_loop es = Health.check_readme_loop (map file_entry ns).
Proof. induction 1 as [| n e ns es Hi _ IH]; [reflexivity |]. cbn [map Health.check_readme_loop]. items_step Hi IH. Qed.

Lemma license_loop_items ns es : Forall2 file_item ns es ->
  Health.check_license_loop es = Health.check_license_loop (map file_entry ns).
Proof. induction 1 as [| n e ns es Hi _ IH]; [reflexivity |]. cbn [map Health.check_license_loop]. items_step Hi IH. Qed.

Lemma any_named_items lf ns es : Forall2 file_item ns es ->
  Health.any_named lf es = Health.any_named lf (map file_entry ns).
Proof. induction 1 as [| n e ns es Hi _ IH]; [reflexivity |]. cbn [map Health.any_named]. items_step Hi IH. Qed.

Lemma deps_loop_items alln alle ns es : Forall2 file_item alln alle -> Forall2 file_item ns es ->
  Health.deps_loop alle es = Health.deps_loop (map file_entry alln) (map file_entry ns).
Proof.
  intros Ha. induction 1 as [| n e ns es Hi _ IH]; [reflexivity |]. cbn [map Health.deps_loop].
  repeat rewrite (file_item_get _ _ "name" _ Hi (or_introl eq_refl)).
  rewrite !get_file_name. cbn [bind ret Health.in_str_keys]. rewrite IH.
  destruct (existsb _ _); [| reflexivity].
  destruct (Health.lock_file_of n); [| reflexivity].
  rewrite (any_named_items _ _ _ Ha). reflexivity.
Qed.

Lemma health_analysis_items env owner repo rd ns es :
  Forall2 file_item ns es ->
  Health.health_analysis env owner repo rd (PList es)
  = Health.health_analysis env owner repo rd (PList (map file_entry ns)).
Proof.
  intros H. unfold Health.health_analysis, Health._check_readme, Health._check_license,
    Health._check_security_files, Health._check_contribution_files, Health._check_ci_cd,
    Health._check_dependencies.
  cbn [py_iter bind ret].
  rewrite (readme_loop_items _ _ H), (license_loop_items _ _ H), (security_loop_items _ _ H),
    (contrib_loop_items _ _ H), (ci_loop_items _ _ H), (deps_loop_items _ _ _ _ H H).
  reflexivity.
Qed.

Lemma sum_pts_app f a b : sum_pts f (a ++ b) = sum_pts f a + sum_pts f b.
Proof. induction a as [| x a IH]; [reflexivity |]. cbn [app]. rewrite !sum_pts_cons, IH. lia. Qed.

Lemma sum_pts_zero f l : Forall (fun n => f n = 0) l -> sum_pts f l = 0.
Proof. induction 1 as [| x l Hx _ IH]; [reflexivity |]. rewrite sum_pts_cons, Hx, IH. reflexivity. Qed.

Lemma not_key_existsb n ks : ~ In n ks -> existsb (String.eqb n) ks = false.
Proof.
  intros H. destruct (existsb _ _) eqn:E; [| reflexivity].
  apply existsb_exists in E as [k [Hk Hkn]]. apply String.eqb_eq in Hkn. subst. contradiction.
Qed.

Lemma neutral_pts n all : neutral_name n ->
  sec_pts n = 0 /\ con_pts n = 0 /\ ci_pts n = 0 /\ deps_pts all n = 0.
Proof.
  intros [Hs [Hc [Hi Hd]]]. unfold sec_pts, con_pts, ci_pts, deps_pts.
  rewrite !not_key_existsb by assumption. repeat split.
Qed.

Lemma check_license ns kv lc :
  existsb license_hit ns = true \/ truthy (dget kv "license" PNone) = true ->
  Health._check_license (PList (map file_entry ns)) (PDict kv) = inr lc ->
  get lc "exists" PNone = ret (PBool true).
Proof.
  intros Hl H. unfold Health._check_license in H. rewrite MonadFacts.get_dict in H.
  cbn [bind ret] in H. destruct (truthy (dget kv "license" PNone)) eqn:Et.
  - inv_bind H. injection H as <-. reflexivity.
  - destruct Hl as [Hl | Hl]; [| discriminate Hl].
    cbn [py_iter ret bind] in H. rewrite license_loop_files, Hl in H. injection H as <-.
    reflexivity.
Qed.

Lemma check_repository_settings kv r :
  truthy (dget kv "has_issues" PNone) = true -> truthy (dget kv "has_wiki" PNone) = true ->
  truthy (dget kv "has_projects" PNone) = true -> truthy (dget kv "topics" (PList [])) = true ->
  Health._check_repository_settings (PDict kv) = inr r ->
  exists g i t, r = ((12, g, i), t).
Proof.
  intros Hi Hw Hp Ht H. unfold Health._check_repository_settings in H.
  rewrite !MonadFacts.get_dict in H. cbn [bind ret] in H. rewrite Ht in H.
  inv_bind H. rewrite Hi, Hw, Hp in H. injection H as <-. eauto.
Qed.

Lemma activity_bonus env kv p :
  (if truthy (dget kv "updated_at" PNone)
   then last_update <- parse_iso env (dget kv "updated_at" PNone) ;;
        d <- days_since env last_update ;;
        ret (PInt d,
             if d <=? 30 then (10, ["Recently updated (within 30 days)"], @nil string)
             else if d <=? 90 then (5, ["Updated within 90 days"], [])
             else (0, [], ["Not updated in " ++ string_of_Z d ++ " days"]))
   else ret (PNone, (0, [], []))) = inr p ->
  (truthy (dget kv "updated_at" PNone) = false /\ fst (fst (snd p)) = 0) \/
  (exists dt d, parse_iso env (dget kv "updated_at" PNone) = inr dt /\ days_since env dt = inr d
                /\ fst (fst (snd p)) = if d <=? 30 then 10 else if d <=? 90 then 5 else 0).
Proof.
  destruct (truthy _) eqn:Et.
  - intros H. inv_bind H. inv_bind H. injection H as <-. cbn [fst snd]. right.
    match goal with Hd : days_since env ?x = inr ?y |- _ => exists x, y end.
    split; [reflexivity | split; [assumption |]].
    destruct (_ <=? 30); [| destruct (_ <=? 90)]; reflexivity.
  - intros [= <-]. left. split; reflexivity.
Qed.

Lemma health_analysis_full env owner repo kv ns others report (rd sec con coc ci man : string) :
  Permutation ([rd; sec; con; coc; ci; man; lock_of man] ++ others) ns ->
  Forall neutral_name others ->
  In rd Health.readme_files -> In sec (Health.keys Health.security_files) ->
  In con contributing_names -> In coc conduct_names -> In ci (Health.keys Health.ci_files) ->
  In man manifests_with_lock ->
  existsb license_hit ns = true \/ truthy (dget kv "license" PNone) = true ->
  truthy (dget kv "has_issues" PNone) = true -> truthy (dget kv "has_wiki" PNone) = true ->
  truthy (dget kv "has_projects" PNone) = true -> truthy (dget kv "topics" (PList [])) = true ->
  Health.health_analysis env owner repo (PDict kv) (PList (map file_entry ns)) = inr report ->
  exists act,
    ((truthy (dget kv "updated_at" PNone) = false /\ act = 0) \/
     (exists dt d, parse_iso env (dget kv "updated_at" PNone) = inr dt
                   /\ days_since env dt = inr d
                   /\ act = if d <=? 30 then 10 else if d <=? 90 then 5 else 0)) /\
    let s := 63 + (if truthy (dget kv "description" PNone) then 10 else 0) + act in
    dict_lookup report "health_score"
      = Some (if F64.ltb (Health.health_ratio s) (F64.of_Z 100)
              then PFloat (py_round 1 (Health.health_ratio s)) else PInt 100) /\
    dict_lookup report "status"
      = Some (PStr (Health.health_status
                      (if F64.ltb (Health.health_ratio s) (F64.of_Z 100)
                       then Health.health_ratio s else F64.of_Z 100))).
Proof.
  intros Hp Hoth Hrd Hsec Hcon Hcoc Hci Hman Hlic Hi Hw Hpj Ht H.
  apply filter_In in Hcon as [Hcon _]. apply filter_In in Hcoc as [Hcoc _].
  assert (Hin : forall x, In x [rd; sec; con; coc; ci; man; lock_of man] -> In x ns)
    by (intros x Hx; apply (Permutation_in _ Hp); apply in_or_app; left; exact Hx).
  assert (Hlock : existsb (fun m => String.eqb m (lock_of man)) ns = true).
  { apply existsb_exists. exists (lock_of man). split; [|apply String.eqb_refl].
    apply Hin. cbn; tauto. }
  destruct (readme_name_pts rd ns Hrd) as [r1 [r2 [r3 [r4 r5]]]].
  destruct (security_name_pts sec ns Hsec) as [s1 [s2 [s3 s4]]].
  destruct (contrib_name_pts con ns Hcon) as [c1 [c2 [c3 c4]]].
  destruct (contrib_name_pts coc ns Hcoc) as [k1 [k2 [k3 k4]]].
  destruct (ci_name_pts ci ns Hci) as [i1 [i2 [i3 i4]]].
  destruct (manifest_name_pts man ns Hman) as [m1 [m2 [m3 [m4 [m5 [m6 [m7 m8]]]]]]].
  rewrite Hlock in m4.
  assert (Hz : forall f, (forall n, neutral_name n -> f n = 0) -> sum_pts f others = 0).
  { intros f Hf. apply sum_pts_zero. eapply Forall_impl; [| exact Hoth]. exact Hf. }
  assert (Hsec_sum : sum_pts sec_pts ns = 5).
  { rewrite <- (sum_pts_perm _ _ _ Hp), sum_pts_app, !sum_pts_cons.
    rewrite (Hz sec_pts) by (intros n Hn; apply (neutral_pts n ns Hn)).
    cbn [sum_pts fold_right]. lia. }
  assert (Hcon_sum : sum_pts con_pts ns = 6).
  { rewrite <- (sum_pts_perm _ _ _ Hp), sum_pts_app, !sum_pts_cons.
    rewrite (Hz con_pts) by (intros n Hn; apply (neutral_pts n ns Hn)).
    cbn [sum_pts fold_right]. lia. }
  assert (Hci_sum : sum_pts ci_pts ns = 8).
  { rewrite <- (sum_pts_perm _ _ _ Hp), sum_pts_app, !sum_pts_cons.
    rewrite (Hz ci_pts) by (intros n Hn; apply (neutral_pts n ns Hn)).
    cbn [sum_pts fold_right]. lia. }
  assert (Hdep_sum : sum_pts (deps_pts ns) ns = 7).
  { rewrite <- (sum_pts_perm _ _ _ Hp), sum_pts_app, !sum_pts_cons.
    rewrite (Hz (deps_pts ns)) by (intros n Hn; apply (neutral_pts n ns Hn)).
    cbn [sum_pts fold_right]. lia. }
  assert (Hreadme : existsb readme_hit ns = true).
  { apply existsb_exists. exists rd. split; [|exact r5]. apply Hin. cbn; tauto. }
  unfold Health.health_analysis in H. rewrite !MonadFacts.get_dict in H. cbn [bind ret] in H.
  destruct (truthy (dget kv "description" PNone)) eqn:Hd; cbv beta iota zeta in H;
  inv_bind H; pose proof (activity_bonus _ _ _ E) as Hact;
  destruct p as [dsu [[s_act g_act] i_act]]; cbn [fst snd] in Hact; cbv beta iota zeta in H;
  destruct (check_readme ns) as [rr [Err Hrr]]; rewrite Err in H; cbn [bind] in H;
  inv_bind H; pose proof (check_license ns kv _ Hlic E0) as Hlc;
  destruct (check_security_files ns) as [gs [is Es]]; rewrite Es, Hsec_sum in H; cbn [bind] in H;
  destruct (check_contribution_files ns) as [gc [ic Ec]]; rewrite Ec, Hcon_sum in H; cbn [bind] in H;
  destruct (check_ci_cd ns) as [gi [ii Ei]]; rewrite Ei, Hci_sum in H; cbn [bind] in H;
  destruct (check_dependencies owner repo ns) as [gd [id Edp]]; rewrite Edp, Hdep_sum in H;
  cbn [bind] in H;
  inv_bind H; destruct (check_repository_settings kv _ Hi Hw Hpj Ht E1) as [gt [it [tp ->]]];
  cbn [bind] in H; rewrite Hrr, Hreadme in H; cbn [bind ret] in H;
  inv_bind H; rewrite Hlc in H; cbn [bind ret] in H; inv_bind H; cbn [truthy] in H;
  injection H as <-; exists s_act; (split; [exact Hact |]).
  all: assert (Hs : s_act = 0 \/ s_act = 5 \/ s_act = 10)
         by (destruct Hact as [[_ ->] | [dt [d [_ [_ ->]]]]];
             [| destruct (d <=? 30); [| destruct (d <=? 90)]]; auto).
  all: destruct Hs as [-> | [-> | ->]]; split; vm_compute; reflexivity.
Qed.

Lemma file_items_of ns : Forall2 file_item ns (map file_entry ns).
Proof.
  induction ns as [| n ns IH]; constructor; [| exact IH].
  eexists. split; [reflexivity | split; reflexivity].
Qed.

Lemma neutral_of_tables n :
  existsb (String.eqb n) (Health.keys Health.security_files
                          ++ Health.keys Health.contrib_files
                          ++ Health.keys Health.ci_files
                          ++ Health.keys Health.dependency_files) = false ->
  neutral_name n.
Proof.
  rewrite !existsb_app. intros H.
  repeat match type of H with (_ || _) = false => apply orb_false_iff in H as [? H] end.
  unfold neutral_name. repeat split; intro Hin;
    match goal with
    | Hk : existsb (String.eqb n) ?ks = false |- _ =>
        assert (existsb (String.eqb n) ks = true)
          by (apply existsb_exists; exists n; split; [exact Hin | apply String.eqb_refl]);
        congruence
    end.
Qed.

(** C3 (counterexample): a repository with a README, a license, a security
    policy, contributing guidelines, a code of conduct, a Travis CI file,
    [package.json] with [package-lock.json], issues, wiki and projects
    enabled, topics, a description and a recent push scores 83.0, status
    "Good", not "Excellent". *)
Lemma full_repository_scores_83 :
  dict_lookup (Health.check_repository_health true env1 srv_health "octo" "demo") "health_score"
  = Some (PFloat (F64.of_Z 83)) /\
  dict_lookup (Health.check_repository_health true env1 srv_health "octo" "demo") "status"
  = Some (PStr "Good").
Proof. vm_compute. split; reflexivity. Qed.

(** C3 (amended): when the contents listing holds a README, a security
    file, a contributing file, a code of conduct, a CI file of the table
    and a manifest that has a lock file together with that lock file, each
    entry a file, and any other entries are files outside the security,
    contributing, CI and dependency tables; when a license is found (a
    LICENSE-family file in the listing, or license metadata from the API);
    when issues, wiki and projects are enabled, topics are set and the
    analysis completes, the health score is 63, plus 10 with a
    description, plus 10 / 5 / 0 when the last update is at most 30 days
    old / at most 90 days old / older or absent: the percentage is between
    63 and 83 and the status is "Needs Improvement" or "Good", never
    "Excellent". *)
Theorem full_repository_health (env : Env) (srv : server) (owner repo : string)
  (kv : list (string * pyval)) (ns : list string) (es : list pyval) (others : list string)
  (report : pyval) (rd sec con coc ci man : string) :
  let u := api ++ "/repos/" ++ owner ++ "/" ++ repo in
  json (srv u) = PDict kv ->
  json (srv (u ++ "/contents")) = PList es ->
  Forall2 file_item ns es ->
  Permutation ([rd; sec; con; coc; ci; man; lock_of man] ++ others) ns ->
  Forall neutral_name others ->
  In rd Health.readme_files -> In sec (Health.keys Health.security_files) ->
  In con contributing_names -> In coc conduct_names -> In ci (Health.keys Health.ci_files) ->
  In man manifests_with_lock ->
  (exists li, In li ns /\ In li Health.license_files) \/ truthy (dget kv "license" PNone) = true ->
  truthy (dget kv "has_issues" PNone) = true -> truthy (dget kv "has_wiki" PNone) = true ->
  truthy (dget kv "has_projects" PNone) = true -> truthy (dget kv "topics" (PList [])) = true ->
  Health.health_analysis env owner repo (PDict kv) (PList es) = inr report ->
  Health.check_repository_health true env srv owner repo = report /\
  exists act,
    ((truthy (dget kv "updated_at" PNone) = false /\ act = 0) \/
     (exists dt d, parse_iso env (dget kv "updated_at" PNone) = inr dt
                   /\ days_since env dt = inr d
                   /\ act = if d <=? 30 then 10 else if d <=? 90 then 5 else 0)) /\
    let s := 63 + (if truthy (dget kv "description" PNone) then 10 else 0) + act in
    dict_lookup report "health_score" = Some (PFloat (py_round 1 (Health.health_ratio s))) /\
    dict_lookup report "status" = Some (PStr (Health.health_status (Health.health_ratio s))) /\
    (Health.health_status (Health.health_ratio s) = "Needs Improvement" \/
     Health.health_status (Health.health_ratio s) = "Good").
Proof.
  intros u Hr Hc Hf Hp Hoth Hrd Hsec Hcon Hcoc Hci Hman Hlic Hi Hw Hpj Ht H. split.
  - unfold Health.check_repository_health, run_tool. cbv zeta. fold u.
    rewrite Hr, Hc, H. reflexivity.
  - rewrite (health_analysis_items _ _ _ _ _ _ Hf) in H.
    assert (Hlic' : existsb license_hit ns = true \/ truthy (dget kv "license" PNone) = true).
    { destruct Hlic as [[li [Hin Hli]] | Hl]; [left | right; exact Hl].
      apply existsb_exists. exists li. split; [exact Hin |].
      apply existsb_exists. exists li. split; [exact Hli | apply String.eqb_refl]. }
    destruct (health_analysis_full env owner repo kv ns others report rd sec con coc ci man
                Hp Hoth Hrd Hsec Hcon Hcoc Hci Hman Hlic' Hi Hw Hpj Ht H) as [act [Hact [Hs Hst]]].
    exists act. split; [exact Hact |]. cbv zeta in *. rewrite Hs, Hst.
    assert (Ha : act = 0 \/ act = 5 \/ act = 10)
      by (destruct Hact as [[_ ->] | [dt [d [_ [_ ->]]]]];
          [| destruct (d <=? 30); [| destruct (d <=? 90)]]; auto).
    destruct (truthy (dget kv "description" PNone));
      destruct Ha as [-> | [-> | ->]]; vm_compute; auto.
Qed.

Lemma full_repository_health_witness :
  Health.check_repository_health true env1 srv_health "octo" "demo"
  = Health.check_repository_health true env1 srv_health "octo" "demo" /\
  exists act,
    ((truthy (dget (match repo_full with PDict kv => kv | _ => [] end) "updated_at" PNone) = false
      /\ act = 0) \/
     (exists dt d,
        parse_iso env1 (dget (match repo_full with PDict kv => kv | _ => [] end) "updated_at" PNone)
        = inr dt
        /\ days_since env1 dt = inr d
        /\ act = if d <=? 30 then 10 else if d <=? 90 then 5 else 0)) /\
    let s := 63 + (if truthy (dget (match repo_full with PDict kv => kv | _ => [] end)
                                  "description" PNone) then 10 else 0) + act in
    dict_lookup (Health.check_repository_health true env1 srv_health "octo" "demo") "health_score"
    = Some (PFloat (py_round 1 (Health.health_ratio s))) /\
    dict_lookup (Health.check_repository_health true env1 srv_health "octo" "demo") "status"
    = Some (PStr (Health.health_status (Health.health_ratio s))) /\
    (Health.health_status (Health.health_ratio s) = "Needs Improvement" \/
     Health.health_status (Health.health_ratio s) = "Good").
Proof.
  apply (full_repository_health env1 srv_health "octo" "demo"
           (match repo_full with PDict kv => kv | _ => [] end)
           ["README.md"; "LICENSE"; "SECURITY.md"; "CONTRIBUTING.md";
            "CODE_OF_CONDUCT.md"; ".travis.yml"; "package.json"; "package-lock.json"]
           (map file_entry ["README.md"; "LICENSE"; "SECURITY.md"; "CONTRIBUTING.md";
                            "CODE_OF_CONDUCT.md"; ".travis.yml"; "package.json"; "package-lock.json"])
           ["LICENSE"]
           (Health.check_repository_health true env1 srv_health "octo" "demo")
           "README.md" "SECURITY.md" "CONTRIBUTING.md" "CODE_OF_CONDUCT.md"
           ".travis.yml" "package.json").
  - vm_compute. reflexivity.
  - vm_compute. reflexivity.
  - apply file_items_of.
  - cbn [app]. apply perm_skip. apply Permutation_sym, Permutation_cons_append.
  - constructor; [apply neutral_of_tables; vm_compute; reflexivity | constructor].
  - vm_compute. tauto.
  - vm_compute. tauto.
  - vm_compute. tauto.
  - vm_compute. tauto.
  - vm_compute. tauto.
  - vm_compute. tauto.
  - left. exists "LICENSE". split; vm_compute; tauto.
  - vm_compute. reflexivity.
  - vm_compute. reflexivity.
  - vm_compute. reflexivity.
  - vm_compute. reflexivity.
  - vm_compute. reflexivity.
Defined.

End HealthFacts.

(** ** Activity score ([_calculate_activity_score]) *)

Module ActivityScoreFacts.


Lemma round_aux_clear mx ex lx :
  sign_clear (binary_round_aux F64.prec F64.emax false mx ex lx) = true.
Proof.
  unfold binary_round_aux.
  destruct (shr_fexp _ _ _ _ _) as [r1 e1].
  destruct (shr_fexp _ _ _ _ _) as [r2 e2].
  destruct (shr_m r2); [reflexivity | destruct (_ <=? _) | ]; reflexivity.
Qed.

Lemma normalize_clear m e :
  0 <= m -> sign_clear (binary_normalize F64.prec F64.emax m e false) = true.
Proof.
  intros Hm. destruct m as [| p | p]; [reflexivity | | lia].
  unfold binary_normalize, binary_round.
  destruct (shl_align _ _ _). apply round_aux_clear.
Qed.

Lemma of_Z_clear z : 0 <= z -> sign_clear (F64.of_Z z) = true.
Proof. apply normalize_clear. Qed.




Lemma to_float_clear a : num_nonneg a -> sign_clear (num_to_float a) = true.
Proof. destruct a; simpl; [apply of_Z_clear | auto]. Qed.










End ActivityScoreFacts.


(** ** Activity streak ([_calculate_activity_streak]) *)

Module StreakFacts.

Lemma civil_from_days_eq z0 :
  civil_from_days z0 =
  let era := (z0 + 719468) / 146097 in
  let doe := z0 + 719468 - era * 146097 in
  let yoe := year_of_era doe in
  let doy := doe - year_start yoe in
  let m := month_num (month_of doy) in
  (if m <=? 2 then yoe + era * 400 + 1 else yoe + era * 400, m, mday_of doy).
Proof. reflexivity. Qed.

Lemma years_of_era_checked : years_of_era_ok 400 0 = true.
Proof. vm_compute. reflexivity. Qed.
Lemma doys_checked : doys_ok 366 0 = true.
Proof. vm_compute. reflexivity. Qed.

Lemma years_of_era_spec n k0 : years_of_era_ok n k0 = true ->
  forall k, k0 <= k < k0 + Z.of_nat n -> year_check k = true.
Proof.
  revert k0. induction n as [| n IH]; intros k0 H k Hk; [lia |].
  simpl in H. apply andb_true_iff in H as [H1 H2].
  destruct (Z.eq_dec k k0) as [-> | Hne]; [exact H1 |].
  apply (IH (k0 + 1)); [exact H2 | lia].
Qed.

Lemma doys_spec n d0 : doys_ok n d0 = true ->
  forall d, d0 <= d < d0 + Z.of_nat n -> doy_check d = true.
Proof.
  revert d0. induction n as [| n IH]; intros d0 H d Hd; [lia |].
  simpl in H. apply andb_true_iff in H as [H1 H2].
  destruct (Z.eq_dec d d0) as [-> | Hne]; [exact H1 |].
  apply (IH (d0 + 1)); [exact H2 | lia].
Qed.

Lemma year_facts k : 0 <= k <= 399 ->
  year_of_era (year_start k) = k /\ year_of_era (year_start k + year_len k - 1) = k
  /\ 365 <= year_len k <= 366 /\ 0 <= year_start k /\ year_start k + year_len k <= 146097.
Proof.
  intros Hk. pose proof (years_of_era_spec _ _ years_of_era_checked k ltac:(simpl; lia)) as H.
  unfold year_check in H.
  repeat rewrite andb_true_iff in H. rewrite orb_true_iff in H.
  repeat rewrite Z.eqb_eq in H. repeat rewrite Z.leb_le in H. lia.
Qed.

Lemma year_len_next k : 0 <= k < 399 -> year_start k + year_len k = year_start (k + 1).
Proof.
  intros Hk. unfold year_len. replace (k =? 399) with false by (symmetry; apply Z.eqb_neq; lia).
  ring.
Qed.

Lemma div_bounds a n : 0 < n -> n * (a / n) <= a < n * (a / n) + n.
Proof.
  intros Hn. pose proof (Z.div_mod a n ltac:(lia)). pose proof (Z.mod_pos_bound a n Hn). lia.
Qed.

Lemma era_step x : 0 <= x < 146096 ->
  x - x / 1460 + x / 36524 - x / 146096
  <= (x + 1) - (x + 1) / 1460 + (x + 1) / 36524 - (x + 1) / 146096.
Proof.
  intros Hx.
  pose proof (div_bounds x 1460 ltac:(lia)). pose proof (div_bounds (x + 1) 1460 ltac:(lia)).
  pose proof (div_bounds x 36524 ltac:(lia)). pose proof (div_bounds (x + 1) 36524 ltac:(lia)).
  pose proof (div_bounds x 146096 ltac:(lia)). pose proof (div_bounds (x + 1) 146096 ltac:(lia)).
  lia.
Qed.

Lemma year_of_era_mono a b : 0 <= a <= b -> b <= 146096 -> year_of_era a <= year_of_era b.
Proof.
  intros Hab Hb. unfold year_of_era. apply Z.div_le_mono; [lia |].
  replace b with (a + Z.of_nat (Z.to_nat (b - a))) by lia.
  assert (Hn : a + Z.of_nat (Z.to_nat (b - a)) <= 146096) by lia.
  induction (Z.to_nat (b - a)) as [| n IH]; [rewrite Z.add_0_r; lia |].
  rewrite Nat2Z.inj_succ in *.
  pose proof (era_step (a + Z.of_nat n) ltac:(lia)).
  replace (a + Z.succ (Z.of_nat n)) with (a + Z.of_nat n + 1) by lia.
  specialize (IH ltac:(lia)). lia.
Qed.

Lemma year_of_era_in k x : 0 <= k <= 399 ->
  year_start k <= x < year_start k + year_len k -> year_of_era x = k.
Proof.
  intros Hk Hx. destruct (year_facts k Hk) as (H1 & H2 & H3 & H4 & H5).
  pose proof (year_of_era_mono (year_start k) x ltac:(lia) ltac:(lia)).
  pose proof (year_of_era_mono x (year_start k + year_len k - 1) ltac:(lia) ltac:(lia)).
  lia.
Qed.

Lemma year_of_era_range doe : 0 <= doe < 146097 ->
  0 <= year_of_era doe <= 399
  /\ year_start (year_of_era doe) <= doe < year_start (year_of_era doe) + year_len (year_of_era doe).
Proof.
  intros Hd.
  pose proof (year_of_era_mono 0 doe ltac:(lia) ltac:(lia)) as L.
  pose proof (year_of_era_mono doe 146096 ltac:(lia) ltac:(lia)) as U.
  replace (year_of_era 0) with 0 in L by reflexivity.
  replace (year_of_era 146096) with 399 in U by reflexivity.
  set (k := year_of_era doe) in *.
  destruct (year_facts k ltac:(lia)) as (H1 & H2 & H3 & H4 & H5).
  split; [lia |]. split.
  - destruct (Z_lt_le_dec doe (year_start k)) as [Hlt |]; [exfalso | lia].
    destruct (Z.eq_dec k 0) as [Hk0 | Hk0]; [rewrite Hk0 in Hlt; change (year_start 0) with 0 in Hlt; lia |].
    destruct (year_facts (k - 1) ltac:(lia)) as (G1 & G2 & G3 & G4 & G5).
    pose proof (year_len_next (k - 1) ltac:(lia)) as Hn.
    replace (k - 1 + 1) with k in Hn by ring.
    pose proof (year_of_era_mono doe (year_start (k - 1) + year_len (k - 1) - 1) ltac:(lia) ltac:(lia)).
    lia.
  - destruct (Z_lt_le_dec doe (year_start k + year_len k)) as [| Hge]; [lia | exfalso].
    destruct (Z.eq_dec k 399) as [Hk9 | Hk9].
    + rewrite Hk9 in Hge. change (year_start 399 + year_len 399) with 146097 in Hge. lia.
    + pose proof (year_len_next k ltac:(lia)) as Hn.
      destruct (year_facts (k + 1) ltac:(lia)) as (G1 & G2 & G3 & G4 & G5).
      pose proof (year_of_era_mono (year_start (k + 1)) doe ltac:(lia) ltac:(lia)).
      lia.
Qed.

Lemma doy_facts doy : 0 <= doy <= 365 ->
  1 <= month_num (month_of doy) <= 12 /\ 1 <= mday_of doy <= 31
  /\ doy_of (month_num (month_of doy)) (mday_of doy) = doy
  /\ (doy <> 365 -> md_step (month_num (month_of doy)) (mday_of doy)
                            (month_num (month_of (doy + 1))) (mday_of (doy + 1)) = true).
Proof.
  intros Hd. pose proof (doys_spec _ _ doys_checked doy ltac:(simpl; lia)) as H.
  unfold doy_check in H. cbv zeta in H.
  repeat rewrite andb_true_iff in H. destruct H as (((((H1 & H2) & H3) & H4) & H5) & H6).
  apply Z.leb_le in H1, H2, H3, H4. apply Z.eqb_eq in H5.
  repeat split; try lia.
  intros Hn. apply Z.eqb_neq in Hn. rewrite Hn in H6. exact H6.
Qed.

Lemma civ_of_parts era k doy : 0 <= k <= 399 -> 0 <= doy < year_len k ->
  civil_from_days (era * 146097 + year_start k + doy - 719468) = civil_of_parts era k doy.
Proof.
  intros Hk Hd. destruct (year_facts k Hk) as (H1 & H2 & H3 & H4 & H5).
  rewrite civil_from_days_eq. cbv zeta.
  replace (era * 146097 + year_start k + doy - 719468 + 719468)
    with ((year_start k + doy) + era * 146097) by ring.
  rewrite Z.div_add by lia. rewrite (Z.div_small (year_start k + doy)) by lia.
  replace (year_start k + doy + era * 146097 - (0 + era) * 146097) with (year_start k + doy) by ring.
  rewrite (year_of_era_in k (year_start k + doy) Hk ltac:(lia)).
  replace (year_start k + doy - year_start k) with doy by ring.
  reflexivity.
Qed.

Lemma parts_exist d : exists era k doy, 0 <= k <= 399 /\ 0 <= doy < year_len k
  /\ d = era * 146097 + year_start k + doy - 719468.
Proof.
  set (era := (d + 719468) / 146097). set (doe := d + 719468 - era * 146097).
  assert (Hdoe : 0 <= doe < 146097)
    by (unfold doe, era; pose proof (div_bounds (d + 719468) 146097 ltac:(lia)); lia).
  destruct (year_of_era_range doe Hdoe) as [Hk Hs].
  exists era, (year_of_era doe), (doe - year_start (year_of_era doe)).
  split; [exact Hk |]. split; [lia |]. unfold doe. ring.
Qed.

Lemma dfc_of_parts era k doy : 0 <= k <= 399 -> 0 <= doy < year_len k ->
  let '(y, m, dd) := civil_of_parts era k doy in
  days_from_civil y m dd = era * 146097 + year_start k + doy - 719468.
Proof.
  intros Hk Hd. destruct (year_facts k Hk) as (H1 & H2 & H3 & H4 & H5).
  destruct (doy_facts doy ltac:(lia)) as (F1 & F2 & F3 & _).
  unfold civil_of_parts, days_from_civil. cbv zeta.
  set (m := month_num (month_of doy)) in *. set (dd := mday_of doy) in *.
  assert (Hy : (if m <=? 2 then (if m <=? 2 then k + era * 400 + 1 else k + era * 400) - 1
                else (if m <=? 2 then k + era * 400 + 1 else k + era * 400)) = k + era * 400)
    by (destruct (m <=? 2); ring).
  rewrite Hy. rewrite Z.div_add by lia. rewrite (Z.div_small k) by lia.
  replace (k + era * 400 - (0 + era) * 400) with k by ring.
  change ((153 * (if m >? 2 then m - 3 else m + 9) + 2) / 5 + dd - 1) with (doy_of m dd).
  rewrite F3. unfold year_start. ring.
Qed.

Lemma day_facts d y m dd y2 m2 dd2 :
  civil_from_days d = (y, m, dd) -> civil_from_days (d + 1) = (y2, m2, dd2) ->
  1 <= m <= 12 /\ 1 <= dd <= 31 /\ days_from_civil y m dd = d /\ step_rel y m dd y2 m2 dd2.
Proof.
  intros E1 E2.
  destruct (parts_exist d) as (era & k & doy & Hk & Hd & ->).
  destruct (year_facts k Hk) as (K1 & K2 & K3 & K4 & K5).
  pose proof (dfc_of_parts era k doy Hk Hd) as Hdfc.
  rewrite civ_of_parts in E1 by assumption. rewrite E1 in Hdfc.
  destruct (doy_facts doy ltac:(lia)) as (F1 & F2 & _ & F4).
  unfold civil_of_parts in E1. cbv zeta in E1.
  apply pair_equal_spec in E1 as [E1 <-]. apply pair_equal_spec in E1 as [Ey <-].
  split; [lia |]. split; [lia |]. split; [exact Hdfc |].
  destruct (Z_lt_le_dec (doy + 1) (year_len k)) as [Hin | Hend].
  - (* the next day is in the same year of the era *)
    replace (era * 146097 + year_start k + doy - 719468 + 1)
      with (era * 146097 + year_start k + (doy + 1) - 719468) in E2 by ring.
    rewrite civ_of_parts in E2 by lia. unfold civil_of_parts in E2. cbv zeta in E2.
    apply pair_equal_spec in E2 as [E2 <-]. apply pair_equal_spec in E2 as [Ey2 <-].
    specialize (F4 ltac:(lia)). unfold md_step in F4.
    repeat rewrite orb_true_iff in F4. repeat rewrite andb_true_iff in F4.
    repeat rewrite Z.eqb_eq in F4. rewrite negb_true_iff, Z.eqb_neq in F4.
    subst y y2. unfold step_rel.
    destruct F4 as [[[Hm Hdd] | [[Hm Hdd] Hn2]] | [[Hm Hm2] Hdd]].
    + left. rewrite Hm. auto.
    + right; left. rewrite Hm. split; [| auto].
      destruct (month_num (month_of doy) <=? 2) eqn:B1;
        destruct (month_num (month_of doy) + 1 <=? 2) eqn:B2;
        rewrite ?Z.leb_le, ?Z.leb_gt in B1, B2; lia.
    + right; right. rewrite Hm2, Hm. cbn. auto.
  - (* the next day starts the next year of the era *)
    assert (Hlast : doy = year_len k - 1) by lia.
    assert (Hfeb : month_num (month_of doy) = 2).
    { destruct (Z.eq_dec (year_len k) 365) as [L | L];
        [rewrite Hlast, L; reflexivity | replace (year_len k) with 366 in Hlast by lia;
                                         rewrite Hlast; reflexivity]. }
    rewrite Hfeb in Ey. cbn in Ey. subst y.
    destruct (Z.eq_dec k 399) as [Hk9 | Hk9].
    + replace (era * 146097 + year_start k + doy - 719468 + 1)
        with ((era + 1) * 146097 + year_start 0 + 0 - 719468) in E2
        by (rewrite Hlast, Hk9; reflexivity || (change (year_start 0) with 0; change (year_start 399) with 145731; change (year_len 399) with 366; ring)).
      rewrite civ_of_parts in E2 by (try change (year_len 0) with 365; lia).
      unfold civil_of_parts in E2. cbv zeta in E2.
      change (month_num (month_of 0)) with 3 in E2. cbn in E2.
      apply pair_equal_spec in E2 as [E2 <-]. apply pair_equal_spec in E2 as [Ey2 <-].
      right; left. rewrite Hfeb, Hk9. subst y2. repeat split; ring.
    + pose proof (year_len_next k ltac:(lia)) as Hn.
      destruct (year_facts (k + 1) ltac:(lia)) as (G1 & G2 & G3 & G4 & G5).
      replace (era * 146097 + year_start k + doy - 719468 + 1)
        with (era * 146097 + year_start (k + 1) + 0 - 719468) in E2 by lia.
      rewrite civ_of_parts in E2 by lia.
      unfold civil_of_parts in E2. cbv zeta in E2.
      change (month_num (month_of 0)) with 3 in E2. cbn in E2.
      apply pair_equal_spec in E2 as [E2 <-]. apply pair_equal_spec in E2 as [Ey2 <-].
      right; left. rewrite Hfeb. subst y2. repeat split; ring.
Qed.

Lemma years_checked : years_ok (Z.to_nat 9000) 1000 = true.
Proof. vm_compute. reflexivity. Qed.
Lemma pads_checked : pads_ok 31 1 31 = true.
Proof. vm_compute. reflexivity. Qed.

Lemma years_ok_spec n y0 : years_ok n y0 = true -> forall y, y0 <= y < y0 + Z.of_nat n ->
  four_digits (string_of_Z y) y = true
  /\ (y <> 9999 -> str_lt (string_of_Z y) (string_of_Z (y + 1)) = true).
Proof.
  revert y0. induction n as [| n IH]; intros y0 H y Hy; [lia |].
  simpl in H. apply andb_true_iff in H as [H H2]. apply andb_true_iff in H as [H0 H1].
  destruct (Z.eq_dec y y0) as [-> | Hne].
  - split; [exact H0 |]. intros Hn. apply Z.eqb_neq in Hn. rewrite Hn in H1. exact H1.
  - apply (IH (y0 + 1)); [exact H2 | lia].
Qed.

Lemma pads_ok_spec n v0 top : pads_ok n v0 top = true -> forall v, v0 <= v < v0 + Z.of_nat n ->
  two_digits (pad 2 v) v = true
  /\ (v <> top -> str_lt (pad 2 v) (pad 2 (v + 1)) = true).
Proof.
  revert v0. induction n as [| n IH]; intros v0 H v Hv; [lia |].
  simpl in H. apply andb_true_iff in H as [H H2]. apply andb_true_iff in H as [H0 H1].
  destruct (Z.eq_dec v v0) as [-> | Hne].
  - split; [exact H0 |]. intros Hn. apply Z.eqb_neq in Hn. rewrite Hn in H1. exact H1.
  - apply (IH (v0 + 1)); [exact H2 | lia].
Qed.

Lemma list_ascii_app s t :
  list_ascii_of_string (s ++ t) = (list_ascii_of_string s ++ list_ascii_of_string t)%list.
Proof. induction s as [| c s IH]; simpl; [reflexivity | now rewrite IH]. Qed.

Lemma ascii_compare_refl c : Ascii.compare c c = Eq.
Proof. unfold Ascii.compare. apply N.compare_refl. Qed.

Lemma compare_app_same p s t : String.compare (p ++ s) (p ++ t) = String.compare s t.
Proof. induction p as [| c p IH]; simpl; [reflexivity | now rewrite ascii_compare_refl]. Qed.

Lemma compare_app_len p q s t :
  String.length p = String.length q -> String.compare p q = Lt ->
  String.compare (p ++ s) (q ++ t) = Lt.
Proof.
  revert q. induction p as [| c p IH]; intros [| c' q] Hl H; simpl in *; try discriminate.
  destruct (Ascii.compare c c'); auto.
Qed.

Lemma compare_trans a b c :
  String.compare a b = Lt -> String.compare b c = Lt -> String.compare a c = Lt.
Proof.
  revert b c. induction a as [| x a IH]; intros [| y b] [| z c] H1 H2; simpl in *; try discriminate; auto.
  unfold Ascii.compare in *.
  destruct (N.compare_spec (N_of_ascii x) (N_of_ascii y)) as [Hxy | Hxy | Hxy];
  destruct (N.compare_spec (N_of_ascii y) (N_of_ascii z)) as [Hyz | Hyz | Hyz];
  try discriminate.
  - rewrite Hxy, Hyz, N.compare_refl. eauto.
  - rewrite Hxy. apply N.compare_lt_iff in Hyz. rewrite (proj2 (N.compare_lt_iff _ _) Hyz). reflexivity.
  - rewrite <- Hyz. rewrite (proj2 (N.compare_lt_iff _ _) Hxy). reflexivity.
  - assert (N_of_ascii x < N_of_ascii z)%N by lia.
    rewrite (proj2 (N.compare_lt_iff _ _) H). reflexivity.
Qed.

Lemma year_ok y : 1000 <= y <= 9999 ->
  four_digits (string_of_Z y) y = true
  /\ (y <> 9999 -> str_lt (string_of_Z y) (string_of_Z (y + 1)) = true).
Proof.
  intros Hy. apply (years_ok_spec (Z.to_nat 9000) 1000 years_checked).
  rewrite Z2Nat.id by lia. lia.
Qed.

Lemma pad_ok v : 1 <= v <= 31 ->
  two_digits (pad 2 v) v = true /\ (v <> 31 -> str_lt (pad 2 v) (pad 2 (v + 1)) = true).
Proof.
  intros Hv. apply (pads_ok_spec 31 1 31 pads_checked).
  change (Z.of_nat 31) with 31. lia.
Qed.

Lemma length_list_ascii s : String.length s = List.length (list_ascii_of_string s).
Proof. induction s; simpl; auto. Qed.

Lemma civ_steps d y m dd y2 m2 dd2 :
  civil_from_days d = (y, m, dd) -> civil_from_days (d + 1) = (y2, m2, dd2) -> y <= y2.
Proof.
  intros H1 H2. destruct (day_facts d y m dd y2 m2 dd2 H1 H2) as (_ & _ & _ & Hs).
  unfold step_rel in Hs. lia.
Qed.

Lemma year_lower n : forall y m dd,
  civil_from_days (first_day + Z.of_nat n) = (y, m, dd) -> 1000 <= y.
Proof.
  induction n as [| n IH]; intros y m dd H.
  - rewrite Z.add_0_r in H. vm_compute in H. injection H as <- _ _. lia.
  - rewrite Nat2Z.inj_succ, <- Z.add_1_r, Z.add_assoc in H.
    destruct (civil_from_days (first_day + Z.of_nat n)) as [[y0 m0] dd0] eqn:E.
    pose proof (IH _ _ _ eq_refl). pose proof (civ_steps _ _ _ _ _ _ _ E H). lia.
Qed.

Lemma year_upper n : forall y m dd,
  civil_from_days (end_day - 1 - Z.of_nat n) = (y, m, dd) -> y <= 9999.
Proof.
  induction n as [| n IH]; intros y m dd H.
  - rewrite Z.sub_0_r in H. vm_compute in H. injection H as <- _ _. lia.
  - rewrite Nat2Z.inj_succ in H.
    destruct (civil_from_days (end_day - 1 - Z.of_nat n)) as [[y0 m0] dd0] eqn:E.
    replace (end_day - 1 - Z.of_nat n) with ((end_day - 1 - Z.succ (Z.of_nat n)) + 1) in E by lia.
    pose proof (IH _ _ _ eq_refl). pose proof (civ_steps _ _ _ _ _ _ _ H E). lia.
Qed.

Lemma year_range d y m dd :
  first_day <= d < end_day -> civil_from_days d = (y, m, dd) -> 1000 <= y <= 9999.
Proof.
  intros Hd H. split.
  - apply (year_lower (Z.to_nat (d - first_day)) y m dd). rewrite Z2Nat.id by lia.
    replace (first_day + (d - first_day)) with d by ring. exact H.
  - apply (year_upper (Z.to_nat (end_day - 1 - d)) y m dd). rewrite Z2Nat.id by lia.
    replace (end_day - 1 - (end_day - 1 - d)) with d by ring. exact H.
Qed.

(** All the facts about one day's key. *)
Lemma day_key_facts d y m dd :
  first_day <= d < end_day -> civil_from_days d = (y, m, dd) ->
  1000 <= y <= 9999 /\ 1 <= m <= 12 /\ 1 <= dd <= 31 /\ days_from_civil y m dd = d.
Proof.
  intros Hd H.
  destruct (civil_from_days (d + 1)) as [[y2 m2] dd2] eqn:E2.
  destruct (day_facts d y m dd y2 m2 dd2 H E2) as (Hm & Hdd & Hdfc & _).
  pose proof (year_range d y m dd Hd H). auto.
Qed.

Lemma strptime_date_key d :
  first_day <= d < end_day -> Contribution.strptime_date (date_key d) = inr d.
Proof.
  intros Hd. unfold date_key.
  destruct (civil_from_days d) as [[y m] dd] eqn:E.
  destruct (day_key_facts d y m dd Hd E) as (Hy & Hm & Hdd & Hdfc).
  pose proof (proj1 (year_ok y ltac:(lia))) as Y.
  pose proof (proj1 (pad_ok m ltac:(lia))) as Mo.
  pose proof (proj1 (pad_ok dd ltac:(lia))) as Da.
  unfold four_digits in Y. unfold two_digits in Mo, Da.
  destruct (list_ascii_of_string (string_of_Z y)) as [| c1 [| c2 [| c3 [| c4 [|]]]]] eqn:Ly;
    try discriminate.
  destruct (list_ascii_of_string (pad 2 m)) as [| m1 [| m2 [|]]] eqn:Lm; try discriminate.
  destruct (list_ascii_of_string (pad 2 dd)) as [| e1 [| e2 [|]]] eqn:Ld; try discriminate.
  destruct (digits_val [c1; c2; c3; c4] 0) as [vy |] eqn:Dy; try discriminate.
  destruct (digits_val [m1; m2] 0) as [vm |] eqn:Dm; try discriminate.
  destruct (digits_val [e1; e2] 0) as [vd |] eqn:Dd; try discriminate.
  apply Z.eqb_eq in Y, Mo, Da. subst vy vm vd.
  unfold Contribution.strptime_date. rewrite !list_ascii_app, Ly, Lm, Ld.
  cbn [list_ascii_of_string app]. rewrite Dy, Dm, Dd. cbv zeta.
  rewrite Hdfc, E, !Z.eqb_refl.
  replace (1 <=? y) with true by (symmetry; apply Z.leb_le; lia).
  replace (1 <=? m) with true by (symmetry; apply Z.leb_le; lia).
  replace (m <=? 12) with true by (symmetry; apply Z.leb_le; lia).
  replace (1 <=? dd) with true by (symmetry; apply Z.leb_le; lia).
  reflexivity.
Qed.

Lemma str_lt_compare a b : str_lt a b = true -> String.compare a b = Lt.
Proof. unfold str_lt. destruct (String.compare a b); congruence. Qed.

Lemma two_digits_length s v : two_digits s v = true -> String.length s = 2%nat.
Proof.
  unfold two_digits. rewrite length_list_ascii.
  destruct (list_ascii_of_string s) as [| a [| b [|]]]; simpl; congruence.
Qed.

Lemma four_digits_length s v : four_digits s v = true -> String.length s = 4%nat.
Proof.
  unfold four_digits. rewrite length_list_ascii.
  destruct (list_ascii_of_string s) as [| a [| b [| c [| e [|]]]]]; simpl; congruence.
Qed.

Lemma date_key_lt d :
  first_day <= d -> d + 1 < end_day -> String.compare (date_key d) (date_key (d + 1)) = Lt.
Proof.
  intros H1 H2. unfold date_key.
  destruct (civil_from_days d) as [[y m] dd] eqn:E.
  destruct (civil_from_days (d + 1)) as [[y2 m2] dd2] eqn:E2.
  destruct (day_facts d y m dd y2 m2 dd2 E E2) as (_ & _ & _ & Hs).
  destruct (day_key_facts d y m dd ltac:(lia) E) as (Hy & Hm & Hdd & _).
  destruct (day_key_facts (d + 1) y2 m2 dd2 ltac:(lia) E2) as (Hy2 & Hm2 & Hdd2 & _).
  destruct Hs as [(-> & -> & ->) | [(-> & -> & ->) | (-> & -> & -> & ->)]].
  - rewrite !compare_app_same. apply str_lt_compare.
    apply (proj2 (pad_ok dd ltac:(lia))). lia.
  - rewrite !compare_app_same. apply compare_app_len.
    + rewrite (two_digits_length _ m (proj1 (pad_ok m ltac:(lia)))).
      rewrite (two_digits_length _ (m + 1) (proj1 (pad_ok (m + 1) ltac:(lia)))).
      reflexivity.
    + apply str_lt_compare. apply (proj2 (pad_ok m ltac:(lia))). lia.
  - apply compare_app_len.
    + rewrite (four_digits_length _ y (proj1 (year_ok y ltac:(lia)))).
      rewrite (four_digits_length _ (y + 1) (proj1 (year_ok (y + 1) ltac:(lia)))).
      reflexivity.
    + apply str_lt_compare. apply (proj2 (year_ok y ltac:(lia))). lia.
Qed.

Lemma insert_asc_perm x l : Permutation (insert_asc x l) (x :: l).
Proof.
  induction l as [| y l IH]; simpl; [auto |].
  destruct (String.ltb x y); [auto |].
  rewrite IH. apply perm_swap.
Qed.

Lemma le_of_lt a b : String.compare a b = Lt -> str_le a b.
Proof. unfold str_le. congruence. Qed.

Lemma le_lt_trans a b c : str_le a b -> String.compare b c = Lt -> String.compare a c = Lt.
Proof.
  unfold str_le. intros H1 H2. destruct (String.compare a b) eqn:E; try congruence.
  - apply String.compare_eq_iff in E. subst. exact H2.
  - eapply compare_trans; eauto.
Qed.

Lemma le_trans a b c : str_le a b -> str_le b c -> str_le a c.
Proof.
  unfold str_le. intros H1 H2. destruct (String.compare b c) eqn:E; try congruence.
  - apply String.compare_eq_iff in E. subst. exact H1.
  - apply le_of_lt. eapply le_lt_trans; eauto.
Qed.

Lemma not_lt_le x y : String.ltb x y = false -> str_le y x.
Proof.
  unfold String.ltb, str_le. rewrite String.compare_antisym.
  destruct (String.compare y x); simpl; congruence.
Qed.

Lemma insert_asc_sorted x l : StronglySorted str_le l -> StronglySorted str_le (insert_asc x l).
Proof.
  induction l as [| y l IH]; intros H; simpl.
  - repeat constructor.
  - inversion H as [| ? ? Hl Hf]; subst.
    destruct (String.ltb x y) eqn:E.
    + assert (Hxy : String.compare x y = Lt)
        by (unfold String.ltb in E; destruct (String.compare x y); congruence).
      constructor; [exact H |]. constructor; [apply le_of_lt; exact Hxy |].
      eapply Forall_impl; [| exact Hf]. intros z Hz.
      apply (le_trans x y z); [apply le_of_lt; exact Hxy | exact Hz].
    + constructor; [apply IH; exact Hl |].
      apply (Permutation_Forall (Permutation_sym (insert_asc_perm x l))).
      constructor; [apply not_lt_le; exact E | exact Hf].
Qed.

Lemma sort_fold_perm xs acc :
  Permutation (fold_left (fun acc x => insert_asc x acc) xs acc) (xs ++ acc).
Proof.
  revert acc. induction xs as [| x xs IH]; intros acc; simpl; [auto |].
  rewrite IH, insert_asc_perm. symmetry. apply Permutation_middle.
Qed.

Lemma sort_fold_sorted xs acc : StronglySorted str_le acc ->
  StronglySorted str_le (fold_left (fun acc x => insert_asc x acc) xs acc).
Proof.
  revert acc. induction xs as [| x xs IH]; intros acc H; simpl; [auto |].
  apply IH. apply insert_asc_sorted. exact H.
Qed.

Lemma sorted_unique l1 l2 :
  StronglySorted str_le l1 -> StronglySorted str_lt_prop l2 -> Permutation l1 l2 -> l1 = l2.
Proof.
  revert l2. induction l1 as [| a l1 IH]; intros l2 H1 H2 P.
  - symmetry. apply Permutation_nil. exact P.
  - destruct l2 as [| b l2]; [apply Permutation_sym, Permutation_nil in P; discriminate |].
    inversion H1 as [| ? ? S1 F1]; subst. inversion H2 as [| ? ? S2 F2]; subst.
    assert (Hab : a = b).
    { assert (Ha : In a (b :: l2)) by (apply (Permutation_in a P); left; reflexivity).
      assert (Hb : In b (a :: l1)) by (apply (Permutation_in b (Permutation_sym P)); left; reflexivity).
      destruct Ha as [-> | Ha]; [reflexivity |].
      destruct Hb as [-> | Hb]; [reflexivity |].
      exfalso.
      pose proof (proj1 (Forall_forall _ _) F1 b Hb) as Le.
      pose proof (proj1 (Forall_forall _ _) F2 a Ha) as Lt.
      unfold str_le, str_lt_prop in *. rewrite String.compare_antisym, Lt in Le. apply Le. reflexivity. }
    subst b. f_equal. apply IH; auto. eapply Permutation_cons_inv. exact P.
Qed.

Lemma sort_strings_sorted keys l :
  Permutation keys l -> StronglySorted str_lt_prop l -> sort_strings keys = l.
Proof.
  intros P S. apply sorted_unique; [| exact S |].
  - apply sort_fold_sorted. constructor.
  - unfold sort_strings. rewrite sort_fold_perm, app_nil_r. exact P.
Qed.

Lemma in_day_range d n x : d <= x < d + Z.of_nat n -> In x (day_range d n).
Proof.
  revert d. induction n as [| n IH]; intros d Hx; [lia |].
  simpl. destruct (Z.eq_dec d x) as [-> | Hne]; [left; reflexivity | right].
  apply IH. lia.
Qed.

Lemma last_day_range d k x : last (map date_key (day_range d (S k))) x = date_key (d + Z.of_nat k).
Proof.
  revert d. induction k as [| k IH]; intros d; [simpl; rewrite Z.add_0_r; reflexivity |].
  specialize (IH (d + 1)). cbn [day_range map last] in *. rewrite IH.
  f_equal. lia.
Qed.

Lemma date_keys_sorted d n : first_day <= d -> d + Z.of_nat n <= end_day ->
  StronglySorted str_lt_prop (map date_key (day_range d n)).
Proof.
  intros H1 H2. apply Sorted_StronglySorted.
  - intros a b c. unfold str_lt_prop. apply compare_trans.
  - revert d H1 H2. induction n as [| n IH]; intros d H1 H2; simpl; [constructor |].
    constructor; [apply IH; lia |].
    destruct n as [| n]; simpl; constructor.
    unfold str_lt_prop. apply date_key_lt; lia.
Qed.

Lemma streak_run d k t : first_day <= d -> d + Z.of_nat k < end_day ->
  Contribution.streak_loop (date_key d) (map date_key (day_range (d + 1) k)) t t
  = inr (t + Z.of_nat k, t + Z.of_nat k).
Proof.
  revert d t. induction k as [| k IH]; intros d t H1 H2.
  - simpl. rewrite Z.add_0_r. reflexivity.
  - cbn [day_range map Contribution.streak_loop].
    rewrite (strptime_date_key d) by lia. rewrite (strptime_date_key (d + 1)) by lia.
    cbn [bind]. replace (d + 1 - d =? 1) with true by (symmetry; apply Z.eqb_eq; ring).
    rewrite Z.max_r by lia. rewrite IH by lia. f_equal. f_equal; lia.
Qed.

(** C7: for every set of day keys that are the [%Y-%m-%d] keys of [n > 0]
    consecutive calendar days (four-digit years), in any order, the
    streak calculation returns [longest_streak = n]; [current_streak] is
    [n] or [0], and it is [n] when today's key is the key of the last day. *)
Theorem consecutive_days_streak (env : Env) (d0 : Z) (n : nat) (keys : list string) :
  days_from_civil 1000 1 1 <= d0 -> d0 + Z.of_nat n <= days_from_civil 10000 1 1 ->
  (0 < n)%nat ->
  Permutation keys (map date_key (day_range d0 n)) ->
  exists current,
    Contribution._calculate_activity_streak env keys
    = inr (PDict [("current_streak", PInt current); ("longest_streak", PInt (Z.of_nat n))])
    /\ (current = 0 \/ current = Z.of_nat n)
    /\ (date_key (now_local env / 86400) = date_key (d0 + Z.of_nat n - 1) -> current = Z.of_nat n).
Proof.
  intros H1 H2 Hn P. destruct n as [| k]; [lia |].
  replace (Z.of_nat (S k)) with (1 + Z.of_nat k) in * by lia.
  pose proof (sort_strings_sorted keys _ P
    (date_keys_sorted d0 (S k) ltac:(unfold first_day; lia) ltac:(unfold end_day; lia))) as Hs.
  assert (Hlast : In (date_key (d0 + Z.of_nat k)) keys).
  { apply (Permutation_in _ (Permutation_sym P)). apply in_map. apply in_day_range. lia. }
  unfold Contribution._calculate_activity_streak. rewrite Hs.
  cbn [day_range map].
  change (Z.max 0 1) with 1.
  rewrite streak_run by (unfold first_day, end_day in *; lia).
  cbn [bind].
  change (date_key d0 :: map date_key (day_range (d0 + 1) k)) with (map date_key (day_range d0 (S k))).
  rewrite last_day_range.
  destruct (existsb (String.eqb (date_key (now_local env / 86400))) keys) eqn:Ex.
  - cbn [bind ret]. exists (1 + Z.of_nat k). split; [reflexivity |].
    split; [lia | intros _; lia].
  - rewrite strptime_date_key by (unfold first_day, end_day in *; lia). cbn [bind ret].
    eexists. split; [reflexivity |]. split.
    + destruct (_ <=? 1); [right; lia | left; reflexivity].
    + intros Ht. exfalso.
      replace (d0 + (1 + Z.of_nat k) - 1) with (d0 + Z.of_nat k) in Ht by lia.
      assert (existsb (String.eqb (date_key (now_local env / 86400))) keys = true).
      { apply existsb_exists. exists (date_key (d0 + Z.of_nat k)). split; [exact Hlast |].
        rewrite Ht. apply String.eqb_refl. }
      congruence.
Qed.

Lemma consecutive_days_streak_witness :
  exists current,
    Contribution._calculate_activity_streak env1 ["2024-02-29"; "2024-02-27"; "2024-02-28"]
    = inr (PDict [("current_streak", PInt current); ("longest_streak", PInt (Z.of_nat 3))])
    /\ (current = 0 \/ current = Z.of_nat 3)
    /\ (date_key (now_local env1 / 86400) = date_key (days_from_civil 2024 2 27 + Z.of_nat 3 - 1)
        -> current = Z.of_nat 3).
Proof.
  apply (consecutive_days_streak env1 (days_from_civil 2024 2 27) 3
           ["2024-02-29"; "2024-02-27"; "2024-02-28"]).
  - vm_compute. congruence.
  - vm_compute. congruence.
  - lia.
  - vm_compute. exact (Permutation_cons_append ["2024-02-27"; "2024-02-28"] "2024-02-29").
Defined.

End StreakFacts.

(** ** Counters *)

Module CounterFacts.

Lemma py_eqb_str_l K v : py_eqb (PStr K) v = true <-> v = PStr K.
Proof.
  destruct v; cbn; split; intro H; try discriminate.
  - apply String.eqb_eq in H. subst. reflexivity.
  - injection H as ->. apply String.eqb_refl.
Qed.

Lemma py_eqb_str_r K v : py_eqb v (PStr K) = true <-> v = PStr K.
Proof.
  destruct v; cbn; split; intro H; try discriminate.
  - apply String.eqb_eq in H. subst. reflexivity.
  - injection H as ->. apply String.eqb_refl.
Qed.

Lemma first_count_into K x d :
  first_count K (Contribution.count_into x d)
  = if py_eqb (PStr K) x
    then Some (match first_count K d with Some n => n + 1 | None => 1 end)
    else first_count K d.
Proof.
  assert (HK : py_eqb (PStr K) (PStr K) = true) by (apply py_eqb_str_l; reflexivity).
  induction d as [| [k' n] d' IH]; cbn [Contribution.count_into first_count].
  - destruct (py_eqb (PStr K) x); reflexivity.
  - destruct (py_eqb x k') eqn:Exk; cbn [first_count].
    + destruct (py_eqb (PStr K) x) eqn:EKx.
      * apply py_eqb_str_l in EKx; subst x.
        apply py_eqb_str_l in Exk; subst k'. rewrite HK. reflexivity.
      * destruct (py_eqb (PStr K) k') eqn:EKk; [| reflexivity].
        exfalso. apply py_eqb_str_l in EKk; subst k'.
        apply py_eqb_str_r in Exk; subst x. congruence.
    + destruct (py_eqb (PStr K) k') eqn:EKk.
      * apply py_eqb_str_l in EKk; subst k'.
        destruct (py_eqb (PStr K) x) eqn:EKx; [| reflexivity].
        exfalso. apply py_eqb_str_l in EKx; subst x. congruence.
      * rewrite IH. destruct (py_eqb (PStr K) x); reflexivity.
Qed.

Lemma occ_cons K x xs :
  occ K (x :: xs) = (if py_eqb (PStr K) x then 1 else 0) + occ K xs.
Proof.
  unfold occ. cbn [filter]. destruct (py_eqb (PStr K) x); cbn [List.length]; lia.
Qed.

Lemma occ_nonneg K xs : 0 <= occ K xs.
Proof. unfold occ. lia. Qed.

Lemma first_count_counter K xs d :
  first_count K (fold_left (fun d k => Contribution.count_into k d) xs d)
  = match first_count K d with
    | Some n => Some (n + occ K xs)
    | None => if occ K xs =? 0 then None else Some (occ K xs)
    end.
Proof.
  revert d. induction xs as [| x xs IH]; intro d; cbn [fold_left].
  - destruct (first_count K d); [f_equal; unfold occ; cbn; lia | reflexivity].
  - rewrite IH, first_count_into, occ_cons. pose proof (occ_nonneg K xs).
    destruct (py_eqb (PStr K) x); destruct (first_count K d).
    all: try (rewrite (proj2 (Z.eqb_neq (1 + occ K xs) 0)) by lia);
      try replace (0 + occ K xs) with (occ K xs) by lia; try reflexivity; f_equal; lia.
Qed.

Lemma digits_of_head f n c r :
  exists c' r', digits_of f n (String c r) = String c' r'
                /\ (c' = c \/ (48 <= nat_of_ascii c' <= 57)%nat).
Proof.
  revert n c r. induction f as [| f IH]; intros n c r; cbn.
  - eauto.
  - set (d := ascii_of_nat (48 + Z.to_nat (n mod 10))).
    assert (Hd : (48 <= nat_of_ascii d <= 57)%nat).
    { unfold d. pose proof (Z.mod_pos_bound n 10 ltac:(lia)).
      rewrite nat_ascii_embedding by lia. lia. }
    destruct (n <? 10).
    + exists d, (String c r). split; [reflexivity | right; exact Hd].
    + destruct (IH (n / 10) d (String c r)) as (c' & r' & E & H).
      exists c', r'. split; [exact E |]. destruct H as [-> | H]; auto.
Qed.

Lemma string_of_Z_head z :
  exists c r, string_of_Z z = String c r
              /\ (nat_of_ascii c = 45%nat \/ (48 <= nat_of_ascii c <= 57)%nat).
Proof.
  unfold string_of_Z.
  destruct (z <? 0).
  - cbn. eauto.
  - cbn [digits_of].
    set (d := ascii_of_nat (48 + Z.to_nat (z mod 10))).
    assert (Hd : (48 <= nat_of_ascii d <= 57)%nat).
    { unfold d. pose proof (Z.mod_pos_bound z 10 ltac:(lia)).
      rewrite nat_ascii_embedding by lia. lia. }
    destruct (z <? 10).
    + exists d, EmptyString. auto.
    + destruct (digits_of_head (Z.to_nat (Z.log2 (Z.abs z))) (z / 10) d EmptyString)
        as (c' & r' & E & H).
      exists c', r'. split; [exact E |]. destruct H as [-> | H]; auto.
Qed.

(** A key that renders as a word starting with a capital letter was that
    string. *)
Lemma key_str_capital k c r :
  (65 <= nat_of_ascii c <= 90)%nat ->
  Contribution.key_str k = String c r -> k = PStr (String c r).
Proof.
  intros Hc H. destruct k; cbn in H; try (subst; reflexivity).
  - injection H as <- _. cbn in Hc. lia.
  - destruct b; injection H as <- _; cbn in Hc; lia.
  - destruct (string_of_Z_head z) as (c' & r' & E & Hh). rewrite E in H.
    injection H as <- _. lia.
  - injection H as <- _. cbn in Hc. lia.
  - injection H as <- _. cbn in Hc. lia.
  - injection H as <- _. cbn in Hc. lia.
Qed.

Lemma lookup_render K d :
  (forall k, Contribution.key_str k = K -> k = PStr K) ->
  lookup K (map (fun '(k, n) => (Contribution.key_str k, PInt n)) d)
  = option_map PInt (first_count K d).
Proof.
  intro HK. induction d as [| [k n] d IH]; cbn [map lookup first_count]; [reflexivity |].
  destruct (String.eqb K (Contribution.key_str k)) eqn:E.
  - apply String.eqb_eq in E. symmetry in E. apply HK in E. subst k.
    rewrite (proj2 (py_eqb_str_l K (PStr K)) eq_refl). reflexivity.
  - destruct (py_eqb (PStr K) k) eqn:E2; [| exact IH].
    apply py_eqb_str_l in E2. subst k. cbn in E. rewrite String.eqb_refl in E. discriminate.
Qed.

End CounterFacts.

(** ** PR reviews and their status *)

Module ReviewFacts.

Import CounterFacts.

Lemma mapM_length {A B} (f : A -> M B) xs ys : mapM f xs = inr ys -> List.length ys = List.length xs.
Proof.
  revert ys. induction xs as [| x xs IH]; intros ys H; cbn in H.
  - injection H as <-. reflexivity.
  - inv_bind H. inv_bind H. injection H as <-. cbn. f_equal. auto.
Qed.

Lemma count_key_inr k d d' : PRAnalysis.count_key k d = inr d' -> d' = Contribution.count_into k d.
Proof. destruct k; cbn; intro H; try discriminate; injection H as <-; reflexivity. Qed.

Lemma review_step_states a b c r res :
  PRAnalysis.review_step (a, b, c) r = inr res ->
  exists s, get r "state" (PStr "") = inr s /\ fst (fst res) = Contribution.count_into s a.
Proof.
  unfold PRAnalysis.review_step. cbv beta iota. intro H.
  repeat inv_bind H. injection H as <-.
  match goal with Hc : PRAnalysis.count_key _ a = inr _ |- _ => apply count_key_inr in Hc end.
  subst. eauto.
Qed.

Lemma fold_review_states rs a b c res :
  PRAnalysis.foldM PRAnalysis.review_step (a, b, c) rs = inr res ->
  exists sts, mapM (fun r => get r "state" (PStr "")) rs = inr sts
              /\ fst (fst res) = fold_left (fun d k => Contribution.count_into k d) sts a.
Proof.
  revert a b c. induction rs as [| r rs IH]; intros a b c H; cbn in H.
  - injection H as <-. exists []. auto.
  - inv_bind H. destruct p as [[a' b'] c'].
    destruct (review_step_states _ _ _ _ _ E) as (s & Es & Ea).
    destruct (IH _ _ _ H) as (sts & Em & Ef).
    exists (s :: sts). cbn. rewrite Es, Em. split; [reflexivity |].
    rewrite Ef. cbn in Ea. subst a'. reflexivity.
Qed.

Lemma get_counter K sts :
  (forall k, Contribution.key_str k = K -> k = PStr K) ->
  get (Contribution.render_counts (fold_left (fun d k => Contribution.count_into k d) sts []))
      K (PInt 0) = inr (PInt (occ K sts)).
Proof.
  intro HK. unfold Contribution.render_counts, get.
  rewrite (lookup_render K _ HK), first_count_counter. cbn [first_count].
  destruct (occ K sts =? 0) eqn:E; cbn.
  - apply Z.eqb_eq in E. rewrite E. reflexivity.
  - reflexivity.
Qed.

Lemma existsb_occ K sts : existsb (py_eqb (PStr K)) sts = (0 <? occ K sts).
Proof.
  induction sts as [| x xs IH]; [reflexivity |].
  rewrite occ_cons. cbn [existsb]. pose proof (occ_nonneg K xs).
  destruct (py_eqb (PStr K) x); cbn [orb].
  - symmetry. apply Z.ltb_lt. lia.
  - rewrite IH. reflexivity.
Qed.

End ReviewFacts.

Module ReviewStatusFacts.

Import CounterFacts ReviewFacts.

Lemma key_APPROVED k : Contribution.key_str k = "APPROVED" -> k = PStr "APPROVED".
Proof. apply (key_str_capital k "A"%char "PPROVED"). cbn. lia. Qed.

Lemma key_CHANGES_REQUESTED k :
  Contribution.key_str k = "CHANGES_REQUESTED" -> k = PStr "CHANGES_REQUESTED".
Proof. apply (key_str_capital k "C"%char "HANGES_REQUESTED"). cbn. lia. Qed.

Lemma key_COMMENTED k : Contribution.key_str k = "COMMENTED" -> k = PStr "COMMENTED".
Proof. apply (key_str_capital k "C"%char "OMMENTED"). cbn. lia. Qed.

(** The review status of a PR follows the states of its reviews: a
    requested change wins over an approval, then any review gives
    [Under review], and no review [Awaiting review]. *)
Theorem review_status_verdict (rs : list pyval) (ra : pyval) :
  PRAnalysis._analyze_reviews (PList rs) = inr ra ->
  exists sts, mapM (fun r => get r "state" (PStr "")) rs = inr sts /\
    exists rest, PRAnalysis._assess_review_status ra
                 = inr (PDict (("status", PStr (review_verdict sts)) :: rest)).
Proof.
  intro H. destruct rs as [| r0 rs'].
  - cbn in H. injection H as <-. exists []. split; [reflexivity |]. eexists. reflexivity.
  - unfold PRAnalysis._analyze_reviews in H. cbn [truthy negb py_iter bind ret] in H.
    inv_bind H. destruct p as [[a b] c]. cbn [py_len bind ret] in H. injection H as <-.
    destruct (fold_review_states _ _ _ _ _ E) as (sts & Em & Ea). cbn in Ea. subst a.
    exists sts. split; [exact Em |].
    pose proof (mapM_length _ _ _ Em) as Hlen.
    unfold PRAnalysis._assess_review_status.
    cbn -[Contribution.render_counts fold_left PRAnalysis.py_gt py_eqb Contribution.count_into].
    rewrite (get_counter _ _ key_APPROVED), (get_counter _ _ key_CHANGES_REQUESTED),
      (get_counter _ _ key_COMMENTED).
    cbn -[Contribution.render_counts fold_left py_eqb Contribution.count_into occ].
    unfold review_verdict. rewrite !existsb_occ.
    pose proof (occ_nonneg "APPROVED" sts). pose proof (occ_nonneg "CHANGES_REQUESTED" sts).
    destruct (0 <? occ "APPROVED" sts) eqn:EA; destruct (0 <? occ "CHANGES_REQUESTED" sts) eqn:EC;
      cbn -[occ].
    + replace (occ "CHANGES_REQUESTED" sts =? 0) with false by (symmetry; apply Z.eqb_neq; lia).
      cbn -[occ]. eexists. reflexivity.
    + replace (occ "CHANGES_REQUESTED" sts =? 0) with true by (symmetry; apply Z.eqb_eq; lia).
      cbn -[occ]. eexists. reflexivity.
    + cbn. eexists. reflexivity.
    + cbn. destruct sts as [| s0 sts']; [cbn in Hlen; discriminate |].
      eexists. reflexivity.
Qed.

End ReviewStatusFacts.

(** ** Changed files of a PR *)

Module FileChangeFacts.

Import CounterFacts ReviewFacts.

Lemma sum_counts_into x d : sum_counts (Contribution.count_into x d) = sum_counts d + 1.
Proof.
  induction d as [| [k n] d IH]; cbn [Contribution.count_into sum_counts]; [lia |].
  destruct (py_eqb x k); cbn [sum_counts]; lia.
Qed.

Lemma sum_ints_render d :
  sum_ints (map (fun '(k, n) => (Contribution.key_str k, PInt n)) d) = sum_counts d.
Proof. induction d as [| [k n] d IH]; cbn; lia. Qed.

Lemma ext_get_nonempty e : PRAnalysis.ext_get e <> "".
Proof.
  unfold PRAnalysis.ext_get.
  destruct (find _ _) as [[k l] |] eqn:Hf; [| discriminate].
  apply find_some in Hf. destruct Hf as [Hin _].
  cbv [PRAnalysis.ext_map] in Hin.
  repeat (destruct Hin as [Hin | Hin]; [injection Hin as _ <-; discriminate |]).
  contradiction.
Qed.

Lemma detect_language_truthy f l : PRAnalysis._detect_language f = inr l -> truthy l = true.
Proof.
  unfold PRAnalysis._detect_language. intro H. inv_bind H.
  destruct b.
  - destruct f; try discriminate. injection H as <-. cbn.
    destruct (String.eqb _ "") eqn:Ee; [| reflexivity].
    apply String.eqb_eq in Ee. exfalso. exact (ext_get_nonempty _ Ee).
  - injection H as <-. reflexivity.
Qed.

Lemma step_languages st f st' :
  PRAnalysis.file_step st f = inr st' ->
  sum_counts (PRAnalysis.languages st') = sum_counts (PRAnalysis.languages st) + 1.
Proof.
  unfold PRAnalysis.file_step. intro H. repeat inv_bind H. injection H as <-. cbn.
  match goal with Hd : PRAnalysis._detect_language _ = inr ?l |- _ =>
    pose proof (detect_language_truthy _ _ Hd) as Ht end.
  match goal with Hc : (if truthy ?l then _ else _) = inr _ |- _ =>
    rewrite Ht in Hc; apply count_key_inr in Hc; subst end.
  apply sum_counts_into.
Qed.

Lemma step_large st f st' :
  PRAnalysis.file_step st f = inr st' ->
  exists e, large_entry f = inr e
            /\ PRAnalysis.large_files st'
               = (PRAnalysis.large_files st ++ (if fst e then [snd e] else []))%list.
Proof.
  unfold PRAnalysis.file_step. intro H. repeat inv_bind H. injection H as <-.
  unfold large_entry.
  match goal with
  | H1 : get f "filename" _ = inr _, H2 : get f "changes" _ = inr _,
    H3 : get f "status" _ = inr _, H4 : PRAnalysis.py_gt _ 100 = inr ?b |- _ =>
      rewrite H1, H2; cbn [bind]; rewrite H3; cbn [bind]; rewrite H4; cbn [bind ret];
      eexists; split; [reflexivity |]; cbn [fst snd PRAnalysis.large_files];
      destruct b; [reflexivity | rewrite app_nil_r; reflexivity]
  end.
Qed.

Lemma as_int_num v z : Contribution.as_int v = inr z -> PRAnalysis.py_num v = inr (NI z).
Proof. destruct v; cbn; intro H; try discriminate; injection H as <-; reflexivity. Qed.

Lemma step_totals st f st' z w :
  PRAnalysis.file_step st f = inr st' ->
  additions_of f = inr z -> deletions_of f = inr w ->
  PRAnalysis.total_additions st' = num_add (PRAnalysis.total_additions st) (NI z)
  /\ PRAnalysis.total_deletions st' = num_add (PRAnalysis.total_deletions st) (NI w).
Proof.
  unfold PRAnalysis.file_step, additions_of, deletions_of. intros H Ha Hd.
  repeat inv_bind H. injection H as <-. cbn.
  try match goal with E : get f "additions" _ = inr _ |- _ => rewrite E in Ha end.
  try match goal with E : get f "deletions" _ = inr _ |- _ => rewrite E in Hd end.
  cbn [bind] in Ha, Hd. apply as_int_num in Ha, Hd.
  match goal with
  | E1 : PRAnalysis.py_num ?x = inr _, E2 : PRAnalysis.py_num ?y = inr _ |- _ =>
      rewrite E1 in Ha; rewrite E2 in Hd; injection Ha as ->; injection Hd as ->
  end.
  split; reflexivity.
Qed.

Lemma fold_languages fs st st' :
  PRAnalysis.foldM PRAnalysis.file_step st fs = inr st' ->
  sum_counts (PRAnalysis.languages st')
  = sum_counts (PRAnalysis.languages st) + Z.of_nat (List.length fs).
Proof.
  revert st. induction fs as [| f fs IH]; intros st H; cbn [PRAnalysis.foldM] in H.
  - injection H as <-. cbn [List.length]. lia.
  - inv_bind H. apply step_languages in E. apply IH in H.
    cbn [List.length]. lia.
Qed.

Lemma fold_large fs st st' :
  PRAnalysis.foldM PRAnalysis.file_step st fs = inr st' ->
  exists es, mapM large_entry fs = inr es
             /\ PRAnalysis.large_files st'
                = (PRAnalysis.large_files st ++ map snd (filter fst es))%list.
Proof.
  revert st. induction fs as [| f fs IH]; intros st H; cbn [PRAnalysis.foldM] in H.
  - injection H as <-. exists []. split; [reflexivity |]. cbn. rewrite app_nil_r. reflexivity.
  - inv_bind H. apply step_large in E as [e [He Hl]]. apply IH in H as [es [Hes Hl']].
    exists (e :: es). cbn [mapM]. rewrite He, Hes. split; [reflexivity |].
    rewrite Hl', Hl. cbn [filter]. destruct e as [[|] v]; cbn; rewrite <- app_assoc; reflexivity.
Qed.

Lemma fold_totals fs st st' adds dels ta td :
  PRAnalysis.foldM PRAnalysis.file_step st fs = inr st' ->
  mapM additions_of fs = inr adds -> mapM deletions_of fs = inr dels ->
  PRAnalysis.total_additions st = NI ta -> PRAnalysis.total_deletions st = NI td ->
  PRAnalysis.total_additions st' = NI (ta + fold_right Z.add 0 adds)
  /\ PRAnalysis.total_deletions st' = NI (td + fold_right Z.add 0 dels).
Proof.
  revert st adds dels ta td.
  induction fs as [| f fs IH]; intros st adds dels ta td H Ha Hd Hta Htd;
    cbn [PRAnalysis.foldM mapM] in H, Ha, Hd.
  - injection H as <-. injection Ha as <-. injection Hd as <-. cbn. rewrite !Z.add_0_r. auto.
  - inv_bind H. inv_bind Ha. inv_bind Ha. injection Ha as <-.
    inv_bind Hd. inv_bind Hd. injection Hd as <-.
    destruct (step_totals _ _ _ _ _ E E0 E2) as [T1 T2].
    rewrite Hta in T1. rewrite Htd in T2. cbn [num_add] in T1, T2.
    destruct (IH _ _ _ _ _ H eq_refl eq_refl T1 T2) as [R1 R2].
    rewrite R1, R2. cbn [fold_right]. split; f_equal; lia.
Qed.

End FileChangeFacts.

(** ** Summary of a PR's changed files *)

Module FileSummaryFacts.

Import FileChangeFacts.

Lemma analyze_files_fold fs r :
  PRAnalysis._analyze_file_changes (PList fs) = inr r -> fs <> [] ->
  exists st, PRAnalysis.foldM PRAnalysis.file_step PRAnalysis.fc_init fs = inr st
    /\ r = PDict [("total_files", PInt (Z.of_nat (List.length fs)));
                  ("total_additions", num_val (PRAnalysis.total_additions st));
                  ("total_deletions", num_val (PRAnalysis.total_deletions st));
                  ("net_changes", num_val (PRAnalysis.num_sub (PRAnalysis.total_additions st)
                                                              (PRAnalysis.total_deletions st)));
                  ("file_types", Contribution.render_counts (PRAnalysis.file_types st));
                  ("languages", Contribution.render_counts (PRAnalysis.languages st));
                  ("large_files", PList (PRAnalysis.large_files st));
                  ("changes", PList (PRAnalysis.changes st))].
Proof.
  intros H Hne. unfold PRAnalysis._analyze_file_changes in H.
  destruct fs as [| f fs]; [congruence |]. cbn [truthy negb py_iter bind ret] in H.
  inv_bind H. cbn [py_len bind ret] in H. injection H as <-.
  exists f0. split; reflexivity.
Qed.

(** Every changed file is counted under exactly one language, [Unknown]
    included: the language counts add up to [total_files]. *)
Theorem file_languages_cover (fs : list pyval) (r : pyval) :
  PRAnalysis._analyze_file_changes (PList fs) = inr r -> fs <> [] ->
  exists kv lk, r = PDict kv
    /\ lookup "total_files" kv = Some (PInt (Z.of_nat (List.length fs)))
    /\ lookup "languages" kv = Some (PDict lk)
    /\ sum_ints lk = Z.of_nat (List.length fs).
Proof.
  intros H Hne. destruct (analyze_files_fold _ _ H Hne) as [st [Hf ->]].
  do 2 eexists. split; [reflexivity |]. split; [reflexivity |]. split; [reflexivity |].
  rewrite sum_ints_render. apply fold_languages in Hf. cbn in Hf. lia.
Qed.

(** [large_files] lists, in order, exactly the files whose change count is
    above 100, each as its file name, change count and status. *)
Theorem file_large_files_exact (fs : list pyval) (r : pyval) :
  PRAnalysis._analyze_file_changes (PList fs) = inr r -> fs <> [] ->
  exists es kv, mapM large_entry fs = inr es /\ r = PDict kv
    /\ lookup "large_files" kv = Some (PList (map snd (filter fst es))).
Proof.
  intros H Hne. destruct (analyze_files_fold _ _ H Hne) as [st [Hf ->]].
  apply fold_large in Hf as [es [Hes Hl]].
  exists es. eexists. split; [exact Hes |]. split; [reflexivity |].
  cbn -[filter map]. rewrite Hl. reflexivity.
Qed.

(** When every file's additions and deletions are integers, the totals are
    their sums and [net_changes] is their difference. *)
Theorem file_totals_sum (fs : list pyval) (r : pyval) (adds dels : list Z) :
  PRAnalysis._analyze_file_changes (PList fs) = inr r -> fs <> [] ->
  mapM additions_of fs = inr adds -> mapM deletions_of fs = inr dels ->
  exists kv, r = PDict kv
    /\ lookup "total_additions" kv = Some (PInt (fold_right Z.add 0 adds))
    /\ lookup "total_deletions" kv = Some (PInt (fold_right Z.add 0 dels))
    /\ lookup "net_changes" kv
       = Some (PInt (fold_right Z.add 0 adds - fold_right Z.add 0 dels)).
Proof.
  intros H Hne Ha Hd. destruct (analyze_files_fold _ _ H Hne) as [st [Hf ->]].
  destruct (fold_totals _ _ _ _ _ 0 0 Hf Ha Hd eq_refl eq_refl) as [T1 T2].
  eexists. split; [reflexivity |]. cbn -[fold_right]. rewrite T1, T2. auto.
Qed.

End FileSummaryFacts.

(** ** Commits of a PR *)

Module CommitFacts.

Import CounterFacts ReviewFacts FileChangeFacts.

Lemma keys_count_into x d :
  map fst (Contribution.count_into x d)
  = if existsb (py_eqb x) (map fst d) then map fst d else (map fst d ++ [x])%list.
Proof.
  induction d as [| [k n] d IH]; [reflexivity |].
  cbn [Contribution.count_into map fst existsb].
  destruct (py_eqb x k); cbn [map fst orb]; [reflexivity |].
  rewrite IH. destruct (existsb (py_eqb x) (map fst d)); reflexivity.
Qed.

Lemma keys_counter names d :
  map fst (fold_left (fun d k => Contribution.count_into k d) names d)
  = fold_left (fun acc x => if existsb (py_eqb x) acc then acc else (acc ++ [x])%list)
              names (map fst d).
Proof.
  revert d. induction names as [| x names IH]; intro d; [reflexivity |].
  cbn [fold_left]. rewrite IH, keys_count_into. reflexivity.
Qed.

Lemma sum_counts_counter names d :
  sum_counts (fold_left (fun d k => Contribution.count_into k d) names d)
  = sum_counts d + Z.of_nat (List.length names).
Proof.
  revert d. induction names as [| x names IH]; intro d; cbn [fold_left List.length].
  - lia.
  - rewrite IH, sum_counts_into. lia.
Qed.

Lemma commit_step_inv a c x res :
  PRAnalysis.commit_step (a, c) x = inr res ->
  exists nm, commit_author_name x = inr nm
             /\ fst res = Contribution.count_into nm a
             /\ List.length (snd res) = S (List.length c).
Proof.
  unfold PRAnalysis.commit_step, commit_author_name. cbv beta iota. intro H.
  repeat inv_bind H. injection H as <-.
  match goal with Hc : PRAnalysis.count_key _ a = inr _ |- _ => apply count_key_inr in Hc end.
  subst.
  cbv [bind]. repeat match goal with E : ?m = inr _ |- context [?m] => rewrite E end.
  eexists. split; [reflexivity |]. cbn [fst snd]. split; [reflexivity |].
  rewrite length_app. cbn. lia.
Qed.

Lemma fold_commits cs a c res :
  PRAnalysis.foldM PRAnalysis.commit_step (a, c) cs = inr res ->
  exists names, mapM commit_author_name cs = inr names
    /\ fst res = fold_left (fun d k => Contribution.count_into k d) names a
    /\ List.length (snd res) = (List.length c + List.length cs)%nat.
Proof.
  revert a c. induction cs as [| x cs IH]; intros a c H; cbn [PRAnalysis.foldM] in H.
  - injection H as <-. exists []. cbn. split; [reflexivity |]. split; [reflexivity | lia].
  - inv_bind H. destruct p as [a' c'].
    destruct (commit_step_inv _ _ _ _ E) as (nm & En & Ea & Ec).
    destruct (IH _ _ H) as (names & Em & Ef & El).
    exists (nm :: names). cbn [mapM]. rewrite En, Em. split; [reflexivity |].
    cbn [fst snd] in Ea, Ec. subst a'. split; [exact Ef |].
    rewrite El, Ec. cbn [List.length]. lia.
Qed.

(** A PR's commit summary counts each commit once under its author's name:
    [unique_authors] is the number of distinct names, the [authors] object has
    one key per distinct name in order of first appearance, its counts add up
    to [total_commits], and every commit is listed. *)
Theorem commit_authors_summary (cs : list pyval) (r : pyval) :
  PRAnalysis._analyze_commits (PList cs) = inr r -> cs <> [] ->
  exists names authors commits,
    mapM commit_author_name cs = inr names
    /\ r = PDict [("total_commits", PInt (Z.of_nat (List.length cs)));
                  ("unique_authors", PInt (Z.of_nat (List.length (Contribution.dedup names))));
                  ("authors", PDict authors);
                  ("commits", PList commits)]
    /\ map fst authors = map Contribution.key_str (Contribution.dedup names)
    /\ sum_ints authors = Z.of_nat (List.length cs)
    /\ List.length commits = List.length cs.
Proof.
  intros H Hne. unfold PRAnalysis._analyze_commits in H.
  destruct cs as [| x cs]; [congruence |]. cbn [truthy negb py_iter bind ret] in H.
  destruct (PRAnalysis.foldM PRAnalysis.commit_step ([], []) (x :: cs)) as [e | [a c]] eqn:Ef;
    [discriminate |].
  cbn [bind py_len ret] in H. injection H as <-.
  destruct (fold_commits _ _ _ _ Ef) as (names & Em & Ea & El). cbn [fst snd] in Ea, El.
  subst a.
  assert (Hk : map fst (fold_left (fun d k => Contribution.count_into k d) names [])
               = Contribution.dedup names) by (rewrite keys_counter; reflexivity).
  exists names, (map (fun '(k, n) => (Contribution.key_str k, PInt n))
                  (fold_left (fun d k => Contribution.count_into k d) names [])), c.
  split; [exact Em |]. split.
  { rewrite <- Hk, length_map. reflexivity. }
  split.
  { rewrite <- Hk, !map_map. apply map_ext. intros [k n]. reflexivity. }
  split.
  { rewrite sum_ints_render, sum_counts_counter. apply mapM_length in Em.
    rewrite Em. reflexivity. }
  exact El.
Qed.

End CommitFacts.

(** ** Language of a changed file *)

Module LanguageFacts.

Lemma contains_dot_cons a s :
  Health.contains "." (String a s) = (Ascii.eqb "." a || Health.contains "." s)%bool.
Proof.
  unfold Health.contains. cbn [String.index String.prefix].
  destruct (Ascii.ascii_dec "." a) as [<- | Hne].
  - destruct s; reflexivity.
  - replace (Ascii.eqb "." a) with false
      by (symmetry; apply Ascii.eqb_neq; exact Hne).
    cbn [orb]. destruct (String.index 0 "." s); reflexivity.
Qed.

Lemma contains_dot_iff s :
  Health.contains "." s = true <-> In "."%char (list_ascii_of_string s).
Proof.
  induction s as [| a s IH].
  - cbn. split; [discriminate | tauto].
  - rewrite contains_dot_cons. cbn [list_ascii_of_string In].
    rewrite Bool.orb_true_iff, IH, Ascii.eqb_eq. split; intros [H | H]; auto.
Qed.

Lemma split_on_no_sep e :
  ~ In "."%char (list_ascii_of_string e) -> PRAnalysis.split_on "." e = [e].
Proof.
  induction e as [| a e IH]; intro H; [reflexivity |].
  cbn [list_ascii_of_string In] in H. cbn [PRAnalysis.split_on].
  rewrite IH by tauto.
  replace (Ascii.eqb "." a) with false
    by (symmetry; apply Ascii.eqb_neq; intro; subst; tauto).
  reflexivity.
Qed.

Lemma split_on_before p e :
  exists q0 qs, PRAnalysis.split_on "." (p ++ String "." e)%string
                = (q0 :: qs ++ PRAnalysis.split_on "." e)%list.
Proof.
  induction p as [| a p IH].
  - exists EmptyString, []. reflexivity.
  - destruct IH as (q0 & qs & Hq). cbn [String.append PRAnalysis.split_on]. rewrite Hq.
    destruct (Ascii.eqb "." a).
    + exists EmptyString, (q0 :: qs). reflexivity.
    + exists (String a q0), qs. reflexivity.
Qed.

Lemma last_app_cons {A} (l1 l2 : list A) (x d : A) :
  last (l1 ++ x :: l2)%list d = last (x :: l2) d.
Proof.
  induction l1 as [| y l1 IH]; [reflexivity |].
  rewrite <- app_comm_cons. cbn [last]. rewrite IH.
  destruct (l1 ++ x :: l2)%list eqn:E; [destruct l1; discriminate | reflexivity].
Qed.

Lemma last_piece_ext p e :
  ~ In "."%char (list_ascii_of_string e) -> PRAnalysis.last_piece (p ++ String "." e)%string = e.
Proof.
  intro H. unfold PRAnalysis.last_piece.
  destruct (split_on_before p e) as (q0 & qs & ->). rewrite (split_on_no_sep e H).
  change (q0 :: qs ++ [e])%list with ((q0 :: qs) ++ [e])%list.
  rewrite last_app_cons. reflexivity.
Qed.

Lemma contains_dot_app p e : Health.contains "." (p ++ String "." e)%string = true.
Proof.
  apply contains_dot_iff. induction p as [| a p IH]; cbn; auto.
Qed.

(** A file name with a dot is classified by the text after its last dot,
    lowered: [ext_get] maps the known extensions to their language and any
    other extension to [Unknown]. *)
Theorem detect_language_extension (p e : string) :
  ~ In "."%char (list_ascii_of_string e) ->
  PRAnalysis._detect_language (PStr (p ++ String "." e)%string)
  = inr (PStr (PRAnalysis.ext_get (PyStr.py_lower e))).
Proof.
  intro H. unfold PRAnalysis._detect_language. cbn [Manifest.py_in bind ret].
  rewrite contains_dot_app. cbn [bind]. rewrite last_piece_ext by exact H. reflexivity.
Qed.

(** A file name without a dot is of language [Unknown]. *)
Theorem detect_language_no_dot (s : string) :
  ~ In "."%char (list_ascii_of_string s) ->
  PRAnalysis._detect_language (PStr s) = inr (PStr "Unknown").
Proof.
  intro H. unfold PRAnalysis._detect_language. cbn [Manifest.py_in bind ret].
  destruct (Health.contains "." s) eqn:E; [| reflexivity].
  apply contains_dot_iff in E. contradiction.
Qed.

End LanguageFacts.

(** ** The analysis of a PR raises no HTTP error *)

Module NoHttpFacts.

(** [m] does not stop with [httpx.HTTPStatusError]. *)
Definition no_http {A} (m : M A) : Prop :=
  match m with inl (HTTPStatusError _ _) => False | _ => True end.

Lemma nh_bind {A B} (m : M A) (k : A -> M B) :
  no_http m -> (forall a, no_http (k a)) -> no_http (bind m k).
Proof. destruct m; cbn; auto. Qed.

Lemma nh_foldM {A B} (f : A -> B -> M A) :
  (forall a x, no_http (f a x)) -> forall xs a, no_http (PRAnalysis.foldM f a xs).
Proof.
  intros Hf xs. induction xs as [| x xs IH]; intro a; cbn [PRAnalysis.foldM].
  - exact I.
  - apply nh_bind; auto.
Qed.

Lemma nh_filterM {A} (p : A -> M bool) :
  (forall x, no_http (p x)) -> forall xs, no_http (Contribution.filterM p xs).
Proof.
  intros Hp xs. induction xs as [| x xs IH]; cbn [Contribution.filterM].
  - exact I.
  - apply nh_bind; [auto | intro]. apply nh_bind; [auto | intro]. exact I.
Qed.

Ltac nh :=
  repeat first
    [ progress cbv beta iota zeta
    | apply nh_bind; [| intro]
    | apply nh_foldM; intros
    | apply nh_filterM; intros
    | match goal with
      | |- no_http (match ?x with _ => _ end) => destruct x
      | |- no_http (if ?b then _ else _) => destruct b
      | |- no_http (ret _) => exact I
      | |- no_http (raise (HTTPStatusError _ _)) => fail 1
      | |- no_http (raise _) => exact I
      | |- no_http (inr _) => exact I
      end
    | solve [eauto with nh] ].

Create HintDb nh.

Lemma nh_get d k v : no_http (get d k v).
Proof. unfold get. nh. Qed.
#[local] Hint Resolve nh_get : nh.

Lemma nh_py_len v : no_http (py_len v).
Proof. unfold py_len. nh. Qed.
#[local] Hint Resolve nh_py_len : nh.

Lemma nh_py_iter v : no_http (py_iter v).
Proof. unfold py_iter. nh. Qed.
#[local] Hint Resolve nh_py_iter : nh.

Lemma nh_py_num v : no_http (PRAnalysis.py_num v).
Proof. unfold PRAnalysis.py_num. nh. Qed.
#[local] Hint Resolve nh_py_num : nh.

Lemma nh_py_gt v z : no_http (PRAnalysis.py_gt v z).
Proof. unfold PRAnalysis.py_gt. nh. Qed.
#[local] Hint Resolve nh_py_gt : nh.

Lemma nh_count_key k d : no_http (PRAnalysis.count_key k d).
Proof. unfold PRAnalysis.count_key. nh. Qed.
#[local] Hint Resolve nh_count_key : nh.

Lemma nh_py_in s v : no_http (Manifest.py_in s v).
Proof. unfold Manifest.py_in. nh. Qed.
#[local] Hint Resolve nh_py_in : nh.

Lemma nh_detect f : no_http (PRAnalysis._detect_language f).
Proof. unfold PRAnalysis._detect_language. nh. Qed.
#[local] Hint Resolve nh_detect : nh.

Lemma nh_slice n v : no_http (Branches.slice_str n v).
Proof. unfold Branches.slice_str. nh. Qed.
#[local] Hint Resolve nh_slice : nh.

Lemma nh_first_line v : no_http (Branches.first_line v).
Proof. unfold Branches.first_line. nh. Qed.
#[local] Hint Resolve nh_first_line : nh.

Lemma nh_get_int d k : no_http (PRReviews.get_int d k).
Proof. unfold PRReviews.get_int. nh. Qed.
#[local] Hint Resolve nh_get_int : nh.

Lemma nh_blank v : no_http (PRAnalysis.blank v).
Proof. unfold PRAnalysis.blank. nh. Qed.
#[local] Hint Resolve nh_blank : nh.

Lemma nh_is_test_file f : no_http (PRAnalysis.is_test_file f).
Proof. unfold PRAnalysis.is_test_file. nh. Qed.
#[local] Hint Resolve nh_is_test_file : nh.

Lemma nh_file_step st f : no_http (PRAnalysis.file_step st f).
Proof. unfold PRAnalysis.file_step. nh. Qed.
#[local] Hint Resolve nh_file_step : nh.

Lemma nh_commit_step st c : no_http (PRAnalysis.commit_step st c).
Proof. unfold PRAnalysis.commit_step. nh. Qed.
#[local] Hint Resolve nh_commit_step : nh.

Lemma nh_review_step st r : no_http (PRAnalysis.review_step st r).
Proof. unfold PRAnalysis.review_step. nh. Qed.
#[local] Hint Resolve nh_review_step : nh.

Lemma nh_comment_step st c : no_http (PRAnalysis.comment_step st c).
Proof. unfold PRAnalysis.comment_step. nh. Qed.
#[local] Hint Resolve nh_comment_step : nh.

Lemma nh_analyze_pr_data p f c r m : no_http (PRAnalysis._analyze_pr_data p f c r m).
Proof.
  unfold PRAnalysis._analyze_pr_data, PRAnalysis._analyze_file_changes,
    PRAnalysis._analyze_commits, PRAnalysis._analyze_reviews, PRAnalysis._analyze_comments,
    PRAnalysis._generate_insights, PRReviews._calculate_complexity_score,
    PRAnalysis._assess_review_status, PRAnalysis._identify_risk_factors,
    PRAnalysis._generate_recommendations.
  nh.
Qed.

End NoHttpFacts.

(** ** A PR whose body is null *)

Module NullBodyFacts.

Import MonadFacts NoHttpFacts.

Lemma bind_bind {A B C} (m : M A) (k1 : A -> M B) (k2 : B -> M C) :
  bind (bind m k1) k2 = bind m (fun a => bind (k1 a) k2).
Proof. destruct m; reflexivity. Qed.

Ltac fail_chain :=
  repeat (cbv zeta;
    match goal with
    | |- exists e, bind (get (PDict ?l) "description" ?d) _ = inl e =>
        rewrite (get_dict l "description" d);
        change (dget l "description" d) with PNone; cbn [bind ret PRAnalysis.blank raise];
        eexists; reflexivity
    | |- exists e, bind (ret _) _ = inl e => cbn [bind ret]
    | |- exists e, bind (bind _ _) _ = inl e => rewrite bind_bind
    | |- exists e, bind ?m _ = inl e =>
        let E := fresh "E" in destruct m eqn:E; cbn [bind]; [eexists; reflexivity |]
    end).

Lemma null_body_analysis_fails kv f c r m :
  lookup "body" kv = Some PNone ->
  exists e, PRAnalysis._analyze_pr_data (PDict kv) f c r m = inl e.
Proof.
  intro Hb. unfold PRAnalysis._analyze_pr_data.
  assert (Hg : get (PDict kv) "body" (PStr "") = ret PNone)
    by (rewrite get_dict; unfold dget; rewrite Hb; reflexivity).
  rewrite Hg.
  unfold PRAnalysis._generate_insights, PRAnalysis._identify_risk_factors.
  fail_chain.
Qed.

(** When the PR's [body] is [null] (a PR opened without a description),
    [get_pr_review_summary] never returns a summary: with a token and all
    five requests answered, it returns the generic exception report. *)
Theorem null_body_exception_report (srv : server) (owner repo : string) (n : Z)
  (kv : list (string * pyval)) (f c r m : pyval) :
  let u := (api ++ "/repos/" ++ owner ++ "/" ++ repo ++ "/pulls/" ++ string_of_Z n)%string in
  fetch srv u = inr (PDict kv) ->
  lookup "body" kv = Some PNone ->
  fetch srv (u ++ "/files")%string = inr f ->
  fetch srv (u ++ "/commits")%string = inr c ->
  fetch srv (u ++ "/reviews")%string = inr r ->
  fetch srv (u ++ "/comments")%string = inr m ->
  exists d, PRAnalysis.get_pr_review_summary true srv owner repo n
            = PDict [("error", PStr "Exception occurred while fetching PR data");
                     ("details", PStr d)].
Proof.
  intros u Hp Hb Hf Hc Hr Hm.
  unfold PRAnalysis.get_pr_review_summary, PRSummary.get_pr_review_summary,
    PRSummary.pr_summary_body, run_tool.
  fold u. rewrite Hp. cbn [bind]. rewrite Hf. cbn [bind]. rewrite Hc. cbn [bind].
  rewrite Hr. cbn [bind]. rewrite Hm. cbn [bind negb].
  destruct (null_body_analysis_fails kv f c r m Hb) as [e He].
  pose proof (nh_analyze_pr_data (PDict kv) f c r m) as Hn. rewrite He in Hn |- *.
  destruct e; [contradiction | eexists; reflexivity ..].
Qed.

End NullBodyFacts.

(** ** [sorted(..., reverse=True)] *)

Module SortDescFacts.

Section Desc.
Context {K A : Type} (ltb : K -> K -> bool) (le : K -> K -> Prop).
Hypothesis lt_le : forall a b, ltb a b = true -> le a b.
Hypothesis not_lt_le : forall a b, ltb a b = false -> le b a.
Hypothesis le_trans : forall a b c, le a b -> le b c -> le a c.

(** Keys never increase along the list. *)
Definition desc (x y : K * A) : Prop := le (fst y) (fst x).

Lemma insert_desc_perm (kx : K * A) (acc : list (K * A)) : Permutation (insert_desc ltb kx acc) (kx :: acc).
Proof.
  induction acc as [| ky acc IH]; cbn [insert_desc]; [reflexivity |].
  destruct (ltb (fst ky) (fst kx)); [reflexivity |].
  rewrite IH. apply perm_swap.
Qed.

Lemma insert_desc_sorted (kx : K * A) (acc : list (K * A)) :
  StronglySorted desc acc -> StronglySorted desc (insert_desc ltb kx acc).
Proof.
  induction acc as [| ky acc IH]; intro Hs; cbn [insert_desc].
  - repeat constructor.
  - apply StronglySorted_inv in Hs as [Hs Hall].
    destruct (ltb (fst ky) (fst kx)) eqn:E.
    + constructor; [constructor; assumption |].
      constructor; [unfold desc; apply lt_le; exact E |].
      eapply Forall_impl; [| exact Hall]. intros z Hz. unfold desc in *. eauto.
    + constructor; [apply IH; exact Hs |].
      eapply Permutation_Forall; [symmetry; apply insert_desc_perm |].
      constructor; [unfold desc; apply not_lt_le; exact E | exact Hall].
Qed.

Lemma sort_desc_fold (kxs acc : list (K * A)) :
  StronglySorted desc acc ->
  let r := fold_left (fun acc kx => insert_desc ltb kx acc) kxs acc in
  StronglySorted desc r /\ Permutation r (rev kxs ++ acc).
Proof.
  revert acc. induction kxs as [| kx kxs IH]; intros acc Hs; cbn [fold_left].
  - split; [exact Hs | reflexivity].
  - destruct (IH _ (insert_desc_sorted kx acc Hs)) as [H1 H2]. split; [exact H1 |].
    rewrite H2, insert_desc_perm. cbn [rev]. rewrite <- app_assoc. cbn [List.app].
    apply Permutation_app_head. reflexivity.
Qed.

(** [sort_desc] reorders its input by non-increasing key. *)
Lemma sort_desc_spec (kxs : list (K * A)) :
  exists ps, sort_desc ltb kxs = map snd ps
             /\ Permutation ps kxs /\ StronglySorted desc ps.
Proof.
  destruct (sort_desc_fold kxs [] (SSorted_nil _)) as [H1 H2].
  exists (fold_left (fun acc kx => insert_desc ltb kx acc) kxs []).
  split; [reflexivity |]. split; [| exact H1].
  rewrite H2, app_nil_r. symmetry. apply Permutation_rev.
Qed.

End Desc.

Lemma str_ltb_le a b : String.ltb a b = true -> str_le a b.
Proof.
  unfold String.ltb. intro H. apply StreakFacts.le_of_lt.
  destruct (String.compare a b); congruence.
Qed.

Lemma sort_desc_strings {A} (kxs : list (string * A)) :
  exists ps, sort_desc String.ltb kxs = map snd ps
             /\ Permutation ps kxs /\ StronglySorted (desc str_le) ps.
Proof.
  apply sort_desc_spec.
  - exact str_ltb_le.
  - exact StreakFacts.not_lt_le.
  - exact StreakFacts.le_trans.
Qed.

End SortDescFacts.

(** ** Active branches *)

Module ActiveBranchFacts.

Import SortDescFacts.

(** Of the fetched branches, [get_active_branches] lists the active ones
    (a date that parses, after the cutoff), each once, ordered by commit
    date string from newest to oldest, and [count] is their number. *)
Theorem active_branches_listed (local_timestamp : Z -> Z) (env : Env) (srv : server)
  (owner repo : string) (days : Z) (bl : list pyval) (r : pyval) :
  fetch srv (api ++ "/repos/" ++ owner ++ "/" ++ repo ++ "/branches")%string = inr (PList bl) ->
  BranchTools.active_body local_timestamp env srv owner repo days = inr r ->
  exists act, Contribution.filterM
                (BranchTools.is_active local_timestamp env (now_utc env - days * 24 * 60 * 60)) bl
              = inr act
  /\ (act = [] \/
      exists keys ps results,
        mapM BranchTools.date_sort_key act = inr keys
        /\ Permutation ps (combine keys act)
        /\ StronglySorted (desc str_le) ps
        /\ mapM (BranchTools.active_entry env) (map snd ps) = inr results
        /\ List.length results = List.length act
        /\ r = PDict [("owner", PStr owner); ("repo", PStr repo); ("days", PInt days);
                      ("count", PInt (Z.of_nat (List.length results)));
                      ("branches", PList results)]).
Proof.
  intros Hf H. unfold BranchTools.active_body in H. rewrite Hf in H. cbn [bind] in H.
  destruct bl as [| b bl'].
  - exists []. split; [reflexivity | left; reflexivity].
  - cbn [truthy negb py_iter ret bind] in H. cbv zeta in H.
    inv_bind H. exists l. split; [reflexivity |].
    destruct l as [| a act]; [left; reflexivity | right].
    inv_bind H. inv_bind H. injection H as <-.
    destruct (sort_desc_strings (combine l (a :: act))) as (ps & Hps & Hp & Hs).
    rewrite Hps in E1.
    exists l, ps, l0. split; [reflexivity |]. split; [exact Hp |]. split; [exact Hs |].
    split; [exact E1 |]. split; [| reflexivity].
    apply ReviewFacts.mapM_length in E1. rewrite E1, length_map.
    rewrite (Permutation_length Hp), length_combine.
    apply ReviewFacts.mapM_length in E0. rewrite E0. apply Nat.min_id.
Qed.

End ActiveBranchFacts.

(** ** Branch comparison *)

Module ComparisonFacts.

Import MonadFacts.

(** A refused comparison request is reported by its status code: 404 as
    the not-found report, any other code as the HTTP error report. *)
Theorem comparison_refused (env : Env) (srv : server)
  (owner repo base_branch compare_branch : string) :
  let resp := srv (BranchTools.compare_url owner repo base_branch compare_branch) in
  is_success resp = false ->
  BranchTools.get_branch_comparison true env srv owner repo base_branch compare_branch
  = if status_code resp =? 404 then BranchTools.comparison_not_found
    else http_error_report (status_code resp) (text resp).
Proof.
  intros resp Hs.
  unfold BranchTools.get_branch_comparison, BranchTools.comparison_body, fetch,
    raise_for_status.
  fold resp. rewrite Hs. reflexivity.
Qed.

Lemma first5_list l : BranchTools.first5 (PList l) = inr (firstn 5 l).
Proof. reflexivity. Qed.

(** The comparison reports at most the first five commits of the answer:
    for a list of [n] commits, [recent_commits] has [min 5 n] entries. *)
Theorem comparison_recent_commits (env : Env) (srv : server)
  (owner repo base_branch compare_branch : string)
  (kv : list (string * pyval)) (cl : list pyval) (r : pyval) :
  fetch srv (BranchTools.compare_url owner repo base_branch compare_branch) = inr (PDict kv) ->
  lookup "commits" kv = Some (PList cl) ->
  BranchTools.comparison_body env srv owner repo base_branch compare_branch = inr r ->
  BranchTools.get_branch_comparison true env srv owner repo base_branch compare_branch = r
  /\ exists out items, r = PDict out
       /\ lookup "recent_commits" out = Some (PList items)
       /\ List.length items = Nat.min 5 (List.length cl).
Proof.
  intros Hf Hc H. split.
  { unfold BranchTools.get_branch_comparison. rewrite H. reflexivity. }
  unfold BranchTools.comparison_body in H. rewrite Hf in H. cbn [bind] in H.
  rewrite !get_dict in H. cbn [bind ret] in H.
  replace (dget kv "commits" (PList [])) with (PList cl) in H
    by (unfold dget; rewrite Hc; reflexivity). cbn [BranchTools.first5 bind ret] in H.
  inv_bind H. injection H as <-.
  do 2 eexists. split; [reflexivity |]. split; [reflexivity |].
  apply ReviewFacts.mapM_length in E. rewrite E, length_firstn. reflexivity.
Qed.

End ComparisonFacts.

(** ** Open PRs *)

Module OpenPRFacts.

Lemma py_len_iter v l : py_iter v = inr l -> py_len v = inr (Z.of_nat (List.length l)).
Proof.
  destruct v; cbn; intro H; try discriminate; injection H as <-; rewrite ?length_map.
  - rewrite StreakFacts.length_list_ascii. reflexivity.
  - reflexivity.
  - reflexivity.
Qed.

Lemma mapM_Forall2 {A B} (f : A -> M B) xs ys :
  mapM f xs = inr ys -> Forall2 (fun x y => f x = inr y) xs ys.
Proof.
  revert ys. induction xs as [| x xs IH]; intros ys H; cbn [mapM] in H.
  - injection H as <-. constructor.
  - inv_bind H. inv_bind H. injection H as <-. constructor; [exact E | exact (IH _ eq_refl)].
Qed.

(** With a token, [list_open_prs_for_review] either fetches the PR list
    and returns, for each listed PR in order, the entry [pr_list_entry]
    builds from it, with [total_prs] the number of listed PRs; or returns
    a dictionary whose only key is [error], its text starting with
    [Failed to list PRs: ]; HTTP errors are reported the same way. *)
Theorem open_prs_shape (srv : server) (owner repo : string) (limit : Z) :
  let url := api ++ "/repos/" ++ owner ++ "/" ++ repo ++ "/pulls" in
  (exists v prs entries,
     fetch srv url = inr v /\ py_iter v = inr prs
     /\ Forall2 (fun pr e => PRAnalysis.pr_list_entry pr = inr e) prs entries
     /\ PRAnalysis.list_open_prs_for_review true srv owner repo limit
        = PDict [("total_prs", PInt (Z.of_nat (List.length prs))); ("prs", PList entries)])
  \/ (exists msg, PRAnalysis.list_open_prs_for_review true srv owner repo limit
                  = PDict [("error", PStr ("Failed to list PRs: " ++ msg))]).
Proof.
  intros url. unfold PRAnalysis.list_open_prs_for_review. cbn [negb]. fold url.
  destruct (fetch srv url) as [e | v] eqn:Ef; cbn [bind]; [right; eexists; reflexivity |].
  destruct (py_iter v) as [e | l] eqn:Ei; cbn [bind]; [right; eexists; reflexivity |].
  destruct (mapM PRAnalysis.pr_list_entry l) as [e | ps] eqn:Em; cbn [bind];
    [right; eexists; reflexivity |].
  rewrite (py_len_iter _ _ Ei). cbn [bind ret]. left. exists v, l, ps.
  split; [first [reflexivity | exact Ef] |]. split; [first [reflexivity | exact Ei] |].
  split; [exact (mapM_Forall2 _ _ _ Em) | reflexivity].
Qed.

End OpenPRFacts.

(** ** Risk factors and recommendations *)

Module InsightFacts.

Import MonadFacts.

Lemma get_desc pkv s p :
  lookup "description" pkv = Some (PStr s) ->
  get (PDict pkv) "description" (PStr "") = inr p -> p = PStr s.
Proof.
  intros Hd E. rewrite get_dict in E. unfold dget in E. rewrite Hd in E.
  injection E as <-. reflexivity.
Qed.

Lemma blank_str s b : PRAnalysis.blank (PStr s) = inr b -> b = String.eqb (PyStr.strip s) "".
Proof. cbn. intro H. injection H as <-. reflexivity. Qed.

Lemma in_cond (x : string) (b : bool) (y : string) :
  In x (if b then [y] else []) <-> b = true /\ x = y.
Proof. destruct b; cbn; intuition congruence. Qed.

Lemma risks_description pkv fa ca s risks :
  lookup "description" pkv = Some (PStr s) ->
  PRAnalysis._identify_risk_factors (PDict pkv) fa ca = inr risks ->
  (In "No PR description - add context for reviewers" risks <-> PyStr.strip s = "").
Proof.
  intros Hd H. unfold PRAnalysis._identify_risk_factors in H.
  repeat inv_bind H. injection H as <-.
  match goal with E : get (PDict pkv) "description" _ = inr ?p |- _ =>
    apply (get_desc _ _ _ Hd) in E; subst p end.
  match goal with E : PRAnalysis.blank (PStr s) = inr ?b |- _ =>
    apply blank_str in E; subst b end.
  rewrite <- String.eqb_eq.
  repeat rewrite in_app_iff. rewrite !in_cond.
  intuition discriminate.
Qed.

Lemma recommendations_description pkv fa ca ra s recs :
  lookup "description" pkv = Some (PStr s) ->
  PRAnalysis._generate_recommendations (PDict pkv) fa ca ra = inr recs ->
  (In "Add detailed PR description explaining changes" recs <-> PyStr.strip s = "").
Proof.
  intros Hd H. unfold PRAnalysis._generate_recommendations in H.
  repeat inv_bind H. injection H as <-.
  match goal with E : get (PDict pkv) "description" _ = inr ?p |- _ =>
    apply (get_desc _ _ _ Hd) in E; subst p end.
  match goal with E : PRAnalysis.blank (PStr s) = inr ?b |- _ =>
    apply blank_str in E; subst b end.
  rewrite <- String.eqb_eq.
  repeat rewrite in_app_iff. rewrite !in_cond.
  intuition discriminate.
Qed.

(** A PR description that is empty or only whitespace gives both the risk
    factor and the recommendation about the description; any other text
    gives neither. *)
Theorem description_flagged (pkv : list (string * pyval)) (fa ca ra ins : pyval) (s : string) :
  lookup "description" pkv = Some (PStr s) ->
  PRAnalysis._generate_insights (PDict pkv) fa ca ra = inr ins ->
  exists cx st risks recs,
    ins = PDict [("complexity_score", cx); ("review_status", st);
                 ("risk_factors", PList (map PStr risks));
                 ("recommendations", PList (map PStr recs))]
    /\ (In "No PR description - add context for reviewers" risks <-> PyStr.strip s = "")
    /\ (In "Add detailed PR description explaining changes" recs <-> PyStr.strip s = "").
Proof.
  intros Hd H. unfold PRAnalysis._generate_insights in H.
  repeat inv_bind H. injection H as <-.
  do 4 eexists. split; [reflexivity |]. split.
  - eapply risks_description; eassumption.
  - eapply recommendations_description; eassumption.
Qed.

Lemma filterM_nil {A} (p : A -> M bool) xs ys :
  Contribution.filterM p xs = inr ys ->
  (ys = [] <-> Forall (fun x => p x = inr false) xs).
Proof.
  revert ys. induction xs as [| x xs IH]; intros ys H; cbn [Contribution.filterM] in H.
  - injection H as <-. split; constructor.
  - inv_bind H. inv_bind H. injection H as <-. rewrite Forall_cons_iff.
    rewrite <- (IH _ eq_refl). rewrite E. destruct b; split.
    + intro Hx; discriminate Hx.
    + intros [Hx _]; discriminate Hx.
    + intros ->. split; reflexivity.
    + intros [_ ->]. reflexivity.
Qed.

Lemma is_test_file_false f :
  PRAnalysis.is_test_file f = inr false
  <-> exists s, get f "filename" (PStr "") = inr (PStr s)
                /\ Health.contains "test" (PyStr.py_lower s) = false.
Proof.
  unfold PRAnalysis.is_test_file. split.
  - intro H. inv_bind H. destruct p; try discriminate. injection H as H. eauto.
  - intros (s & E & Hc). rewrite E. cbn [bind ret]. rewrite Hc. reflexivity.
Qed.

(** The test recommendation is given exactly when the PR changes at least
    one file and no changed file has [test] in its lowered name. *)
Theorem tests_recommended (pi ca ra : pyval) (fkv : list (string * pyval))
  (items : list pyval) (n : Z) (recs : list string) :
  lookup "changes" fkv = Some (PList items) ->
  lookup "total_files" fkv = Some (PInt n) ->
  PRAnalysis._generate_recommendations pi (PDict fkv) ca ra = inr recs ->
  (In "Consider adding tests for new functionality" recs
   <-> 0 < n /\ Forall (fun f => exists s, get f "filename" (PStr "") = inr (PStr s)
                                  /\ Health.contains "test" (PyStr.py_lower s) = false) items).
Proof.
  intros Hc Hn H. unfold PRAnalysis._generate_recommendations in H.
  rewrite !get_dict in H. unfold dget in H. rewrite Hc, Hn in H. cbn [bind ret py_iter] in H.
  repeat (lazymatch type of H with
          | bind (Contribution.filterM _ _) _ = _ => fail
          | _ => inv_bind H
          end).
  destruct (Contribution.filterM PRAnalysis.is_test_file items) as [e | l] eqn:Ef;
    cbn [bind] in H; [discriminate H |].
  assert (Hf : Forall (fun f => exists s, get f "filename" (PStr "") = inr (PStr s)
                                 /\ Health.contains "test" (PyStr.py_lower s) = false) items
               <-> l = []).
  { rewrite (filterM_nil _ _ _ Ef). split; apply Forall_impl; intros f; apply is_test_file_false. }
  rewrite Hf. clear Hf.
  destruct l as [| t ts]; cbn [bind ret PRAnalysis.py_gt PRAnalysis.py_num num_ltb] in H;
    repeat inv_bind H.
  - injection H as <-. repeat rewrite in_app_iff. rewrite !in_cond.
    rewrite <- Z.ltb_lt. intuition discriminate.
  - injection H as <-. repeat rewrite in_app_iff. rewrite !in_cond.
    intuition discriminate.
Qed.

End InsightFacts.

(** ** Dependency files of a repository *)

Module DependencyFacts.

Import CounterFacts.

Lemma filterM_kept {A} (p : A -> M bool) xs ys :
  Contribution.filterM p xs = inr ys -> Forall (fun y => p y = inr true) ys.
Proof.
  revert ys. induction xs as [| x xs IH]; intros ys H; cbn [Contribution.filterM] in H.
  - injection H as <-. constructor.
  - inv_bind H. inv_bind H. injection H as <-.
    destruct b; [constructor; [exact E | exact (IH _ eq_refl)] | exact (IH _ eq_refl)].
Qed.

Lemma analyze_step_length loads srv fs acc res :
  PRAnalysis.foldM (Dependencies.analyze_step loads srv) acc fs = inr res ->
  (List.length res <= List.length acc + List.length fs)%nat.
Proof.
  revert acc. induction fs as [| f fs IH]; intros acc H; cbn [PRAnalysis.foldM] in H.
  - injection H as <-. cbn. lia.
  - inv_bind H. apply IH in H. cbn [List.length].
    unfold Dependencies.analyze_step in E. repeat inv_bind E.
    destruct (negb (truthy p0)); [injection E as <-; lia |].
    repeat inv_bind E. destruct (status_code r =? 200); [| injection E as <-; lia].
    inv_bind E. injection E as <-. rewrite length_app in H. cbn in H. lia.
Qed.

Lemma dependency_name f :
  Dependencies.is_dependency_file f = inr true ->
  exists k, In k Dependencies.known_files /\ get f "name" PNone = inr (PStr k).
Proof.
  unfold Dependencies.is_dependency_file. intro H. inv_bind H. injection H as H.
  change (existsb (fun k => py_eqb p (PStr k)) Dependencies.known_files = true) in H.
  apply existsb_exists in H as [k [Hk He]]. apply py_eqb_str_r in He. subst.
  exists k. auto.
Qed.

Lemma names_known fs names :
  Forall (fun y => Dependencies.is_dependency_file y = inr true) fs ->
  mapM (fun f => get f "name" PNone) fs = inr names ->
  Forall (fun nm => exists k, In k Dependencies.known_files /\ nm = PStr k) names.
Proof.
  revert names. induction fs as [| f fs IH]; intros names Hall H; cbn [mapM] in H.
  - injection H as <-. constructor.
  - apply Forall_cons_iff in Hall as [Hf Hall].
    destruct (dependency_name _ Hf) as [k [Hk Hg]].
    rewrite Hg in H. cbn [bind] in H. inv_bind H. injection H as <-.
    constructor; [eauto | exact (IH _ Hall eq_refl)].
Qed.

Lemma analyze_step_results loads srv fs : forall acc res names,
  PRAnalysis.foldM (Dependencies.analyze_step loads srv) acc fs = inr res ->
  mapM (fun f => get f "name" PNone) fs = inr names ->
  exists opts, List.length opts = List.length names
               /\ res = (acc ++ file_results names opts)%list.
Proof.
  induction fs as [| f fs IH]; intros acc res names H Hn; cbn [PRAnalysis.foldM mapM] in H, Hn.
  - unfold ret in H, Hn. injection H as <-. injection Hn as <-. exists [].
    split; [reflexivity |]. rewrite app_nil_r. reflexivity.
  - destruct (get f "name" PNone) as [e | nm] eqn:Eg; [discriminate Hn |]. cbn [bind] in Hn.
    destruct (mapM _ fs) as [e | names'] eqn:Em; [discriminate Hn |]. cbn [bind] in Hn.
    unfold ret in Hn. injection Hn as <-.
    destruct (Dependencies.analyze_step loads srv acc f) as [e | acc'] eqn:Es;
      cbn [bind] in H; [discriminate H |].
    destruct (IH acc' res names' H eq_refl) as [opts [Hl Hr]].
    unfold Dependencies.analyze_step in Es. rewrite Eg in Es. cbn [bind] in Es.
    destruct (get f "download_url" PNone) as [e | du]; cbn [bind] in Es; [discriminate Es |].
    destruct (negb (truthy du)).
    + unfold ret in Es. injection Es as <-. exists (None :: opts).
      split; [cbn [List.length]; congruence | rewrite Hr; reflexivity].
    + destruct (Dependencies.download srv du) as [e | fr]; cbn [bind] in Es; [discriminate Es |].
      destruct (status_code fr =? 200).
      * destruct (Dependencies._analyze_dependency_file_json loads nm (text fr)) as [e | an];
          cbn [bind] in Es; [discriminate Es |].
        unfold ret in Es. injection Es as <-. exists (Some an :: opts).
        split; [cbn [List.length]; congruence |]. rewrite Hr, <- app_assoc. reflexivity.
      * unfold ret in Es. injection Es as <-. exists (None :: opts).
        split; [cbn [List.length]; congruence | rewrite Hr; reflexivity].
Qed.

(** [check_repository_dependencies] either reports that no dependency
    files were found, or lists the files named as one of the nine known
    manifests and, for each listed file in order, at most one analysis
    result [{"file": name, "analysis": ...}] carrying that file's name. *)
Theorem dependency_files_known (loads : string -> option pyval) (srv : server)
  (owner repo : string) (r : pyval) :
  Dependencies.dependencies_body loads srv owner repo = inr r ->
  r = PDict [("owner", PStr owner); ("repo", PStr repo);
             ("dependency_files_found", PList []);
             ("message", PStr "No dependency files found")]
  \/ exists names opts,
       r = PDict [("owner", PStr owner); ("repo", PStr repo);
                  ("dependency_files_found", PList names);
                  ("results", PList (file_results names opts))]
       /\ Forall (fun nm => exists k, In k Dependencies.known_files /\ nm = PStr k) names
       /\ List.length opts = List.length names.
Proof.
  unfold Dependencies.dependencies_body. intro H.
  inv_bind H. inv_bind H. inv_bind H. apply filterM_kept in E1.
  destruct l0 as [| f fs].
  - injection H as <-. left. reflexivity.
  - right. inv_bind H. inv_bind H. injection H as <-.
    destruct (analyze_step_results _ _ _ _ _ _ E2 E3) as [opts [Hl Hr]].
    exists l1, opts. split; [rewrite Hr; reflexivity |]. split.
    + exact (names_known _ _ E1 E3).
    + exact Hl.
Qed.

End DependencyFacts.

(** ** Contribution analytics *)

Module ContributionCountFacts.

Import FileChangeFacts CommitFacts.

Lemma filterM_length {A} (p : A -> M bool) xs ys :
  Contribution.filterM p xs = inr ys -> (List.length ys <= List.length xs)%nat.
Proof.
  revert ys. induction xs as [| x xs IH]; intros ys H; cbn [Contribution.filterM] in H.
  - injection H as <-. cbn. lia.
  - inv_bind H. inv_bind H. injection H as <-. specialize (IH _ eq_refl).
    destruct b; cbn [List.length]; lia.
Qed.

Lemma window_length env days xs ys :
  Contribution.window env days xs = inr ys -> (List.length ys <= List.length xs)%nat.
Proof.
  unfold Contribution.window. intros H. inv_bind H. apply filterM_length in H. exact H.
Qed.

Lemma filter_partition_length {A} (f : A -> bool) xs :
  (List.length (filter (fun x => negb (f x)) xs) + List.length (filter f xs))%nat
  = List.length xs.
Proof.
  induction xs as [| x xs IH]; [reflexivity |]. cbn [filter List.length].
  destruct (f x); cbn [negb List.length]; lia.
Qed.

Lemma sum_ints_counter xs :
  sum_ints (map (fun '(k, n) => (Contribution.key_str k, PInt n)) (Contribution.counter xs))
  = Z.of_nat (List.length xs).
Proof.
  rewrite sum_ints_render. unfold Contribution.counter. rewrite sum_counts_counter. reflexivity.
Qed.

Lemma plain_issues_filter xs flags :
  mapM (fun i => get i "pull_request" PNone) xs = inr flags ->
  map snd (filter (fun '(f, _) => negb (truthy f)) (combine flags xs))
  = filter is_plain_issue xs.
Proof.
  revert flags. induction xs as [| x xs IH]; intros flags H; cbn [mapM] in H.
  - injection H as <-. reflexivity.
  - inv_bind H. inv_bind H. injection H as <-. cbn [combine filter].
    unfold is_plain_issue at 1. rewrite E.
    destruct (negb (truthy p)); cbn [map snd]; rewrite (IH _ eq_refl); reflexivity.
Qed.

(** Every repository is counted either as owned or as forked:
    [owned_repos + forked_repos = total_repos]. *)
Theorem owned_plus_forked (rs : list pyval) (r : pyval) :
  Contribution._analyze_user_repositories (PList rs) = inr r -> rs <> [] ->
  exists kv o f, r = PDict kv
    /\ lookup "total_repos" kv = Some (PInt (Z.of_nat (List.length rs)))
    /\ lookup "owned_repos" kv = Some (PInt o)
    /\ lookup "forked_repos" kv = Some (PInt f)
    /\ o + f = Z.of_nat (List.length rs).
Proof.
  intros H Hne. unfold Contribution._analyze_user_repositories in H.
  destruct rs as [| x rs']; [congruence |]. cbn [truthy negb py_iter bind ret] in H.
  cbv zeta in H. repeat inv_bind H. injection H as <-.
  do 3 eexists. split; [reflexivity |]. split; [reflexivity |].
  split; [reflexivity |]. split; [reflexivity |].
  match goal with E : mapM (fun r => get r "fork" _) _ = inr ?fs |- _ =>
    apply ReviewFacts.mapM_length in E; rewrite <- E, <- (filter_partition_length truthy fs) end.
  lia.
Qed.

(** The PR state counts of the repository analytics add up to [total_prs],
    and [recent_prs] is at most [total_prs]. *)
Theorem pr_states_total (env : Env) (ps : list pyval) (days : Z) (r : pyval) :
  Contribution._analyze_prs env (PList ps) days = inr r -> ps <> [] ->
  exists kv lk nrecent, r = PDict kv
    /\ lookup "total_prs" kv = Some (PInt (Z.of_nat (List.length ps)))
    /\ lookup "recent_prs" kv = Some (PInt nrecent)
    /\ lookup "pr_states" kv = Some (PDict lk)
    /\ sum_ints lk = Z.of_nat (List.length ps)
    /\ nrecent <= Z.of_nat (List.length ps).
Proof.
  intros H Hne. unfold Contribution._analyze_prs in H.
  destruct ps as [| x ps']; [congruence |]. cbn [truthy negb py_iter bind ret] in H.
  inv_bind H. inv_bind H. cbv zeta in H. cbn [bind ret] in H. injection H as <-.
  do 3 eexists. split; [reflexivity |]. split; [reflexivity |]. split; [reflexivity |].
  split; [reflexivity |]. split.
  - rewrite sum_ints_counter. apply ReviewFacts.mapM_length in E0. rewrite E0. reflexivity.
  - apply window_length in E. lia.
Qed.

(** The issue analytics leave out the entries that are PRs: [total_issues]
    counts the items whose [pull_request] field is missing or falsy, the
    state counts add up to it, and [recent_issues] is at most it. *)
Theorem issues_exclude_prs (env : Env) (xs : list pyval) (days : Z) (r : pyval) :
  Contribution._analyze_issues env (PList xs) days = inr r -> xs <> [] ->
  exists kv lk nrecent, r = PDict kv
    /\ lookup "total_issues" kv = Some (PInt (Z.of_nat (List.length (filter is_plain_issue xs))))
    /\ lookup "recent_issues" kv = Some (PInt nrecent)
    /\ lookup "issue_states" kv = Some (PDict lk)
    /\ sum_ints lk = Z.of_nat (List.length (filter is_plain_issue xs))
    /\ nrecent <= Z.of_nat (List.length (filter is_plain_issue xs)).
Proof.
  intros H Hne. unfold Contribution._analyze_issues in H.
  destruct xs as [| x xs']; [congruence |]. cbn [truthy negb py_iter bind ret] in H.
  inv_bind H. rewrite (plain_issues_filter _ _ E) in H.
  inv_bind H. inv_bind H. cbv zeta in H. cbn [bind ret] in H. injection H as <-.
  do 3 eexists. split; [reflexivity |]. split; [reflexivity |]. split; [reflexivity |].
  split; [reflexivity |]. split.
  - rewrite sum_ints_counter. apply ReviewFacts.mapM_length in E1. rewrite E1. reflexivity.
  - apply window_length in E0. lia.
Qed.

(** The collaboration score of non-negative counts needs no final clamp:
    it is the sum of the three capped parts, lies in [0, 100], and is 100
    exactly when there are at least 6 forks, 14 PR events and 15 issue
    events. *)
Theorem collaboration_score_parts (forks prs issues : nat) :
  let s := Contribution._calculate_collaboration_score
             (Z.of_nat forks) (Z.of_nat prs) (Z.of_nat issues) in
  s = Z.min (Z.of_nat forks * 5) 30 + Z.min (Z.of_nat prs * 3) 40
      + Z.min (Z.of_nat issues * 2) 30
  /\ 0 <= s <= 100
  /\ (s = 100 <-> (6 <= forks /\ 14 <= prs /\ 15 <= issues)%nat).
Proof.
  unfold Contribution._calculate_collaboration_score. cbv zeta. lia.
Qed.

(** The recent-commit analytics of a repository count each commit once
    under its author's name: [unique_authors] is the number of distinct
    names. *)
Theorem recent_commit_authors (cs : list pyval) (days : Z) (r : pyval) :
  Contribution._analyze_recent_commits (PList cs) days = inr r -> cs <> [] ->
  exists names kv, mapM commit_author_name cs = inr names /\ r = PDict kv
    /\ lookup "total_commits" kv = Some (PInt (Z.of_nat (List.length cs)))
    /\ lookup "unique_authors" kv
       = Some (PInt (Z.of_nat (List.length (Contribution.dedup names)))).
Proof.
  intros H Hne. unfold Contribution._analyze_recent_commits in H.
  destruct cs as [| x cs']; [congruence |]. cbn [truthy negb py_iter bind ret] in H.
  inv_bind H. cbv zeta in H. cbn [ret] in H. injection H as <-.
  exists l. eexists. split.
  { unfold commit_author_name. exact E. }
  split; [reflexivity |]. split; [reflexivity |]. cbn [lookup String.eqb].
  unfold Contribution.counter. rewrite <- (length_map fst), keys_counter. reflexivity.
Qed.

End ContributionCountFacts.

(** ** Comments of a PR *)

Module CommentFacts.

Import CounterFacts ReviewFacts FileChangeFacts CommitFacts.

Lemma comment_step_inv a c x res :
  PRAnalysis.comment_step (a, c) x = inr res ->
  exists nm, comment_author x = inr nm
             /\ fst res = Contribution.count_into nm a
             /\ List.length (snd res) = S (List.length c).
Proof.
  unfold PRAnalysis.comment_step, comment_author. cbv beta iota. intro H.
  repeat inv_bind H. injection H as <-.
  match goal with Hc : PRAnalysis.count_key _ a = inr _ |- _ => apply count_key_inr in Hc end.
  subst.
  cbv [bind]. repeat match goal with E : ?m = inr _ |- context [?m] => rewrite E end.
  eexists. split; [reflexivity |]. cbn [fst snd]. split; [reflexivity |].
  rewrite length_app. cbn. lia.
Qed.

Lemma fold_comments cs a c res :
  PRAnalysis.foldM PRAnalysis.comment_step (a, c) cs = inr res ->
  exists names, mapM comment_author cs = inr names
    /\ fst res = fold_left (fun d k => Contribution.count_into k d) names a
    /\ List.length (snd res) = (List.length c + List.length cs)%nat.
Proof.
  revert a c. induction cs as [| x cs IH]; intros a c H; cbn [PRAnalysis.foldM] in H.
  - injection H as <-. exists []. cbn. split; [reflexivity |]. split; [reflexivity | lia].
  - inv_bind H. destruct p as [a' c'].
    destruct (comment_step_inv _ _ _ _ E) as (nm & En & Ea & Ec).
    destruct (IH _ _ H) as (names & Em & Ef & El).
    exists (nm :: names). cbn [mapM]. rewrite En, Em. split; [reflexivity |].
    cbn [fst snd] in Ea, Ec. subst a'. split; [exact Ef |].
    rewrite El, Ec. cbn [List.length]. lia.
Qed.

(** A PR's comment summary counts each comment once under its author's
    login ([Unknown] when missing): the [commenters] object has one key per
    distinct login in order of first appearance, its counts add up to
    [total_comments], and every comment is listed. *)
Theorem comments_summary (cs : list pyval) (r : pyval) :
  PRAnalysis._analyze_comments (PList cs) = inr r -> cs <> [] ->
  exists names commenters comments,
    mapM comment_author cs = inr names
    /\ r = PDict [("total_comments", PInt (Z.of_nat (List.length cs)));
                  ("commenters", PDict commenters);
                  ("comments", PList comments)]
    /\ map fst commenters = map Contribution.key_str (Contribution.dedup names)
    /\ sum_ints commenters = Z.of_nat (List.length cs)
    /\ List.length comments = List.length cs.
Proof.
  intros H Hne. unfold PRAnalysis._analyze_comments in H.
  destruct cs as [| x cs]; [congruence |]. cbn [truthy negb py_iter bind ret] in H.
  destruct (PRAnalysis.foldM PRAnalysis.comment_step ([], []) (x :: cs)) as [e | [a c]] eqn:Ef;
    [discriminate |].
  cbn [bind py_len ret] in H. injection H as <-.
  destruct (fold_comments _ _ _ _ Ef) as (names & Em & Ea & El). cbn [fst snd] in Ea, El.
  subst a.
  assert (Hk : map fst (fold_left (fun d k => Contribution.count_into k d) names [])
               = Contribution.dedup names) by (rewrite keys_counter; reflexivity).
  exists names, (map (fun '(k, n) => (Contribution.key_str k, PInt n))
                  (fold_left (fun d k => Contribution.count_into k d) names [])), c.
  split; [exact Em |]. split.
  { reflexivity. }
  split.
  { rewrite <- Hk, !map_map. apply map_ext. intros [k n]. reflexivity. }
  split.
  { rewrite sum_ints_render, sum_counts_counter. apply mapM_length in Em.
    rewrite Em. reflexivity. }
  exact El.
Qed.

End CommentFacts.

(** ** Contributors, starred repositories, collaboration *)

Module ContributionListFacts.

Import CounterFacts ReviewFacts FileChangeFacts CommitFacts ContributionCountFacts.

Lemma fold_left_add l a : fold_left Z.add l a = a + fold_right Z.add 0 l.
Proof.
  revert a. induction l as [| x l IH]; intro a; cbn [fold_left fold_right]; [lia |].
  rewrite IH. lia.
Qed.

Lemma sort_desc_length {K A} (ltb : K -> K -> bool) (kxs : list (K * A)) :
  List.length (sort_desc ltb kxs) = List.length kxs.
Proof.
  unfold sort_desc. rewrite length_map.
  assert (G : forall acc, List.length (fold_left (fun acc kx => insert_desc ltb kx acc) kxs acc)
                          = (List.length kxs + List.length acc)%nat).
  { induction kxs as [| kx kxs IH]; intro acc; cbn [fold_left List.length]; [reflexivity |].
    rewrite IH, (Permutation_length (SortDescFacts.insert_desc_perm ltb kx acc)).
    cbn [List.length]. lia. }
  rewrite G. cbn. lia.
Qed.

Lemma length_combine_same {A B} (xs : list A) (ys : list B) :
  List.length xs = List.length ys -> List.length (combine xs ys) = List.length ys.
Proof. intro H. rewrite length_combine, H. lia. Qed.

(** A repository's contributor analytics count every contributor, sum their
    contributions, and list the first ten of them (all of them when there
    are fewer). *)
Theorem contributors_summary (cs : list pyval) (r : pyval) :
  Contribution._analyze_contributors (PList cs) = inr r -> cs <> [] ->
  exists ns top, mapM contributions_of cs = inr ns
    /\ r = PDict [("total_contributors", PInt (Z.of_nat (List.length cs)));
                  ("total_contributions", PInt (fold_right Z.add 0 ns));
                  ("top_contributors", PList top)]
    /\ List.length top = Nat.min 10 (List.length cs).
Proof.
  intros H Hne. unfold Contribution._analyze_contributors in H.
  destruct cs as [| x cs']; [congruence |]. cbn [truthy negb py_iter bind ret] in H.
  inv_bind H. inv_bind H. injection H as <-.
  unfold Contribution.sum_field in E. inv_bind E. injection E as <-.
  exists l0, l. split; [exact E1 |]. split.
  - rewrite fold_left_add. reflexivity.
  - apply mapM_length in E0. rewrite E0, length_firstn. reflexivity.
Qed.

(** A user's starred-repository analytics count every starred repository,
    count each one with a language under it (the counts add up to the
    number of such repositories), and show the five most starred (all of
    them when there are fewer). *)
Theorem starred_summary (rs : list pyval) (r : pyval) :
  Contribution._analyze_starred_repos (PList rs) = inr r -> rs <> [] ->
  exists kv langs li items, r = PDict kv
    /\ mapM (fun x => get x "language" PNone) rs = inr langs
    /\ lookup "total_starred" kv = Some (PInt (Z.of_nat (List.length rs)))
    /\ lookup "language_interests" kv = Some (PDict li)
    /\ sum_ints li = Z.of_nat (List.length (filter truthy langs))
    /\ lookup "most_popular_starred" kv = Some (PList items)
    /\ List.length items = Nat.min 5 (List.length rs).
Proof.
  intros H Hne. unfold Contribution._analyze_starred_repos in H.
  destruct rs as [| x rs']; [congruence |]. cbn [truthy negb py_iter bind ret] in H.
  inv_bind H. cbv zeta in H. inv_bind H. inv_bind H. inv_bind H. injection H as <-.
  unfold Contribution.sort_by_int_desc in E1. inv_bind E1. injection E1 as <-.
  do 4 eexists. split; [reflexivity |]. split; [reflexivity |].
  split; [reflexivity |]. split; [reflexivity |]. split.
  { apply sum_ints_counter. }
  split; [reflexivity |].
  apply mapM_length in E2, E3. rewrite E2, !length_firstn, sort_desc_length,
    length_combine_same by exact E3. lia.
Qed.

End ContributionListFacts.

Module CollaborationFacts.

Import CounterFacts ReviewFacts FileChangeFacts CommitFacts ContributionCountFacts.

Lemma filter_disjoint_length {A} (f g : A -> bool) xs :
  (forall x, f x = true -> g x = false) ->
  (List.length (filter f xs) + List.length (filter g xs) <= List.length xs)%nat.
Proof.
  intro Hd. induction xs as [| x xs IH]; cbn [filter List.length]; [lia |].
  destruct (f x) eqn:Ef; [rewrite (Hd x Ef) |]; destruct (g x); cbn [List.length]; lia.
Qed.

Lemma dedup_fold_length xs acc :
  (List.length (fold_left (fun acc x => if existsb (py_eqb x) acc then acc else (acc ++ [x])%list)
                          xs acc) <= List.length acc + List.length xs)%nat.
Proof.
  revert acc. induction xs as [| x xs IH]; intro acc; cbn [fold_left List.length]; [lia |].
  destruct (existsb (py_eqb x) acc).
  - specialize (IH acc). lia.
  - specialize (IH (acc ++ [x])%list). rewrite length_app in IH. cbn in IH. lia.
Qed.

Lemma dedup_length xs : (List.length (Contribution.dedup xs) <= List.length xs)%nat.
Proof. unfold Contribution.dedup. pose proof (dedup_fold_length xs []). cbn in H. lia. Qed.

(** The collaboration metrics count forks among the repositories, and PR
    events, issue events and distinct repository names among the events:
    the PR and issue event counts together are at most the number of events,
    and the collaboration score computed from these counts lies in
    [0, 100]. *)
Theorem collaboration_metrics_counts (rs evs : list pyval) (r : pyval) :
  Contribution._analyze_collaboration_metrics (PList rs) (PList evs) = inr r ->
  exists kv f p i u s, r = PDict kv
    /\ lookup "total_forks_created" kv = Some (PInt f)
    /\ lookup "recent_pr_activity" kv = Some (PInt p)
    /\ lookup "recent_issue_activity" kv = Some (PInt i)
    /\ lookup "unique_repos_contributed" kv = Some (PInt u)
    /\ lookup "collaboration_score" kv = Some (PInt s)
    /\ s = Contribution._calculate_collaboration_score f p i
    /\ 0 <= f <= Z.of_nat (List.length rs)
    /\ 0 <= p /\ 0 <= i /\ p + i <= Z.of_nat (List.length evs)
    /\ 0 <= u <= Z.of_nat (List.length evs)
    /\ 0 <= s <= 100.
Proof.
  intro H. unfold Contribution._analyze_collaboration_metrics in H.
  cbn [py_iter bind ret] in H. inv_bind H. cbv zeta in H. cbn [py_iter bind] in H.
  inv_bind H. inv_bind H. injection H as <-.
  apply mapM_length in E, E0, E1.
  pose proof (filter_partition_length truthy l) as Hf.
  pose proof (filter_disjoint_length (fun t => py_eqb t (PStr "PullRequestEvent"))
                (fun t => py_eqb t (PStr "IssuesEvent")) l0) as Hd.
  assert (Hd' : forall t, py_eqb t (PStr "PullRequestEvent") = true ->
                          py_eqb t (PStr "IssuesEvent") = false).
  { intros t Ht. apply py_eqb_str_r in Ht. subst t. reflexivity. }
  specialize (Hd Hd').
  pose proof (dedup_length (filter truthy l1)) as Hu.
  pose proof (filter_length_le truthy l1) as Hu'.
  do 6 eexists. split; [reflexivity |].
  do 5 (split; [reflexivity |]). split; [reflexivity |].
  unfold Contribution._calculate_collaboration_score. lia.
Qed.

End CollaborationFacts.

Module LanguageActivityFacts.

Import CounterFacts ReviewFacts FileChangeFacts CommitFacts ContributionCountFacts.

Lemma language_entries rs es ls :
  mapM (fun r => lang <- get r "language" PNone ;;
                 if truthy lang then
                   nm <- get r "name" PNone ;; st <- get r "stargazers_count" (PInt 0) ;;
                   up <- get r "updated_at" PNone ;; ret [(lang, (nm, st, up))]
                 else ret []) rs = inr es ->
  mapM (fun r => get r "language" PNone) rs = inr ls ->
  map fst (List.concat es) = filter truthy ls.
Proof.
  revert es ls. induction rs as [| x rs IH]; intros es ls H1 H2; cbn [mapM] in H1, H2.
  - injection H1 as <-. injection H2 as <-. reflexivity.
  - inv_bind H2. inv_bind H2. injection H2 as <-. cbn [bind] in H1.
    destruct (truthy p) eqn:Et.
    + destruct (get x "name" PNone); cbn [bind] in H1; [discriminate |].
      destruct (get x "stargazers_count" (PInt 0)); cbn [bind] in H1; [discriminate |].
      destruct (get x "updated_at" PNone); cbn [bind] in H1; [discriminate |].
      repeat inv_bind H1. injection H1 as <-.
      match goal with Er : ret _ = inr _ |- _ => injection Er as <- end.
      cbn [List.concat filter]. rewrite Et. cbn [app map fst]. f_equal. eauto.
    + repeat inv_bind H1. injection H1 as <-.
      match goal with Er : ret _ = inr _ |- _ => injection Er as <- end.
      cbn [List.concat filter]. rewrite Et. cbn [app]. eauto.
Qed.

Lemma mapM_Forall {A B} (f : A -> M B) (P : B -> Prop) xs ys :
  (forall x y, f x = inr y -> P y) -> mapM f xs = inr ys -> Forall P ys.
Proof.
  intro Hf. revert ys. induction xs as [| x xs IH]; intros ys H; cbn [mapM] in H.
  - injection H as <-. constructor.
  - inv_bind H. inv_bind H. injection H as <-. constructor; eauto.
Qed.

(** A user's language analytics count each repository with a language under
    that language: the [language_distribution] object has one key per
    distinct language in order of first appearance, its counts add up to the
    number of repositories with a language, [total_languages] is its number
    of keys, and [language_repos] lists at most three repositories per
    language. *)
Theorem languages_distribution (rs : list pyval) (r : pyval) :
  Contribution._analyze_user_languages (PList rs) = inr r ->
  exists kv langs ld lr, r = PDict kv
    /\ mapM (fun x => get x "language" PNone) rs = inr langs
    /\ lookup "total_languages" kv = Some (PInt (Z.of_nat (List.length ld)))
    /\ lookup "language_distribution" kv = Some (PDict ld)
    /\ map fst ld = map Contribution.key_str (Contribution.dedup (filter truthy langs))
    /\ sum_ints ld = Z.of_nat (List.length (filter truthy langs))
    /\ lookup "language_repos" kv = Some (PDict lr)
    /\ Forall (fun e => exists l, snd e = PList l /\ (List.length l <= 3)%nat) lr.
Proof.
  intro H. unfold Contribution._analyze_user_languages in H.
  cbn [py_iter bind ret] in H. inv_bind H. cbv zeta in H. inv_bind H.
  inv_bind H. inv_bind H.
  rewrite (language_entries _ _ _ E E0) in H. cbv [ret] in H. injection H as <-.
  do 4 eexists. split; [reflexivity |]. split; [reflexivity |].
  split; [cbn [lookup String.eqb]; rewrite length_map; reflexivity |].
  split; [reflexivity |]. split.
  { rewrite map_map.
    transitivity (map Contribution.key_str
                    (map fst (Contribution.counter (filter truthy l0)))).
    { rewrite map_map. apply map_ext. intros [k n]. reflexivity. }
    unfold Contribution.counter. rewrite keys_counter. reflexivity. }
  split; [apply sum_ints_counter |].
  split; [reflexivity |].
  refine (mapM_Forall _ _ _ _ _ E2).
  intros [lang rs0] y Hy. inv_bind Hy. unfold ret in Hy. injection Hy as <-.
  eexists. split; [reflexivity |].
  repeat match goal with |- context [match ?l with [] => _ | _ :: _ => _ end] =>
    destruct l end; cbn; lia.
Qed.

(** A user's activity analytics keep only the events of the window: their
    number [total_events] is at most the number of fetched events, and the
    counts by event type, by day and by hour each add up to it. *)
Theorem activity_counts (env : Env) (evs : list pyval) (days : Z) (r : pyval) :
  Contribution._analyze_user_activity env (PList evs) days = inr r -> evs <> [] ->
  exists kv n ty dy hr, r = PDict kv
    /\ lookup "total_events" kv = Some (PInt n)
    /\ 0 <= n <= Z.of_nat (List.length evs)
    /\ lookup "activity_types" kv = Some (PDict ty) /\ sum_ints ty = n
    /\ lookup "daily_activity" kv = Some (PDict dy) /\ sum_ints dy = n
    /\ lookup "hourly_patterns" kv = Some (PDict hr) /\ sum_ints hr = n.
Proof.
  intros H Hne. unfold Contribution._analyze_user_activity in H.
  destruct evs as [| x evs']; [congruence |]. cbn [truthy negb py_iter bind ret] in H.
  repeat (inv_bind H; cbv zeta in H). injection H as <-.
  do 5 eexists. split; [reflexivity |]. split; [reflexivity |].
  apply window_length in E.
  apply mapM_length in E0, E1, E2.
  split; [lia |].
  split; [reflexivity |]. split; [rewrite sum_ints_counter; congruence |].
  split; [reflexivity |]. split; [rewrite sum_ints_counter, length_map; congruence |].
  split; [reflexivity |]. rewrite sum_ints_counter, length_map; congruence.
Qed.

End LanguageActivityFacts.

(** ** Instances of the properties on the example inputs *)

Module ExtraWitnesses.

Ltac not_in_chars :=
  let H := fresh in intro H; cbn in H;
  repeat (destruct H as [H|H]; [discriminate H|]); exact H.

Lemma review_status_verdict_witness :
  exists sts, mapM (fun r => get r "state" (PStr "")) ex_reviews = inr sts /\
    exists rest, PRAnalysis._assess_review_status ex_review_analysis
                 = inr (PDict (("status", PStr (review_verdict sts)) :: rest)).
Proof.
  apply (ReviewStatusFacts.review_status_verdict ex_reviews ex_review_analysis).
  vm_compute; reflexivity.
Defined.

Lemma file_languages_cover_witness :
  exists kv lk, ex_file_analysis = PDict kv
    /\ lookup "total_files" kv = Some (PInt (Z.of_nat (List.length ex_files)))
    /\ lookup "languages" kv = Some (PDict lk)
    /\ sum_ints lk = Z.of_nat (List.length ex_files).
Proof.
  apply (FileSummaryFacts.file_languages_cover ex_files ex_file_analysis);
    [vm_compute; reflexivity | discriminate].
Defined.

Lemma file_large_files_exact_witness :
  exists es kv, mapM large_entry ex_files = inr es /\ ex_file_analysis = PDict kv
    /\ lookup "large_files" kv = Some (PList (map snd (filter fst es))).
Proof.
  apply (FileSummaryFacts.file_large_files_exact ex_files ex_file_analysis);
    [vm_compute; reflexivity | discriminate].
Defined.

Lemma file_totals_sum_witness :
  exists kv, ex_file_analysis = PDict kv
    /\ lookup "total_additions" kv = Some (PInt (fold_right Z.add 0 [120; 3; 10]))
    /\ lookup "total_deletions" kv = Some (PInt (fold_right Z.add 0 [5; 0; 0]))
    /\ lookup "net_changes" kv
       = Some (PInt (fold_right Z.add 0 [120; 3; 10] - fold_right Z.add 0 [5; 0; 0])).
Proof.
  apply (FileSummaryFacts.file_totals_sum ex_files ex_file_analysis [120; 3; 10] [5; 0; 0]);
    [vm_compute; reflexivity | discriminate | vm_compute; reflexivity | vm_compute; reflexivity].
Defined.

Lemma commit_authors_summary_witness :
  exists names authors commits,
    mapM commit_author_name ex_commits = inr names
    /\ ex_commit_analysis
       = PDict [("total_commits", PInt (Z.of_nat (List.length ex_commits)));
                ("unique_authors", PInt (Z.of_nat (List.length (Contribution.dedup names))));
                ("authors", PDict authors);
                ("commits", PList commits)]
    /\ map fst authors = map Contribution.key_str (Contribution.dedup names)
    /\ sum_ints authors = Z.of_nat (List.length ex_commits)
    /\ List.length commits = List.length ex_commits.
Proof.
  apply (CommitFacts.commit_authors_summary ex_commits ex_commit_analysis);
    [vm_compute; reflexivity | discriminate].
Defined.

Lemma detect_language_extension_witness :
  PRAnalysis._detect_language (PStr ("src/App" ++ String "." "PY")%string)
  = inr (PStr (PRAnalysis.ext_get (PyStr.py_lower "PY"))).
Proof.
  apply (LanguageFacts.detect_language_extension "src/App" "PY"); not_in_chars.
Defined.

Lemma detect_language_no_dot_witness :
  PRAnalysis._detect_language (PStr "Makefile") = inr (PStr "Unknown").
Proof.
  apply (LanguageFacts.detect_language_no_dot "Makefile"); not_in_chars.
Defined.

Lemma null_body_exception_report_witness :
  exists d, PRAnalysis.get_pr_review_summary true srv_pr7 "octo" "demo" 7
            = PDict [("error", PStr "Exception occurred while fetching PR data");
                     ("details", PStr d)].
Proof.
  apply (NullBodyFacts.null_body_exception_report srv_pr7 "octo" "demo" 7 ex_pr_kv
           (PList ex_files) (PList ex_commits) (PList ex_reviews) (PList []));
    vm_compute; reflexivity.
Defined.

Lemma active_branches_listed_witness :
  exists act, Contribution.filterM
                (BranchTools.is_active (fun z => z) env1 (now_utc env1 - 3 * 24 * 60 * 60)) ex_branches
              = inr act
  /\ (act = [] \/
      exists keys ps results,
        mapM BranchTools.date_sort_key act = inr keys
        /\ Permutation ps (combine keys act)
        /\ StronglySorted (SortDescFacts.desc str_le) ps
        /\ mapM (BranchTools.active_entry env1) (map snd ps) = inr results
        /\ List.length results = List.length act
        /\ result_of PNone (BranchTools.active_body (fun z => z) env1 srv_branches "octo" "demo" 3)
           = PDict [("owner", PStr "octo"); ("repo", PStr "demo"); ("days", PInt 3);
                    ("count", PInt (Z.of_nat (List.length results)));
                    ("branches", PList results)]).
Proof.
  apply (ActiveBranchFacts.active_branches_listed (fun z => z) env1 srv_branches "octo" "demo" 3
           ex_branches (result_of PNone (BranchTools.active_body (fun z => z) env1 srv_branches "octo" "demo" 3)));
    vm_compute; reflexivity.
Defined.

Lemma comparison_refused_witness :
  BranchTools.get_branch_comparison true env1 srv_error "octo" "demo" "main" "feature"
  = http_error_report 500 "Server Error".
Proof.
  exact (ComparisonFacts.comparison_refused env1 srv_error "octo" "demo" "main" "feature" eq_refl).
Defined.

Lemma comparison_recent_commits_witness :
  BranchTools.get_branch_comparison true env1 srv_compare "octo" "demo" "main" "feature"
  = result_of PNone (BranchTools.comparison_body env1 srv_compare "octo" "demo" "main" "feature")
  /\ exists out items,
       result_of PNone (BranchTools.comparison_body env1 srv_compare "octo" "demo" "main" "feature")
       = PDict out
       /\ lookup "recent_commits" out = Some (PList items)
       /\ List.length items = Nat.min 5 (List.length ex_compare_commits).
Proof.
  apply (ComparisonFacts.comparison_recent_commits env1 srv_compare "octo" "demo" "main" "feature"
           ex_compare_kv ex_compare_commits);
    vm_compute; reflexivity.
Defined.

Lemma description_flagged_witness :
  exists cx st risks recs,
    result_of PNone (PRAnalysis._generate_insights (PDict ex_blank_info)
                       ex_file_analysis ex_commit_analysis ex_review_analysis)
    = PDict [("complexity_score", cx); ("review_status", st);
             ("risk_factors", PList (map PStr risks));
             ("recommendations", PList (map PStr recs))]
    /\ (In "No PR description - add context for reviewers" risks
        <-> PyStr.strip ("  " ++ nl ++ " ") = "")
    /\ (In "Add detailed PR description explaining changes" recs
        <-> PyStr.strip ("  " ++ nl ++ " ") = "").
Proof.
  apply (InsightFacts.description_flagged ex_blank_info ex_file_analysis ex_commit_analysis
           ex_review_analysis
           (result_of PNone (PRAnalysis._generate_insights (PDict ex_blank_info)
                               ex_file_analysis ex_commit_analysis ex_review_analysis)));
    vm_compute; reflexivity.
Defined.

Lemma tests_recommended_witness :
  In "Consider adding tests for new functionality"
     (result_of [] (PRAnalysis._generate_recommendations (PDict ex_blank_info) (PDict ex_file_kv)
                      ex_commit_analysis ex_review_analysis))
  <-> 0 < 3 /\ Forall (fun f => exists s, get f "filename" (PStr "") = inr (PStr s)
                                 /\ Health.contains "test" (PyStr.py_lower s) = false) ex_changes.
Proof.
  apply (InsightFacts.tests_recommended (PDict ex_blank_info) ex_commit_analysis ex_review_analysis
           ex_file_kv ex_changes 3);
    vm_compute; reflexivity.
Defined.

Lemma dependency_files_known_witness :
  let r := result_of PNone (Dependencies.dependencies_body package_loads srv_deps "octo" "demo") in
  r = PDict [("owner", PStr "octo"); ("repo", PStr "demo");
             ("dependency_files_found", PList []);
             ("message", PStr "No dependency files found")]
  \/ exists names opts,
       r = PDict [("owner", PStr "octo"); ("repo", PStr "demo");
                  ("dependency_files_found", PList names);
                  ("results", PList (file_results names opts))]
       /\ Forall (fun nm => exists k, In k Dependencies.known_files /\ nm = PStr k) names
       /\ List.length opts = List.length names.
Proof.
  apply (DependencyFacts.dependency_files_known package_loads srv_deps "octo" "demo").
  vm_compute; reflexivity.
Defined.

Lemma owned_plus_forked_witness :
  exists kv o f, result_of PNone (Contribution._analyze_user_repositories (PList ex_repos)) = PDict kv
    /\ lookup "total_repos" kv = Some (PInt (Z.of_nat (List.length ex_repos)))
    /\ lookup "owned_repos" kv = Some (PInt o)
    /\ lookup "forked_repos" kv = Some (PInt f)
    /\ o + f = Z.of_nat (List.length ex_repos).
Proof.
  apply (ContributionCountFacts.owned_plus_forked ex_repos);
    [vm_compute; reflexivity | discriminate].
Defined.

Lemma pr_states_total_witness :
  exists kv lk nrecent, result_of PNone (Contribution._analyze_prs env1 (PList ex_prs) 30) = PDict kv
    /\ lookup "total_prs" kv = Some (PInt (Z.of_nat (List.length ex_prs)))
    /\ lookup "recent_prs" kv = Some (PInt nrecent)
    /\ lookup "pr_states" kv = Some (PDict lk)
    /\ sum_ints lk = Z.of_nat (List.length ex_prs)
    /\ nrecent <= Z.of_nat (List.length ex_prs).
Proof.
  apply (ContributionCountFacts.pr_states_total env1 ex_prs 30);
    [vm_compute; reflexivity | discriminate].
Defined.

Lemma issues_exclude_prs_witness :
  exists kv lk nrecent, result_of PNone (Contribution._analyze_issues env1 (PList ex_issues) 30) = PDict kv
    /\ lookup "total_issues" kv = Some (PInt (Z.of_nat (List.length (filter is_plain_issue ex_issues))))
    /\ lookup "recent_issues" kv = Some (PInt nrecent)
    /\ lookup "issue_states" kv = Some (PDict lk)
    /\ sum_ints lk = Z.of_nat (List.length (filter is_plain_issue ex_issues))
    /\ nrecent <= Z.of_nat (List.length (filter is_plain_issue ex_issues)).
Proof.
  apply (ContributionCountFacts.issues_exclude_prs env1 ex_issues 30);
    [vm_compute; reflexivity | discriminate].
Defined.

Lemma recent_commit_authors_witness :
  exists names kv, mapM commit_author_name ex_commits = inr names
    /\ result_of PNone (Contribution._analyze_recent_commits (PList ex_commits) 30) = PDict kv
    /\ lookup "total_commits" kv = Some (PInt (Z.of_nat (List.length ex_commits)))
    /\ lookup "unique_authors" kv
       = Some (PInt (Z.of_nat (List.length (Contribution.dedup names)))).
Proof.
  apply (ContributionCountFacts.recent_commit_authors ex_commits 30);
    [vm_compute; reflexivity | discriminate].
Defined.

Lemma comments_summary_witness :
  exists names commenters comments,
    mapM comment_author ex_comments = inr names
    /\ result_of PNone (PRAnalysis._analyze_comments (PList ex_comments))
       = PDict [("total_comments", PInt (Z.of_nat (List.length ex_comments)));
                ("commenters", PDict commenters);
                ("comments", PList comments)]
    /\ map fst commenters = map Contribution.key_str (Contribution.dedup names)
    /\ sum_ints commenters = Z.of_nat (List.length ex_comments)
    /\ List.length comments = List.length ex_comments.
Proof.
  apply (CommentFacts.comments_summary ex_comments);
    [vm_compute; reflexivity | discriminate].
Defined.

Lemma contributors_summary_witness :
  exists ns top, mapM contributions_of ex_contributors = inr ns
    /\ result_of PNone (Contribution._analyze_contributors (PList ex_contributors))
       = PDict [("total_contributors", PInt (Z.of_nat (List.length ex_contributors)));
                ("total_contributions", PInt (fold_right Z.add 0 ns));
                ("top_contributors", PList top)]
    /\ List.length top = Nat.min 10 (List.length ex_contributors).
Proof.
  apply (ContributionListFacts.contributors_summary ex_contributors);
    [vm_compute; reflexivity | discriminate].
Defined.

Lemma starred_summary_witness :
  exists kv langs li items,
    result_of PNone (Contribution._analyze_starred_repos (PList ex_starred)) = PDict kv
    /\ mapM (fun x => get x "language" PNone) ex_starred = inr langs
    /\ lookup "total_starred" kv = Some (PInt (Z.of_nat (List.length ex_starred)))
    /\ lookup "language_interests" kv = Some (PDict li)
    /\ sum_ints li = Z.of_nat (List.length (filter truthy langs))
    /\ lookup "most_popular_starred" kv = Some (PList items)
    /\ List.length items = Nat.min 5 (List.length ex_starred).
Proof.
  apply (ContributionListFacts.starred_summary ex_starred);
    [vm_compute; reflexivity | discriminate].
Defined.

Lemma collaboration_metrics_counts_witness :
  exists kv f p i u s,
    result_of PNone (Contribution._analyze_collaboration_metrics (PList ex_repos) (PList ex_events))
    = PDict kv
    /\ lookup "total_forks_created" kv = Some (PInt f)
    /\ lookup "recent_pr_activity" kv = Some (PInt p)
    /\ lookup "recent_issue_activity" kv = Some (PInt i)
    /\ lookup "unique_repos_contributed" kv = Some (PInt u)
    /\ lookup "collaboration_score" kv = Some (PInt s)
    /\ s = Contribution._calculate_collaboration_score f p i
    /\ 0 <= f <= Z.of_nat (List.length ex_repos)
    /\ 0 <= p /\ 0 <= i /\ p + i <= Z.of_nat (List.length ex_events)
    /\ 0 <= u <= Z.of_nat (List.length ex_events)
    /\ 0 <= s <= 100.
Proof.
  apply (CollaborationFacts.collaboration_metrics_counts ex_repos ex_events).
  vm_compute; reflexivity.
Defined.

Lemma languages_distribution_witness :
  exists kv langs ld lr,
    result_of PNone (Contribution._analyze_user_languages (PList ex_lang_repos)) = PDict kv
    /\ mapM (fun x => get x "language" PNone) ex_lang_repos = inr langs
    /\ lookup "total_languages" kv = Some (PInt (Z.of_nat (List.length ld)))
    /\ lookup "language_distribution" kv = Some (PDict ld)
    /\ map fst ld = map Contribution.key_str (Contribution.dedup (filter truthy langs))
    /\ sum_ints ld = Z.of_nat (List.length (filter truthy langs))
    /\ lookup "language_repos" kv = Some (PDict lr)
    /\ Forall (fun e => exists l, snd e = PList l /\ (List.length l <= 3)%nat) lr.
Proof.
  apply (LanguageActivityFacts.languages_distribution ex_lang_repos).
  vm_compute; reflexivity.
Defined.

Lemma activity_counts_witness :
  exists kv n ty dy hr,
    result_of PNone (Contribution._analyze_user_activity env1 (PList ex_events) 30) = PDict kv
    /\ lookup "total_events" kv = Some (PInt n)
    /\ 0 <= n <= Z.of_nat (List.length ex_events)
    /\ lookup "activity_types" kv = Some (PDict ty) /\ sum_ints ty = n
    /\ lookup "daily_activity" kv = Some (PDict dy) /\ sum_ints dy = n
    /\ lookup "hourly_patterns" kv = Some (PDict hr) /\ sum_ints hr = n.
Proof.
  apply (LanguageActivityFacts.activity_counts env1 ex_events 30);
    [vm_compute; reflexivity | discriminate].
Defined.

End ExtraWitnesses.
